(** * JSON-Builder: a shallow embedding of the CSV-to-JSON transform

    The repository holds two prototypes of the same tool:
    - [build_json_gui.py]     (module [V1] below): [TemplateForms],
      [JSONBuilder._gen_id], [JSONBuilder._make_extraction],
      [JSONBuilder._populate_form_from_row], [JSONBuilder.build], and the
      [require] check of [App.on_build];
    - [build_json_gui_V2.py]  (module [V2] below): [_normalize],
      [_index_by_normalized], [IdFactory], [_collect_all_numeric_keys],
      [_find_form_id_by_name], [_set_response],
      [_populate_form_data_from_row], [group_df], [build_from_files].

    Modelling conventions.
    - Python [str] is [string]; the embedding covers ASCII text.  A
      character of code 128 or more is outside the model (it is treated as
      neither whitespace, digit, letter nor word character, whereas Python
      goes by its Unicode class); what is proved of the shape of a
      normalized text is stated for ASCII text.
    - Python [int] is [Z]; [str(n)] is stdpp's [pretty].
    - JSON values are the inductive [json]; a Python [dict] is an
      association list in insertion order with unique keys ([dict_set]
      overwrites in place or appends), as CPython dictionaries behave.
    - The template is assumed to follow the data model: [form], [key],
      [question], [type] hold strings, [data] holds an array, [child_forms]
      and [data_sets] hold objects.  Accessors return the [.get] default on
      a value of another JSON type.  Nothing is assumed of [response]: where
      the code writes into it, the model raises what the code raises on a
      value that is not a mapping.
      JSON numbers are integers ([JInt]); the transform never computes
      with them.
    - A CSV row is an association list from column name to cell.  The
      pandas operations of version 2 ([groupby], [sort_values], [iterrows])
      follow the pandas documentation.
    - Exceptions are the [Err] branch of [result]; a [ValueError] carries
      its message, a [TypeError] only its class.
    - Reading and writing files, the command line and the window are left
      out: the functions start from the parsed template and CSVs.
    - [build_json_gui_V2.py] ends inside the loop over the [refid]s of
      [build_from_files]; see [V2.collect_records]. *)

From Stdlib Require Import ZArith Lia List Ascii String.
From stdpp Require Import prelude strings pretty sorting.

Local Open Scope string_scope.
Local Open Scope Z_scope.

(* ===================================================================== *)
(** * Python string methods                                                *)
(* ===================================================================== *)

Module Py.

Definition chars : string -> list ascii := list_ascii_of_string.
Definition str_of : list ascii -> string := string_of_list_ascii.

Definition code (c : ascii) : N := N_of_ascii c.

(** [str.isspace] on one ASCII character: TAB..CR, FS..US and SPACE
    (the same set is what [\s] matches in a [str] pattern). *)
Definition isspace (c : ascii) : bool :=
  let n := code c in
  ((9 <=? n) && (n <=? 13) || (28 <=? n) && (n <=? 32))%N.

Definition isupper (c : ascii) : bool :=
  let n := code c in ((65 <=? n) && (n <=? 90))%N.

Definition islower (c : ascii) : bool :=
  let n := code c in ((97 <=? n) && (n <=? 122))%N.

Definition isdigit_char (c : ascii) : bool :=
  let n := code c in ((48 <=? n) && (n <=? 57))%N.

(** [\w] in a [str] pattern, on ASCII: letters, digits, underscore. *)
Definition isword (c : ascii) : bool :=
  isupper c || islower c || isdigit_char c || (code c =? 95)%N.

Definition lower_char (c : ascii) : ascii :=
  if isupper c then ascii_of_N (code c + 32) else c.

(** [s.lower()] *)
Definition lower (s : string) : string := str_of (map lower_char (chars s)).

Definition lstrip_chars (p : ascii -> bool) : list ascii -> list ascii :=
  fix go l :=
    match l with
    | c :: l' => if p c then go l' else l
    | [] => []
    end.

Definition rstrip_chars (p : ascii -> bool) : list ascii -> list ascii :=
  fix go l :=
    match l with
    | c :: l' =>
        match go l' with
        | [] => if p c then [] else [c]
        | r => c :: r
        end
    | [] => []
    end.

Definition strip_chars (p : ascii -> bool) (l : list ascii) : list ascii :=
  rstrip_chars p (lstrip_chars p l).

(** [s.strip()] *)
Definition strip (s : string) : string :=
  str_of (strip_chars isspace (chars s)).

(** [s.strip(cs)]: strips the characters of [cs] from both ends. *)
Definition strip_of (cs : string) (s : string) : string :=
  str_of (strip_chars (fun c => bool_decide (c ∈ chars cs)) (chars s)).

(** [s.replace(a, b)] for one-character [a] and [b]. *)
Definition replace_char (a b : ascii) (s : string) : string :=
  str_of (map (fun c => if Ascii.eqb c a then b else c) (chars s)).

(** [s.isdigit()]: non-empty and every character a decimal digit. *)
Definition isdigit (s : string) : bool :=
  match chars s with
  | [] => false
  | l => forallb isdigit_char l
  end.

Definition digit_val (c : ascii) : Z := Z.of_N (code c) - 48.

Definition digits_val (l : list ascii) : Z :=
  fold_left (fun acc c => 10 * acc + digit_val c) l 0.

(** [int(s)] on a string for which [s.isdigit()] holds. *)
Definition int_of_digits (s : string) : Z := digits_val (chars s).

(** [str(n)] *)
Definition str (n : Z) : string := pretty n.

(** [s.split(sep)] for a one-character separator: the fields between
    the separators, empty fields included; never the empty list. *)
Fixpoint split_chars (sep : ascii) (l : list ascii) : list (list ascii) :=
  match l with
  | [] => [[]]
  | c :: l' =>
      if Ascii.eqb c sep then [] :: split_chars sep l'
      else match split_chars sep l' with
           | w :: ws => (c :: w) :: ws
           | [] => [[c]]
           end
  end.

Definition split (sep : ascii) (s : string) : list string :=
  map str_of (split_chars sep (chars s)).

(** [t in s] for strings: [t] occurs as a contiguous substring. *)
Fixpoint prefixb (t l : list ascii) : bool :=
  match t, l with
  | [], _ => true
  | a :: t', b :: l' => Ascii.eqb a b && prefixb t' l'
  | _ :: _, [] => false
  end.

Fixpoint contains_chars (t l : list ascii) : bool :=
  prefixb t l || match l with [] => false | _ :: l' => contains_chars t l' end.

Definition contains (t s : string) : bool := contains_chars (chars t) (chars s).

(** [re.sub(r"\s+", " ", s)]: every maximal run of whitespace becomes one
    space.  [in_ws] tells whether the previous character was whitespace. *)
Fixpoint collapse_go (in_ws : bool) (l : list ascii) : list ascii :=
  match l with
  | [] => []
  | c :: l' =>
      if isspace c then
        if in_ws then collapse_go true l' else " "%char :: collapse_go true l'
      else c :: collapse_go false l'
  end.

Definition re_sub_spaces (s : string) : string :=
  str_of (collapse_go false (chars s)).

(** The character class [[\w%()/?\-\s\.]] of [_normalize]. *)
Definition allowed_punct (c : ascii) : bool :=
  bool_decide (c ∈ chars "%()/?-.").

Definition normalize_keep (c : ascii) : bool :=
  isword c || allowed_punct c || isspace c.

(** [re.sub(r"[^\w%()/?\-\s\.]", "", s)] *)
Definition re_sub_punct (s : string) : string :=
  str_of (filter (fun c => normalize_keep c = true) (chars s)).

End Py.

(* ===================================================================== *)
(** * Python dictionaries, JSON values, exceptions                         *)
(* ===================================================================== *)

Section dict.
Context {K V : Type} `{EqDecision K}.

(** [m.get(k)] *)
Fixpoint dict_get (k : K) (m : list (K * V)) : option V :=
  match m with
  | [] => None
  | (k', v) :: m' => if decide (k = k') then Some v else dict_get k m'
  end.

(** [k in m] *)
Definition dict_has (k : K) (m : list (K * V)) : bool :=
  match dict_get k m with Some _ => true | None => false end.

(** [m[k] = v]: an existing key keeps its place, a new key goes last. *)
Fixpoint dict_set (k : K) (v : V) (m : list (K * V)) : list (K * V) :=
  match m with
  | [] => [(k, v)]
  | (k', v') :: m' =>
      if decide (k = k') then (k, v) :: m' else (k', v') :: dict_set k v m'
  end.

(** [m.setdefault(k, v)], for its effect on [m]. *)
Definition dict_setdefault (k : K) (v : V) (m : list (K * V)) : list (K * V) :=
  if dict_has k m then m else dict_set k v m.

Definition dict_keys (m : list (K * V)) : list K := map fst m.
Definition dict_values (m : list (K * V)) : list V := map snd m.
End dict.

(** [groups.setdefault(k, []).append(r)] *)
Definition setdefault_append {K R : Type} `{EqDecision K} (k : K) (r : R)
    (groups : list (K * list R)) : list (K * list R) :=
  dict_set k (default [] (dict_get k groups) ++ [r])%list groups.

(** [for r in rows: groups.setdefault(key(r), []).append(r)]: the groups
    come in order of first appearance, each with its rows in their original
    order. *)
Definition group_rows {K R : Type} `{EqDecision K} (key : R -> K) (rows : list R)
  : list (K * list R) :=
  fold_left (fun groups r => setdefault_append (key r) r groups) rows [].

#[warnings="-register-all"]
Inductive json : Type :=
  | JNull
  | JBool (b : bool)
  | JInt (n : Z)
  | JStr (s : string)
  | JArr (l : list json)
  | JObj (m : list (string * json)).

Abbreviation dict := (list (string * json)).

(** A CSV row after reading: column name to cell. *)
Abbreviation Row := (list (string * string)).

(** [node.get(k, dflt)] where a string is expected. *)
Definition get_str (k dflt : string) (node : dict) : string :=
  match dict_get k node with
  | Some (JStr s) => s
  | _ => dflt
  end.

(** [node.get(k, {}) or {}] where a mapping is expected. *)
Definition get_obj (k : string) (node : dict) : dict :=
  match dict_get k node with
  | Some (JObj m) => m
  | _ => []
  end.

(** [node.get(k, [])] where a sequence is expected. *)
Definition get_arr (k : string) (node : dict) : list json :=
  match dict_get k node with
  | Some (JArr l) => l
  | _ => []
  end.

(** [v == s] for a looked-up value [v] and a string [s]. *)
Definition is_str (s : string) (v : option json) : bool :=
  match v with
  | Some (JStr s') => String.eqb s' s
  | _ => false
  end.

Definition as_dict (j : json) : dict :=
  match j with JObj m => m | _ => [] end.

(** [r.get(k, '')] on a row. *)
Definition row_get (k : string) (r : Row) : string := default "" (dict_get k r).

(** The exceptions that the transform raises.  A [TypeError] carries no
    message here: the interpreter's message names the types of the operands
    in the order in which it met them. *)
Inductive exn : Type :=
  | ValueError (msg : string)
  | TypeError
  | IndexError (msg : string).

Inductive result (A : Type) : Type :=
  | Ok (a : A)
  | Err (e : exn).
Arguments Ok {A} a.
Arguments Err {A} e.

(** Computations that may raise and that thread the identifier counter. *)
Definition M (A : Type) : Type := Z -> result (A * Z).

Definition ret {A} (a : A) : M A := fun c => Ok (a, c).
Definition raise {A} (e : exn) : M A := fun _ => Err e.
Definition bind {A B} (m : M A) (k : A -> M B) : M B :=
  fun c => match m c with
           | Ok (a, c') => k a c'
           | Err e => Err e
           end.
Definition lift {A} (r : result A) : M A :=
  fun c => match r with Ok a => Ok (a, c) | Err e => Err e end.

Notation "x <- m ;; k" := (bind m (fun x => k))
  (at level 100, m at next level, right associativity).

(** [for x in xs: acc = body(acc, x)] *)
Fixpoint for_each {A B} (xs : list A) (acc : B) (body : B -> A -> M B) : M B :=
  match xs with
  | [] => ret acc
  | x :: xs' => acc' <- body acc x ;; for_each xs' acc' body
  end.


(** [int(s)] on an arbitrary string: surrounding whitespace, an optional
    sign, then digits, where single underscores may separate digits.
    [None] stands for the [ValueError] that [int] raises. *)
Fixpoint int_body (acc : Z) (after_digit : bool) (l : list ascii) : option Z :=
  match l with
  | [] => if after_digit then Some acc else None
  | c :: l' =>
      if Py.isdigit_char c then int_body (10 * acc + Py.digit_val c) true l'
      else if Ascii.eqb c "_" then
        (if after_digit then int_body acc false l' else None)
      else None
  end.

Definition py_int (s : string) : option Z :=
  match Py.strip_chars Py.isspace (Py.chars s) with
  | "+"%char :: l => int_body 0 false l
  | "-"%char :: l => Z.opp <$> int_body 0 false l
  | l => int_body 0 false l
  end.

(** [f"{n:02d}"] *)
Definition fmt_02d (n : Z) : string :=
  if (0 <=? n) && (n <? 10) then "0" +:+ Py.str n else Py.str n.

(** The newline of the [f"{a}\n{b}"] keys. *)
Definition NL : string := String (ascii_of_N 10) "".

(* ===================================================================== *)
(** * build_json_gui_V2.py                                                 *)
(* ===================================================================== *)

Module V2.

(** [_normalize(s)], on ASCII text.  The three [replace] calls turn curly
    quotes into straight ones; curly quotes are not ASCII, and the straight
    quotes they become are removed by the next substitution, so the step is
    the identity on the strings of the model.  On a text with other
    characters the code goes by their Unicode class (an accented letter is
    a word character and is kept, a no-break space is whitespace); such
    texts are outside the embedding. *)
Definition _normalize (s : option string) : string :=
  match s with
  | None => ""
  | Some s =>
      let s := Py.lower (Py.strip s) in
      let s := Py.re_sub_spaces s in
      let s := Py.re_sub_punct s in
      let s := Py.replace_char "_" " " s in
      Py.strip (Py.re_sub_spaces s)
  end.

(** [_index_by_normalized(headers)]: [{_normalize(h): h for h in headers}] *)
Definition _index_by_normalized (headers : list string) : list (string * string) :=
  fold_left (fun idx h => dict_set (_normalize (Some h)) h idx) headers [].

(** [class IdFactory] *)
Record IdFactory : Type := mkIdFactory { counter : Z }.

(** [IdFactory.next]: increments, then returns the counter as a string. *)
Definition next (f : IdFactory) : string * IdFactory :=
  let c := counter f + 1 in (Py.str c, mkIdFactory c).

(** [id_factory.next()] inside the build, whose state is the counter. *)
Definition next_id : M string :=
  fun c => let '(s, f) := next (mkIdFactory c) in Ok (s, counter f).

(** [_collect_all_numeric_keys(obj, keys)] *)
Fixpoint _collect_all_numeric_keys (obj : json) (keys : list Z) : list Z :=
  match obj with
  | JObj m =>
      (fix items (m : list (string * json)) (keys : list Z) : list Z :=
         match m with
         | [] => keys
         | (k, v) :: m' =>
             let keys := if Py.isdigit k then keys ++ [Py.int_of_digits k] else keys in
             items m' (_collect_all_numeric_keys v keys)
         end) m keys
  | JArr l =>
      (fix each (l : list json) (keys : list Z) : list Z :=
         match l with
         | [] => keys
         | item :: l' => each l' (_collect_all_numeric_keys item keys)
         end) l keys
  | _ => keys
  end%list.

(** [max(xs)] on a non-empty list. *)
Definition py_max (x : Z) (xs : list Z) : Z := fold_left Z.max xs x.

(** [start_from = max(all_numeric_keys) if all_numeric_keys else 10000] *)
Definition start_from (template_master : json) : Z :=
  match _collect_all_numeric_keys template_master [] with
  | [] => 10000
  | x :: xs => py_max x xs
  end.

(** [id_factory = IdFactory(start_from=start_from)] *)
Definition new_id_factory (template_master : json) : IdFactory :=
  mkIdFactory (start_from template_master).

(** [_find_form_id_by_name(forms_dict, contains_terms)] *)
Fixpoint _find_form_id_by_name (forms_dict : dict) (contains_terms : list string)
  : option string :=
  match forms_dict with
  | [] => None
  | (fid, node) :: rest =>
      let name := get_str "form" "" (as_dict node) in
      let norm := _normalize (Some name) in
      if forallb (fun term => Py.contains term norm) contains_terms
      then Some fid
      else _find_form_id_by_name rest contains_terms
  end.

(** [_set_response(datum, value)].  [resp = datum.get("response", {})]:
    when [datum] has no ["response"], [resp] is a fresh mapping that is
    never stored in [datum], so the writes are lost; when the value is
    not a mapping, a fresh one replaces it in [datum]. *)
Definition _set_response (datum : dict) (value : option string) : dict :=
  let dtype := Py.lower (Py.strip (get_str "type" "" datum)) in
  let v := JStr (default "" value) in
  match dict_get "response" datum with
  | None => datum
  | Some r =>
      let resp := as_dict r in
      let resp :=
        if decide (dtype = "text") then
          dict_setdefault "answer" (JStr "") (dict_set "text" v resp)
        else if decide (dtype = "radio" \/ dtype = "checkbox") then
          dict_setdefault "text" (JStr "") (dict_set "answer" v resp)
        else
          dict_set "answer" v (dict_set "text" v resp) in
      dict_set "response" (JObj resp) datum
  end.

(** A truthy [Optional[str]]: neither [None] nor the empty string. *)
Definition truthy (s : option string) : bool :=
  match s with
  | Some s => negb (String.eqb s "")
  | None => false
  end.

(** The loop body of [_populate_form_data_from_row] for one [datum]. *)
Definition populate_datum (row : Row) (header_index : list (string * string))
    (spd_label_override : option string) (datum : dict) : dict :=
  let q_text := get_str "question" "" datum in
  let norm_q := _normalize (Some q_text) in
  let value :=
    if truthy spd_label_override &&
       bool_decide (norm_q ∈ [_normalize (Some "Dataset Label");
                              _normalize (Some "Form Name")])
    then spd_label_override
    else match dict_get norm_q header_index with
         | Some col => dict_get col row
         | None => None
         end in
  _set_response datum value.

(** [_populate_form_data_from_row(form_node, row, header_index,
    spd_label_override)]: the entries of [form_node["data"]] are updated
    in place. *)
Definition _populate_form_data_from_row (form_node : dict) (row : Row)
    (header_index : list (string * string))
    (spd_label_override : option string) : dict :=
  match dict_get "data" form_node with
  | Some (JArr data) =>
      let data' :=
        map (fun datum =>
               match datum with
               | JObj d => JObj (populate_datum row header_index spd_label_override d)
               | other => other
               end) data in
      dict_set "data" (JArr data') form_node
  | _ => form_node
  end.

(** A [DataFrame] as [pd.read_csv(path, dtype=str).fillna("")] returns it:
    the column labels and the rows in file order, every cell a string and
    every row with a cell for each column. *)
Record DataFrame : Type := mkDF { columns : list string; rows : list Row }.

(** [df.groupby(keys, dropna=False, sort=False)] (pandas): one group per
    distinct tuple of key cells, the groups in order of first appearance,
    each group with its rows in their original order. *)
Definition groupby (df : DataFrame) (keys : list string)
  : list (list string * DataFrame) :=
  map (fun g => (g.1, mkDF (columns df) g.2))
      (group_rows (fun r => map (fun k => row_get k r) keys) (rows df)).

Definition first_missing (keys cols : list string) : option string :=
  head (filter (fun k => k ∉ cols) keys).

(** [group_df(df, keys)] *)
Definition group_df (df : option DataFrame) (keys : list string)
  : result (list (list string * DataFrame)) :=
  match df with
  | None => Ok []
  | Some df =>
      match first_missing keys (columns df) with
      | Some k => Err (ValueError ("Required column '" +:+ k +:+ "' missing in CSV."))
      | None =>
          Ok (fold_left (fun grouped g => dict_set g.1 g.2 grouped)
                        (groupby df keys) [])
      end
  end.

(** The ["__spd_id_sort__"] column: [int(v) if str(v).isdigit() else v]. *)
Inductive sort_key : Type :=
  | KInt (n : Z)
  | KStr (s : string).

Definition spd_id_sort (v : string) : sort_key :=
  if Py.isdigit v then KInt (Py.int_of_digits v) else KStr v.

Definition is_KInt (k : sort_key) : bool :=
  match k with KInt _ => true | KStr _ => false end.

(** [a <= b] for two keys of the same Python type. *)
Definition key_le (a b : sort_key) : bool :=
  match a, b with
  | KInt x, KInt y => x <=? y
  | KStr x, KStr y => String.leb x y
  | _, _ => false
  end.

(** Stable insertion: [x] goes in front of the first element that is not
    smaller than it. *)
Fixpoint insert_row (x : sort_key * Row) (l : list (sort_key * Row))
  : list (sort_key * Row) :=
  match l with
  | [] => [x]
  | y :: l' => if key_le x.1 y.1 then x :: l else y :: insert_row x l'
  end.

(** [df.sort_values("__spd_id_sort__", kind="stable")] on the rows of one
    [refid]: an ascending stable sort; comparing an [int] key with a [str]
    key raises [TypeError] (its message names the two types in the order in
    which the sort met them).  The helper column itself is left out of the
    rows: no header maps to it unless the CSV has a column of that name. *)
Definition sort_values (rs : list Row) : result (list Row) :=
  let keyed := map (fun r => (spd_id_sort (row_get "spd_id" r), r)) rs in
  if forallb (fun kr => is_KInt kr.1) keyed || forallb (fun kr => negb (is_KInt kr.1)) keyed
  then Ok (map snd (foldr insert_row [] keyed))
  else Err TypeError.

(** What the scan of the template finds, as the local variables of
    [build_from_files] hold it. *)
Record Blueprint : Type := mkBlueprint {
  template_master : dict;
  extraction_template : dict;
  spd_template : dict;
  spd_children : dict;
  safety_id_under_spd : option string;
  perf_id_under_spd : option string;
  followup_id_under_spd : option string;
  safety_template : dict;
  safety_children : dict;
  harms_id_under_safety : option string
}.

(** The first part of [build_from_files]: template checks and discovery. *)
Definition scan_template (template_json : json) : result Blueprint :=
  match template_json with
  | JArr (tm :: _) =>
      let template_master := as_dict tm in
      match get_obj "data_sets" template_master with
      | [] => Err (ValueError "Template missing 'data_sets' dictionary with at least one dataset.")
      | ds_dict =>
          match _find_form_id_by_name ds_dict ["extraction"] with
          | None => Err (ValueError "Could not find an 'Extraction' dataset in template (form name contains 'Extraction').")
          | Some extraction_id =>
              let extraction_template := as_dict (default JNull (dict_get extraction_id ds_dict)) in
              let extraction_children := get_obj "child_forms" extraction_template in
              match _find_form_id_by_name extraction_children ["study"; "demographics"] with
              | None => Err (ValueError "Could not find a 'Study and Patient Demographics' form under Extraction (form name should contain 'Study' and 'Demographics').")
              | Some spd_id =>
                  let spd_template := as_dict (default JNull (dict_get spd_id extraction_children)) in
                  let spd_children := get_obj "child_forms" spd_template in
                  let safety_id_under_spd := _find_form_id_by_name spd_children ["safety"] in
                  let perf_id_under_spd := _find_form_id_by_name spd_children ["performance"; "discrete"] in
                  let followup_id_under_spd := _find_form_id_by_name spd_children ["follow"] in
                  let safety_template :=
                    if truthy safety_id_under_spd
                    then as_dict (default (JObj []) (dict_get (default "" safety_id_under_spd) spd_children))
                    else [] in
                  let safety_children := get_obj "child_forms" safety_template in
                  let harms_id_under_safety :=
                    match safety_children with
                    | [] => None
                    | _ => _find_form_id_by_name safety_children ["harms"]
                    end in
                  Ok (mkBlueprint template_master extraction_template spd_template
                        spd_children safety_id_under_spd perf_id_under_spd
                        followup_id_under_spd safety_template safety_children
                        harms_id_under_safety)
              end
          end
      end
  | _ => Err (ValueError "Template must be a JSON array with at least 1 record.")
  end.

(** [a or b] on strings. *)
Definition str_or (a b : string) : string := if String.eqb a "" then b else a.

(** The tables that [build_from_files] derives from the CSVs. *)
Record Tables : Type := mkTables {
  spd_hdr_idx : list (string * string);
  safety_hdr_idx : list (string * string);
  perf_hdr_idx : list (string * string);
  harms_hdr_idx : list (string * string);
  followup_hdr_idx : list (string * string);
  spd_by_refid : list (list string * DataFrame);
  safety_by_refid_spd : list (list string * DataFrame);
  perf_by_refid_spd : list (list string * DataFrame);
  harms_by_refid_spd_safety : list (list string * DataFrame);
  follow_by_refid_spd : list (list string * DataFrame)
}.

Definition hdr_idx (df : option DataFrame) : list (string * string) :=
  match df with
  | Some df => _index_by_normalized (columns df)
  | None => []
  end.

Definition bind_result {A B} (r : result A) (k : A -> result B) : result B :=
  match r with Ok a => k a | Err e => Err e end.

(** The second part of [build_from_files]: header indices and groupings. *)
Definition make_tables (spd_df : DataFrame)
    (safety_df perf_df harms_df followup_df : option DataFrame) : result Tables :=
  bind_result (group_df (Some spd_df) ["refid"]) (fun spd_by_refid =>
  bind_result (group_df safety_df ["refid"; "spd_id"]) (fun safety_by_refid_spd =>
  bind_result (group_df perf_df ["refid"; "spd_id"]) (fun perf_by_refid_spd =>
  bind_result (group_df harms_df ["refid"; "spd_id"; "safety_id"]) (fun harms_by =>
  bind_result (group_df followup_df ["refid"; "spd_id"]) (fun follow_by_refid_spd =>
  Ok (mkTables (hdr_idx (Some spd_df)) (hdr_idx safety_df) (hdr_idx perf_df)
        (hdr_idx harms_df) (hdr_idx followup_df)
        spd_by_refid safety_by_refid_spd perf_by_refid_spd harms_by
        follow_by_refid_spd)))))).

Section loops.
Variable bp : Blueprint.
Variable tb : Tables.
Variable zero_pad_spd : bool.

(** [spd_name]: [spd_{n:02d}] or [spd_{n}] when [int] accepts the
    stripped value, [spd_{spd_id_val}] otherwise. *)
Definition spd_name_of (spd_id_val : string) : string :=
  match py_int (Py.strip spd_id_val) with
  | Some n => if zero_pad_spd then "spd_" +:+ fmt_02d n else "spd_" +:+ Py.str n
  | None => "spd_" +:+ spd_id_val
  end.

(** 3a-i) the Harms nodes of one Safety node. *)
Definition harms_nodes (refid spd_id_val safety_id_val spd_name : string) : M dict :=
  match dict_get [refid; spd_id_val; safety_id_val] (harms_by_refid_spd_safety tb) with
  | Some harms_rows =>
      if truthy (harms_id_under_safety bp) then
        let harms_template_node :=
          as_dict (default (JObj [])
                     (dict_get (default "" (harms_id_under_safety bp)) (safety_children bp))) in
        for_each (rows harms_rows) [] (fun children hrow =>
          new_harm_id <- next_id ;;
          let harm_node :=
            dict_set "key" (JStr (Py.strip (spd_name +:+ NL +:+ safety_id_val)))
                     harms_template_node in
          let harm_node :=
            _populate_form_data_from_row harm_node hrow (harms_hdr_idx tb) None in
          ret (dict_set new_harm_id (JObj harm_node) children))
      else ret []
  | None => ret []
  end.

(** 3a) the Safety nodes of one SPD node, added to its [child_forms]. *)
Definition safety_nodes (refid spd_id_val spd_name : string) (children : dict) : M dict :=
  match dict_get [refid; spd_id_val] (safety_by_refid_spd tb) with
  | Some safety_rows =>
      if truthy (safety_id_under_spd bp) then
        if bool_decide ("safety_id" ∈ columns safety_rows) then
          for_each (rows safety_rows) children (fun children srow =>
            let safety_id_val := row_get "safety_id" srow in
            new_safety_id <- next_id ;;
            let ae_val := str_or (row_get "Adverse Event" srow) (row_get "adverse_event" srow) in
            let safety_node :=
              dict_set "key" (JStr (Py.strip (spd_name +:+ NL +:+ ae_val)))
                       (safety_template bp) in
            let safety_node :=
              _populate_form_data_from_row safety_node srow (safety_hdr_idx tb) None in
            harms <- harms_nodes refid spd_id_val safety_id_val spd_name ;;
            let safety_node := dict_set "child_forms" (JObj harms) safety_node in
            ret (dict_set new_safety_id (JObj safety_node) children))
        else raise (ValueError "Safety.csv must contain 'safety_id' column.")
      else ret children
  | None => ret children
  end.

(** 3b) the Performance (discrete) nodes of one SPD node. *)
Definition perf_nodes (refid spd_id_val spd_name : string) (children : dict) : M dict :=
  match dict_get [refid; spd_id_val] (perf_by_refid_spd tb) with
  | Some perf_rows =>
      if truthy (perf_id_under_spd bp) then
        let perf_template_node :=
          as_dict (default (JObj [])
                     (dict_get (default "" (perf_id_under_spd bp)) (spd_children bp))) in
        for_each (rows perf_rows) children (fun children prow =>
          new_perf_id <- next_id ;;
          let endpoint := str_or (row_get "Perf Discrete Endpoint" prow)
                                 (row_get "perf discrete endpoint" prow) in
          let tpoint := str_or (row_get "Perf Discrete Time Point" prow)
                               (row_get "perf discrete time point" prow) in
          let key := Py.strip (Py.strip_of "-"
                       (spd_name +:+ NL +:+ endpoint +:+ "-" +:+ tpoint)) in
          let perf_node := dict_set "key" (JStr key) perf_template_node in
          let perf_node :=
            _populate_form_data_from_row perf_node prow (perf_hdr_idx tb) None in
          ret (dict_set new_perf_id (JObj perf_node) children))
      else ret children
  | None => ret children
  end.

(** 3c) the Follow-up nodes of one SPD node. *)
Definition followup_nodes (refid spd_id_val spd_name : string) (children : dict) : M dict :=
  match dict_get [refid; spd_id_val] (follow_by_refid_spd tb) with
  | Some follow_rows =>
      if truthy (followup_id_under_spd bp) then
        let follow_template_node :=
          as_dict (default (JObj [])
                     (dict_get (default "" (followup_id_under_spd bp)) (spd_children bp))) in
        for_each (rows follow_rows) children (fun children frow =>
          new_follow_id <- next_id ;;
          let follow_node :=
            dict_set "key" (JStr (spd_name +:+ NL +:+ "Follow-up")) follow_template_node in
          let follow_node :=
            _populate_form_data_from_row follow_node frow (followup_hdr_idx tb) None in
          ret (dict_set new_follow_id (JObj follow_node) children))
      else ret children
  | None => ret children
  end.

(** 3) the body of the loop over the SPD rows of one [refid].  The node
    is stored under [new_spd_id] before its children are added; it is
    stored by reference, so the stored node is the finished one. *)
Definition spd_step (refid : string) (extraction_children : dict) (spd_row : Row)
  : M dict :=
  let spd_id_val := row_get "spd_id" spd_row in
  let spd_name := spd_name_of spd_id_val in
  new_spd_id <- next_id ;;
  let spd_node := dict_set "key" (JStr spd_name) (spd_template bp) in
  let spd_node :=
    _populate_form_data_from_row spd_node spd_row (spd_hdr_idx tb) (Some spd_name) in
  children <- safety_nodes refid spd_id_val spd_name [] ;;
  children <- perf_nodes refid spd_id_val spd_name children ;;
  children <- followup_nodes refid spd_id_val spd_name children ;;
  let spd_node := dict_set "child_forms" (JObj children) spd_node in
  ret (dict_set new_spd_id (JObj spd_node) extraction_children).

(** The Extraction node of one [refid], before its SPD children. *)
Definition extraction_node_of (refid : string) : dict :=
  let node := dict_set "key" (JStr refid) (extraction_template bp) in
  let node := dict_set "child_forms" (JObj []) node in
  match dict_get "data" node with
  | Some (JArr data) =>
      dict_set "data"
        (JArr (map (fun datum =>
                 match datum with
                 | JObj d =>
                     if decide (_normalize (Some (get_str "question" "" d))
                                = _normalize (Some "Article Identifier"))
                     then JObj (_set_response d (Some refid))
                     else datum
                 | other => other
                 end) data)) node
  | _ => node
  end.

(** The body of the loop over [spd_by_refid.items()]: the [top_record]
    of one [refid] as it stands when the iteration ends. *)
Definition refid_step (refid_key : list string) (spd_rows_for_refid : DataFrame)
  : M dict :=
  let refid := default "" (head refid_key) in
  let top_record := dict_set "refid" (JStr refid) (template_master bp) in
  let top_record := dict_set "data_sets" (JObj []) top_record in
  new_extraction_id <- next_id ;;
  let extraction_node := extraction_node_of refid in
  if bool_decide ("spd_id" ∈ columns spd_rows_for_refid) then
    sorted <- lift (sort_values (rows spd_rows_for_refid)) ;;
    extraction_children <- for_each sorted [] (spd_step refid) ;;
    let extraction_node :=
      dict_set "child_forms" (JObj extraction_children) extraction_node in
    ret (dict_set "data_sets"
           (JObj [(new_extraction_id, JObj extraction_node)]) top_record)
  else raise (ValueError "SPD CSV must contain 'spd_id' column.")
.

(** Modelled from the spec: the source file stops inside the loop over
    the [refid]s, before [top_record] is stored and the function
    returns.  Section 4.6, step 6: the full ordered sequence of
    top-level records is returned, one per unique [refid], in [refid]
    first-seen order. *)
Definition collect_records : M (list json) :=
  for_each (spd_by_refid tb) [] (fun output_records g =>
    top_record <- refid_step g.1 g.2 ;;
    ret (output_records ++ [JObj top_record])%list).
End loops.

(** [build_from_files], from the parsed template and CSVs on.  The result
    carries the final value of the identifier counter. *)
Definition build_from_files (template_json : json) (spd_df : DataFrame)
    (safety_df perf_df harms_df followup_df : option DataFrame)
    (zero_pad_spd : bool) : result (list json * Z) :=
  bind_result (scan_template template_json) (fun bp =>
  let id_factory := new_id_factory (JObj (template_master bp)) in
  bind_result (make_tables spd_df safety_df perf_df harms_df followup_df) (fun tb =>
  collect_records bp tb zero_pad_spd (counter id_factory))).

End V2.

(* ===================================================================== *)
(** * build_json_gui.py                                                    *)
(* ===================================================================== *)

Module V1.

Definition USER_NAME : string := "KimKwang".

(** [class TemplateForms]: the prototypes found in the template. *)
Record TemplateForms : Type := mkTemplateForms {
  extraction_proto : dict;
  spd_proto : option dict;
  safety_proto : option dict;
  perf_discrete_proto : option dict;
  harms_proto : option dict;
  followup_proto : option dict
}.

(** [(v.get('form') or '').strip()] *)
Definition form_name (v : json) : string := Py.strip (get_str "form" "" (as_dict v)).

(** A prototype that the [if self.spd_proto:] test accepts. *)
Definition truthy_proto (p : option dict) : bool :=
  match p with
  | Some (_ :: _) => true
  | _ => false
  end.

(** [TemplateForms.__init__] *)
Definition TemplateForms_init (template_obj : json) : result TemplateForms :=
  let with_root (root : dict) : result TemplateForms :=
    match get_obj "data_sets" root with
    | [] => Err (ValueError "Template does not contain data_sets")
    | (first_ds_key, first_ds) :: _ =>
        let ex_proto := as_dict first_ds in
        let cf := get_obj "child_forms" ex_proto in
        let t0 := mkTemplateForms ex_proto None None None None None in
        let t1 :=
          fold_left (fun t kv =>
            let v := kv.2 in
            let nm := form_name v in
            if decide (nm = "Study Parameters and Demographics") then
              mkTemplateForms (extraction_proto t) (Some (as_dict v)) (safety_proto t)
                (perf_discrete_proto t) (harms_proto t) (followup_proto t)
            else if decide (nm = "Safety") then
              mkTemplateForms (extraction_proto t) (spd_proto t) (Some (as_dict v))
                (perf_discrete_proto t) (harms_proto t) (followup_proto t)
            else if decide (nm = "Performance (discrete)") then
              mkTemplateForms (extraction_proto t) (spd_proto t) (safety_proto t)
                (Some (as_dict v)) (harms_proto t) (followup_proto t)
            else if decide (nm = "Follow-up Subform") then
              mkTemplateForms (extraction_proto t) (spd_proto t) (safety_proto t)
                (perf_discrete_proto t) (harms_proto t) (Some (as_dict v))
            else t) cf t0 in
        let followup :=
          if truthy_proto (spd_proto t1) then
            fold_left (fun fu kv =>
              match fu with
              | None =>
                  if decide (form_name kv.2 = "Follow-up Subform")
                  then Some (as_dict kv.2) else None
              | Some _ => fu
              end) (get_obj "child_forms" (default [] (spd_proto t1))) (followup_proto t1)
          else followup_proto t1 in
        let harms :=
          if truthy_proto (safety_proto t1) then
            as_dict <$>
              head (filter (fun v => form_name v = "Harms")
                      (dict_values (get_obj "child_forms" (default [] (safety_proto t1)))))
          else None in
        Ok (mkTemplateForms ex_proto (spd_proto t1) (safety_proto t1)
              (perf_discrete_proto t1) harms followup)
    end in
  match template_obj with
  | JArr (root :: _) => with_root (as_dict root)
  | JArr [] => Err (IndexError "list index out of range")
  | JObj root => with_root root
  | _ => Err (ValueError "Unexpected template format")
  end.

(** [TemplateForms.question_types]: question text to answer type, in the
    order the questions first appear. *)
Definition question_types (form_proto : dict) : list (string * string) :=
  fold_left
    (fun qmap q =>
       dict_set (get_str "question" "" (as_dict q)) (get_str "type" "Text" (as_dict q)) qmap)
    (get_arr "data" form_proto) [].

(** [JSONBuilder.__init__]: [self.next_id = 10000] *)
Definition initial_next_id : Z := 10000.

(** [JSONBuilder._gen_id] *)
Definition _gen_id : M string :=
  fun next_id => let next_id := next_id + 1 in Ok (Py.str next_id, next_id).

(** One question/answer entry of the output. *)
Definition entry (q_text q_type : string) (text answer : string) : json :=
  JObj [("question", JStr q_text); ("type", JStr q_type);
        ("response", JObj [("text", JStr text); ("answer", JStr answer)])].

(** The same entry in the key order of [resp = {'answer': '', 'text': ''}]. *)
Definition entry_at (q_text q_type : string) (answer text : string) : json :=
  JObj [("question", JStr q_text); ("type", JStr q_type);
        ("response", JObj [("answer", JStr answer); ("text", JStr text)])].

(** [[x.strip() for x in val.replace(';', ',').split(',') if x.strip()]] *)
Definition cer_items (val : string) : list string :=
  filter (fun x => x <> "")
         (map Py.strip (Py.split "," (Py.replace_char ";" "," val))).

(** The entries that [_populate_form_from_row] appends for one question. *)
Definition entries_for (row : Row) (q_text q_type : string) : list json :=
  match dict_get q_text row with
  | Some val =>
      if decide (q_text = "Associated CERs") then
        match cer_items val with
        | [] => [entry q_text q_type "" ""]
        | items => map (fun item => entry q_text q_type "" item) items
        end
      else if decide (q_type = "Radio" \/ q_type = "Checkbox") then
        [entry_at q_text q_type val ""]
      else
        [entry_at q_text q_type "" val]
  | None => [entry_at q_text q_type "" ""]
  end.

(** [JSONBuilder._populate_form_from_row] *)
Definition _populate_form_from_row (form_proto : dict) (row : Row) : dict :=
  let form := dict_set "user" (JStr USER_NAME) form_proto in
  let qtypes := question_types form_proto in
  let data := flat_map (fun q => entries_for row q.1 q.2) qtypes in
  let form := dict_set "data" (JArr data) form in
  dict_setdefault "child_forms" (JObj []) form.

(** [q.setdefault('response', {}); q['response']['text'] = str(refid)]:
    an entry without a ['response'] gets a new mapping; a ['response'] that
    is there is left in place by [setdefault], and the item assignment on
    it raises [TypeError] unless it is a mapping. *)
Definition set_article_identifier (refid : string) (q : dict) : result dict :=
  match dict_get "response" q with
  | None => Ok (dict_set "response" (JObj [("text", JStr refid)]) q)
  | Some (JObj resp) =>
      Ok (dict_set "response" (JObj (dict_set "text" (JStr refid) resp)) q)
  | Some _ => Err TypeError
  end.

(** The loop [for q in ds.get('data', [])] of [_make_extraction] on one
    entry. *)
Definition extraction_entry (refid : string) (q : json) : result json :=
  match q with
  | JObj d =>
      if is_str "Article Identifier" (dict_get "question" d)
      then match set_article_identifier refid d with
           | Ok d' => Ok (JObj d')
           | Err e => Err e
           end
      else Ok q
  | other => Ok other
  end.

(** [for x in xs: ys.append(f(x))], where [f] may raise. *)
Fixpoint for_all {A B} (f : A -> result B) (xs : list A) : result (list B) :=
  match xs with
  | [] => Ok []
  | x :: xs' =>
      match f x with
      | Ok y =>
          match for_all f xs' with
          | Ok ys => Ok (y :: ys)
          | Err e => Err e
          end
      | Err e => Err e
      end
  end.

(** [JSONBuilder._make_extraction] *)
Definition _make_extraction (t : TemplateForms) (refid : string) : result dict :=
  let ds := dict_set "key" (JStr refid) (extraction_proto t) in
  let ds := dict_set "user" (JStr USER_NAME) ds in
  match dict_get "data" ds with
  | Some (JArr data) =>
      match for_all (extraction_entry refid) data with
      | Ok data' =>
          Ok (dict_set "child_forms" (JObj []) (dict_set "data" (JArr data') ds))
      | Err e => Err e
      end
  | _ => Ok (dict_set "child_forms" (JObj []) ds)
  end.

(** The grouping loops of [JSONBuilder.build]. *)
Definition spd_by_refid (spd_rows : list Row) : list (string * list Row) :=
  fold_left
    (fun groups r =>
       let rf := Py.strip (row_get "refid" r) in
       if String.eqb rf "" then groups else setdefault_append rf r groups)
    spd_rows [].

Definition harms_by_safety_id (harms_rows : list Row) : list (string * list Row) :=
  fold_left
    (fun groups r =>
       let sid := Py.strip (row_get "safety_id" r) in
       if String.eqb sid "" then groups else setdefault_append sid r groups)
    harms_rows [].

(** [safety_by_key], [perf_by_key] and [followup_by_key]. *)
Definition by_refid_spd (rows : list Row) : list ((string * string) * list Row) :=
  group_rows (fun r => (Py.strip (row_get "refid" r), Py.strip (row_get "spd_id" r))) rows.

(** ['refid': int(refid) if refid.isdigit() else refid] *)
Definition refid_value (refid : string) : json :=
  if Py.isdigit refid then JInt (Py.int_of_digits refid) else JStr refid.

Section build.
Variable t : TemplateForms.
Variable safety_by_key perf_by_key followup_by_key : list ((string * string) * list Row).
Variable harms_by : list (string * list Row).

(** The Performance (discrete) loop of one SPD form. *)
Definition perf_forms (refid spd_id : string) (children : dict) : M dict :=
  for_each (default [] (dict_get (refid, spd_id) perf_by_key)) children
    (fun children perf_row =>
       match perf_discrete_proto t with
       | None => ret children
       | Some proto =>
           let perf_form := _populate_form_from_row proto perf_row in
           id <- _gen_id ;;
           let perf_form := dict_set "key" (JStr ("perf_" +:+ id)) perf_form in
           let perf_form := dict_set "form" (JStr "Performance (discrete)") perf_form in
           let perf_form := dict_set "user" (JStr USER_NAME) perf_form in
           id <- _gen_id ;;
           ret (dict_set id (JObj perf_form) children)
       end).

(** The Harms loop of one Safety form. *)
Definition harms_forms (safety_id : string) : M dict :=
  for_each (default [] (dict_get safety_id harms_by)) []
    (fun children hrow =>
       match harms_proto t with
       | None => ret children
       | Some proto =>
           let harms_form := _populate_form_from_row proto hrow in
           id <- _gen_id ;;
           let harms_form := dict_set "key" (JStr ("harms_" +:+ id)) harms_form in
           let harms_form := dict_set "form" (JStr "Harms") harms_form in
           let harms_form := dict_set "user" (JStr USER_NAME) harms_form in
           id <- _gen_id ;;
           ret (dict_set id (JObj harms_form) children)
       end).

(** The Safety loop of one SPD form. *)
Definition safety_forms (refid spd_id : string) (children : dict) : M dict :=
  for_each (default [] (dict_get (refid, spd_id) safety_by_key)) children
    (fun children srow =>
       match safety_proto t with
       | None => ret children
       | Some proto =>
           let safety_form := _populate_form_from_row proto srow in
           let safety_id := Py.strip (row_get "safety_id" srow) in
           label <- (if String.eqb safety_id "" then _gen_id else ret safety_id) ;;
           let safety_form := dict_set "key" (JStr ("safety_" +:+ label)) safety_form in
           let safety_form := dict_set "form" (JStr "Safety") safety_form in
           let safety_form := dict_set "user" (JStr USER_NAME) safety_form in
           harms <- harms_forms safety_id ;;
           let safety_form := dict_set "child_forms" (JObj harms) safety_form in
           id <- _gen_id ;;
           ret (dict_set id (JObj safety_form) children)
       end).

(** The Follow-up loop of one SPD form.  In
    [fu_form.get('key', f"followup_{self._gen_id()}")] the default is
    evaluated, and an identifier drawn, whether or not ['key'] is there. *)
Definition followup_forms (refid spd_id : string) (children : dict) : M dict :=
  for_each (default [] (dict_get (refid, spd_id) followup_by_key)) children
    (fun children fu_row =>
       fu_form <-
         match followup_proto t with
         | Some proto =>
             let fu_form := _populate_form_from_row proto fu_row in
             let fu_form := dict_set "form" (JStr "Follow-up Subform") fu_form in
             id <- _gen_id ;;
             let fu_form := dict_setdefault "key" (JStr ("followup_" +:+ id)) fu_form in
             ret (dict_set "user" (JStr USER_NAME) fu_form)
         | None =>
             id <- _gen_id ;;
             let data :=
               map (fun cv => entry_at cv.1 "Text" "" cv.2)
                   (filter (fun cv => cv.1 ∉ ["refid"; "spd_id"; "safety_id"]) fu_row) in
             ret [("form", JStr "Follow-up Subform"); ("level", JInt 1);
                  ("is_subform", JInt 1); ("user", JStr USER_NAME);
                  ("key", JStr ("followup_" +:+ id)); ("data", JArr data);
                  ("child_forms", JObj [])]
         end ;;
       id <- _gen_id ;;
       ret (dict_set id (JObj fu_form) children)).

(** The body of [for spd_row in spd_list].  The form is stored under
    ['spd_<spd_id>'] before its children are added; it is stored by
    reference, so the stored form is the finished one. *)
Definition spd_step (refid : string) (extraction_children : dict) (spd_row : Row)
  : M dict :=
  let spd_id := Py.strip (row_get "spd_id" spd_row) in
  if String.eqb spd_id "" then ret extraction_children
  else
    match spd_proto t with
    | None => raise (ValueError "Template missing Study Parameters and Demographics prototype.")
    | Some proto =>
        let spd_form := _populate_form_from_row proto spd_row in
        let spd_form := dict_set "key" (JStr ("spd_" +:+ spd_id)) spd_form in
        let spd_form := dict_set "form" (JStr "Study Parameters and Demographics") spd_form in
        let spd_form := dict_set "user" (JStr USER_NAME) spd_form in
        children <- perf_forms refid spd_id [] ;;
        children <- safety_forms refid spd_id children ;;
        children <- followup_forms refid spd_id children ;;
        let spd_form := dict_set "child_forms" (JObj children) spd_form in
        ret (dict_set ("spd_" +:+ spd_id) (JObj spd_form) extraction_children)
    end.

(** The body of [for refid, spd_list in spd_by_refid.items()]. *)
Definition refid_step (out : list json) (g : string * list Row) : M (list json) :=
  let refid := g.1 in
  ds_id <- _gen_id ;;
  extraction <- lift (_make_extraction t refid) ;;
  extraction_children <- for_each g.2 [] (spd_step refid) ;;
  let extraction := dict_set "child_forms" (JObj extraction_children) extraction in
  let root :=
    [("refid", refid_value refid); ("tags", JArr []); ("attachments", JArr []);
     ("biblio_string", JStr ""); ("data_sets", JObj [(ds_id, JObj extraction)])] in
  ret (out ++ [JObj root])%list.
End build.

(** [JSONBuilder.build] (its [template_root] argument is not used). *)
Definition build (t : TemplateForms)
    (spd_rows safety_rows perf_rows harms_rows : list Row)
    (followup_rows : option (list Row)) : M (list json) :=
  let followup_rows := default [] followup_rows in
  for_each (spd_by_refid spd_rows) []
    (refid_step t (by_refid_spd safety_rows) (by_refid_spd perf_rows)
       (by_refid_spd followup_rows) (harms_by_safety_id harms_rows)).

(** [require(cols, rows, name)] of [App.on_build] *)
Definition require (cols : list string) (rows : list Row) (name : string) : result unit :=
  match rows with
  | [] => Ok tt
  | r0 :: _ =>
      match filter (fun c => c ∉ dict_keys r0) cols with
      | [] => Ok tt
      | missing =>
          Err (ValueError (name +:+ " CSV missing column(s): " +:+ String.concat ", " missing))
      end
  end.

(** [App.on_build] from the parsed files on: the template is indexed, the
    four CSVs are checked, the builder runs from [next_id = 10000].  The
    window asks for the template and for the SPD, Safety, Performance and
    Harms files before anything is read; the Follow-up file is optional:
    [read_csv(path) if path else []]. *)
Definition on_build (template_obj : json)
    (spd_rows safety_rows perf_rows harms_rows : list Row)
    (followup_csv : option (list Row))
  : result (list json * Z) :=
  match TemplateForms_init template_obj with
  | Err e => Err e
  | Ok tf =>
      let followup_rows := default [] followup_csv in
      match require ["refid"; "spd_id"] spd_rows "Study and Patient Demographics" with
      | Err e => Err e
      | Ok _ =>
      match require ["refid"; "spd_id"] safety_rows "Safety" with
      | Err e => Err e
      | Ok _ =>
      match require ["refid"; "spd_id"] perf_rows "Performance (discrete)" with
      | Err e => Err e
      | Ok _ =>
      match require ["safety_id"] harms_rows "Harms" with
      | Err e => Err e
      | Ok _ =>
          build tf spd_rows safety_rows perf_rows harms_rows (Some followup_rows)
                initial_next_id
      end end end end
  end.

End V1.


(* ===================================================================== *)
(** * Vocabulary of the properties                                         *)
(* ===================================================================== *)

(** ** Header normalizer *)

(** ASCII punctuation: a printable character that is neither a letter, a
    digit nor a blank. *)
Definition punctuation (c : ascii) : bool :=
  let n := Py.code c in
  ((33 <=? n) && (n <=? 47) || (58 <=? n) && (n <=? 64) ||
   (91 <=? n) && (n <=? 96) || (123 <=? n) && (n <=? 126))%N.

(** Punctuation outside the allow-list of [_normalize]; the underscore is
    not counted, it is the subject of a rule of its own. *)
Definition stripped_punctuation (c : ascii) : bool :=
  punctuation c && negb (Py.allowed_punct c) && negb (Ascii.eqb c "_").

(** One elementary difference between two texts. *)
Inductive edit : list ascii -> list ascii -> Prop :=
  | edit_case x c c' y :
      Py.lower_char c = Py.lower_char c' -> edit (x ++ c :: y) (x ++ c' :: y)
  | edit_ws_kind x w w' y :
      Py.isspace w = true -> Py.isspace w' = true ->
      edit (x ++ w :: y) (x ++ w' :: y)
  | edit_ws_run x w w' y :
      Py.isspace w = true -> Py.isspace w' = true ->
      edit (x ++ w :: w' :: y) (x ++ w :: y)
  | edit_ws_front w y :
      Py.isspace w = true -> edit (w :: y) y
  | edit_ws_back x w :
      Py.isspace w = true -> edit (x ++ [w]) x
  | edit_punct x p y :
      stripped_punctuation p = true -> edit (x ++ p :: y) (x ++ y)
  | edit_underscore x y :
      edit (x ++ "_"%char :: y) (x ++ " "%char :: y).

(** Two strings differ only in case, in the amount or kind of interior
    whitespace, in edge whitespace, in punctuation outside the allow-list
    or in underscore versus space: one is reached from the other by
    elementary differences, taken in either direction. *)
Definition differ_only (s t : string) : Prop :=
  rtsc edit (Py.chars s) (Py.chars t).

(** What one character contributes to the normal form. *)
Inductive char_class : Type :=
  | Dropped
  | Blank
  | Kept (c : ascii).

(** Where a left-to-right pass over the text stands: nothing emitted yet,
    just after an emitted character, or after blanks that follow one. *)
Inductive scan_state : Type :=
  | AtStart
  | InWord
  | AfterBlank.

Definition after_blank (st : scan_state) : scan_state :=
  match st with
  | AtStart => AtStart
  | _ => AfterBlank
  end.

(** A one-pass normal form: blanks between kept characters become one
    space, blanks at the ends and dropped characters leave no trace. *)
Fixpoint scan (f : ascii -> char_class) (st : scan_state) (l : list ascii)
  : list ascii :=
  match l with
  | [] => []
  | c :: l' =>
      match f c with
      | Dropped => scan f st l'
      | Blank => scan f (after_blank st) l'
      | Kept c' =>
          match st with
          | AfterBlank => " "%char :: c' :: scan f InWord l'
          | _ => c' :: scan f InWord l'
          end
      end
  end.

(** The state reached after a prefix. *)
Fixpoint scan_end (f : ascii -> char_class) (st : scan_state) (l : list ascii)
  : scan_state :=
  match l with
  | [] => st
  | c :: l' =>
      match f c with
      | Dropped => scan_end f st l'
      | Blank => scan_end f (after_blank st) l'
      | Kept _ => scan_end f InWord l'
      end
  end.

Definition class_space (c : ascii) : char_class :=
  if Py.isspace c then Blank else Kept c.

Definition class_underscore (c : ascii) : char_class :=
  class_space (if Ascii.eqb c "_" then " "%char else c).

Definition class_keep (c : ascii) : char_class :=
  if Py.normalize_keep c then class_underscore c else Dropped.

(** The class of a character of the input of [_normalize]. *)
Definition class_normalize (c : ascii) : char_class :=
  class_keep (Py.lower_char c).

(** ** Row grouper *)

(** [groups] partitions [rows] by [key]: the group keys are distinct, every
    row is in the group of its own key, a group holds exactly the rows of
    its key in their original order and is not empty, and the groups
    together hold each row as often as [rows] does. *)
Definition partitions {K : Type} `{EqDecision K} (key : Row -> K)
    (rows : list Row) (groups : list (K * list Row)) : Prop :=
  NoDup (dict_keys groups)
  /\ (forall r, r ∈ rows -> exists g, (key r, g) ∈ groups /\ r ∈ g)
  /\ (forall k g, (k, g) ∈ groups ->
        g <> [] /\ g = filter (fun r => key r = k) rows)
  /\ concat (dict_values groups) ≡ₚ rows.

(** The key tuple of a row. *)
Definition key_tuple (keys : list string) (r : Row) : list string :=
  map (fun k => row_get k r) keys.

(** The groups of a [group_df] result, as lists of rows. *)
Definition frames_rows (groups : list (list string * V2.DataFrame))
  : list (list string * list Row) :=
  map (fun g => (g.1, V2.rows g.2)) groups.


(** ** Identifier factory *)

(** Every mapping key of a JSON value, at any nesting depth. *)
Fixpoint json_keys (j : json) : list string :=
  match j with
  | JObj m =>
      (fix items (m : list (string * json)) : list string :=
         match m with
         | [] => []
         | (k, v) :: m' => k :: json_keys v ++ items m'
         end) m
  | JArr l =>
      (fix each (l : list json) : list string :=
         match l with
         | [] => []
         | item :: l' => json_keys item ++ each l'
         end) l
  | _ => []
  end%list.

(** The keys that are unsigned-integer strings, as integers. *)
Definition numeric_keys (j : json) : list Z :=
  map Py.int_of_digits (filter (fun k => Py.isdigit k = true) (json_keys j)).

(** The identifiers of [n] successive calls of [IdFactory.next]. *)
Fixpoint generated (n : nat) (f : V2.IdFactory) : list string :=
  match n with
  | O => []
  | S n' => let '(id, f') := V2.next f in id :: generated n' f'
  end.

(** The identifiers of [n] successive calls of [JSONBuilder._gen_id]. *)
Fixpoint gen_ids (n : nat) (next_id : Z) : list string :=
  match n with
  | O => []
  | S n' =>
      match V1._gen_id next_id with
      | Ok (id, next_id') => id :: gen_ids n' next_id'
      | Err _ => []
      end
  end.

(** An induction principle for [json] that reaches nested values. *)
Section json_induction.
Variable P : json -> Prop.
Hypothesis Hnull : P JNull.
Hypothesis Hbool : forall b, P (JBool b).
Hypothesis Hint : forall n, P (JInt n).
Hypothesis Hstr : forall s, P (JStr s).
Hypothesis Harr : forall l, Forall P l -> P (JArr l).
Hypothesis Hobj : forall m, Forall (fun kv => P kv.2) m -> P (JObj m).

Fixpoint json_nested_ind (j : json) : P j :=
  match j with
  | JNull => Hnull
  | JBool b => Hbool b
  | JInt n => Hint n
  | JStr s => Hstr s
  | JArr l =>
      Harr l ((fix each (l : list json) : Forall P l :=
                 match l with
                 | [] => Forall_nil_2 P
                 | x :: l' => Forall_cons_2 P x l' (json_nested_ind x) (each l')
                 end) l)
  | JObj m =>
      Hobj m ((fix items (m : list (string * json))
                 : Forall (fun kv => P kv.2) m :=
                 match m with
                 | [] => Forall_nil_2 _
                 | kv :: m' =>
                     Forall_cons_2 (fun kv => P kv.2) kv m'
                       (json_nested_ind kv.2) (items m')
                 end) m)
  end.
End json_induction.


(** ** Form populator *)

(** The question/answer entries of a form node. *)
Definition data_of (form : dict) : list json := get_arr "data" form.

Definition entry_question (e : json) : string := get_str "question" "" (as_dict e).
Definition entry_type (e : json) : string := get_str "type" "" (as_dict e).

(** [e["response"][field]], when there is one. *)
Definition response_of (field : string) (e : json) : option json :=
  dict_get field (get_obj "response" (as_dict e)).

Definition empty_answer : option json := Some (JStr "").

(** The value that [_populate_form_data_from_row] looks up for a datum. *)
Definition looked_up (row : Row) (header_index : list (string * string))
    (datum : dict) : option string :=
  match dict_get (V2._normalize (Some (get_str "question" "" datum))) header_index with
  | Some col => dict_get col row
  | None => None
  end.

(** The SPD label override applies to a datum: an override is given and the
    question is "Dataset Label" or "Form Name" once normalized. *)
Definition overridden (spd_label_override : option string) (datum : dict) : bool :=
  V2.truthy spd_label_override &&
  bool_decide (V2._normalize (Some (get_str "question" "" datum))
               ∈ [V2._normalize (Some "Dataset Label"); V2._normalize (Some "Form Name")]).

(** The fields of a text between separators, the separators being the
    characters that satisfy [sep]. *)
Fixpoint fields_by (sep : ascii -> bool) (l : list ascii) : list (list ascii) :=
  match l with
  | [] => [[]]
  | c :: l' =>
      if sep c then [] :: fields_by sep l'
      else match fields_by sep l' with
           | w :: ws => (c :: w) :: ws
           | [] => [[c]]
           end
  end.

Definition comma_or_semicolon (c : ascii) : bool :=
  Ascii.eqb c "," || Ascii.eqb c ";".

(** The non-empty trimmed items of a comma- or semicolon-separated list. *)
Definition listed_items (val : string) : list string :=
  filter (fun x => x <> "")
    (map (fun w => Py.strip (Py.str_of w)) (fields_by comma_or_semicolon (Py.chars val))).


(** What version 2 writes into an entry [e] made from the prototype entry
    [datum], whose response is [r], for the value [v]: by the type of the
    entry (trimmed, in lower case), [text] gets [v] and [answer] keeps what
    the prototype had (the empty string if it had none); or [answer] gets
    [v] and [text] keeps what the prototype had; or, for any other type,
    both get [v]. *)
Definition written_by_type (datum : dict) (r : json) (v : string) (e : json) : Prop :=
  let dtype := Py.lower (Py.strip (get_str "type" "" datum)) in
  let kept field := Some (default (JStr "") (dict_get field (as_dict r))) in
  (dtype = "text" ->
     response_of "text" e = Some (JStr v) /\ response_of "answer" e = kept "answer")
  /\ (dtype = "radio" \/ dtype = "checkbox" ->
        response_of "answer" e = Some (JStr v) /\ response_of "text" e = kept "text")
  /\ (dtype <> "text" -> dtype <> "radio" -> dtype <> "checkbox" ->
        response_of "text" e = Some (JStr v) /\ response_of "answer" e = Some (JStr v)).


(** ** Tree assembler *)

(** The SPD name of a row in version 1. *)
Definition v1_spd_key (r : Row) : string := "spd_" +:+ Py.strip (row_get "spd_id" r).

(** The children of an Extraction node of version 1, against the SPD rows
    of its [refid]: the keys are distinct, they are the [spd_<spd_id>] of the
    rows with a non-empty [spd_id], and each node carries its key in its
    [key] field. *)
Definition v1_spd_children (rows : list Row) (children : dict) : Prop :=
  NoDup (dict_keys children)
  /\ (forall k, k ∈ dict_keys children <->
        exists r, r ∈ rows /\ Py.strip (row_get "spd_id" r) <> "" /\ k = v1_spd_key r)
  /\ (forall k node, (k, node) ∈ children ->
        dict_get "key" (as_dict node) = Some (JStr k)).

(** A top-level record of version 1, against the group of its [refid]. *)
Definition v1_record (g : string * list Row) (rec : json) : Prop :=
  exists ds_id extraction,
    rec = JObj [("refid", V1.refid_value g.1); ("tags", JArr []);
                ("attachments", JArr []); ("biblio_string", JStr "");
                ("data_sets", JObj [(ds_id, JObj extraction)])]
    /\ v1_spd_children g.2 (get_obj "child_forms" extraction).


(** The identifiers [ids] were drawn while the counter went from [c] to
    [c']: they are the decimal strings of distinct integers in [(c, c']]. *)
Definition drawn (c c' : Z) (ids : list string) : Prop :=
  exists ns, ids = map Py.str ns /\ NoDup ns /\ Forall (fun n => c < n <= c') ns.

(** The keys under which the children of a node are attached. *)
Definition child_ids (node : json) : list string :=
  dict_keys (get_obj "child_forms" (as_dict node)).

(** The keys of a node's children and of its grandchildren. *)
Definition ids_below (node : json) : list string :=
  (child_ids node
   ++ flat_map child_ids (dict_values (get_obj "child_forms" (as_dict node))))%list.

(** The identifiers under which version 2 attaches nodes in a top-level
    record: the Extraction node in [data_sets], the SPD nodes under it, and
    the Safety, Performance and Follow-up nodes under those. *)
Definition v2_ids (rec : json) : list string :=
  let ds := get_obj "data_sets" (as_dict rec) in
  (dict_keys ds ++ flat_map ids_below (dict_values ds))%list.

(** The SPD node attached for an SPD row in version 2. *)
Definition v2_spd_node (zero_pad_spd : bool) (r : Row) (kv : string * json) : Prop :=
  dict_get "key" (as_dict kv.2)
  = Some (JStr (V2.spd_name_of zero_pad_spd (row_get "spd_id" r))).

(** A top-level record of version 2, against the group of its [refid]: the
    [refid] is the string of the group, there is one Extraction node, and
    its children are, in sorted order, one SPD node per row of the group. *)
Definition v2_record (zero_pad_spd : bool) (g : list string * V2.DataFrame)
    (rec : json) : Prop :=
  exists ext_id extraction sorted,
    dict_get "refid" (as_dict rec) = Some (JStr (default "" (head g.1)))
    /\ get_obj "data_sets" (as_dict rec) = [(ext_id, JObj extraction)]
    /\ V2.sort_values (V2.rows g.2) = Ok sorted
    /\ Forall2 (v2_spd_node zero_pad_spd) sorted (get_obj "child_forms" extraction).


(** ** A small template and a few rows, for worked examples *)

Definition sample_question (q ty : string) : json :=
  JObj [("question", JStr q); ("type", JStr ty);
        ("response", JObj [("text", JStr ""); ("answer", JStr "")])].

Definition sample_spd : json :=
  JObj [("form", JStr "Study Parameters and Demographics"); ("key", JStr "spd_1");
        ("data", JArr [sample_question "Age" "Text"]); ("child_forms", JObj [])].

Definition sample_extraction : json :=
  JObj [("form", JStr "Extraction"); ("key", JStr "7");
        ("data", JArr [sample_question "Article Identifier" "Text"]);
        ("child_forms", JObj [("102", sample_spd)])].

Definition sample_template : json :=
  JObj [("refid", JInt 7); ("tags", JArr []); ("attachments", JArr []);
        ("biblio_string", JStr ""); ("data_sets", JObj [("101", sample_extraction)])].

(** The prototypes that [TemplateForms] finds in [sample_template]. *)
Definition sample_forms : V1.TemplateForms :=
  Eval vm_compute in
    match V1.TemplateForms_init sample_template with
    | Ok t => t
    | Err _ => V1.mkTemplateForms [] None None None None None
    end.

Definition spd_row (refid spd_id age : string) : Row :=
  [("refid", refid); ("spd_id", spd_id); ("Age", age)].

Definition spd_frame (rows : list Row) : V2.DataFrame :=
  V2.mkDF ["refid"; "spd_id"; "Age"] rows.


(** ** Missing linkage columns *)



(** No [spd_id] occurs twice among the SPD rows of one [refid]. *)
Definition distinct_spd_ids (spd_df : V2.DataFrame) : Prop :=
  Forall (fun g => NoDup (map (row_get "spd_id") (V2.rows g.2)))
         (V2.groupby spd_df ["refid"]).


(** ** Decimal reading *)

(** One step of reading a decimal numeral from the left. *)
Definition digit_step (acc : Z) (c : ascii) : Z := 10 * acc + Py.digit_val c.

(** ** Normal forms of headers *)

(** A character that a normal form holds besides the single space: a
    lower-case letter, a digit, or one of [%()/?-.]. *)
Definition normal_char (c : ascii) : bool :=
  Py.islower c || Py.isdigit_char c || Py.allowed_punct c.

(** What may follow a character of a normal form: normal characters, and
    spaces that are each followed by a normal character. *)
Fixpoint normal_tail (l : list ascii) : bool :=
  match l with
  | [] => true
  | c :: l' =>
      if Ascii.eqb c " " then
        match l' with
        | c' :: _ => normal_char c' && normal_tail l'
        | [] => false
        end
      else normal_char c && normal_tail l'
  end.

(** A text in normal form: lower-case letters, digits, the allowed
    punctuation and single spaces, with no space at either end. *)
Definition is_normal_form (s : string) : bool :=
  match Py.chars s with
  | [] => true
  | c :: l => normal_char c && normal_tail l
  end.

(** The headers that have the normal form [k], in header order. *)
Definition headers_like (k : string) (headers : list string) : list string :=
  filter (fun h => V2._normalize (Some h) = k) headers.

(** ** Finding forms by name *)

(** The normalized form name of [node] contains every term. *)
Definition name_mentions (terms : list string) (node : json) : bool :=
  forallb (fun term =>
             Py.contains term (V2._normalize (Some (get_str "form" "" (as_dict node)))))
          terms.

(** The first entry of a mapping of forms whose name mentions the terms. *)
Definition first_named (terms : list string) (forms : dict) : option (string * json) :=
  head (filter (fun kv => name_mentions terms kv.2 = true) forms).


(** ** Filling responses *)

(** The mapping [d'] has the fields of [d], in the same order, with the
    same values except possibly under [k]. *)
Definition same_but (k : string) (d d' : dict) : Prop :=
  dict_keys d' = dict_keys d
  /\ forall k', k' <> k -> dict_get k' d' = dict_get k' d.

(** The value that version 2 writes for a datum against the headers of a
    CSV: the SPD label override where it applies, otherwise the cell of
    the last column whose header has the normal form of the question. *)
Definition value_for (row : Row) (headers : list string)
    (spd_label_override : option string) (datum : dict) : option string :=
  if overridden spd_label_override datum then spd_label_override
  else
    match last (headers_like (V2._normalize (Some (get_str "question" "" datum))) headers) with
    | Some col => dict_get col row
    | None => None
    end.


(** ** Sorting the SPD rows *)

#[global] Instance sort_key_eq_dec : EqDecision V2.sort_key.
Proof. solve_decision. Defined.

(** The sort key of an SPD row. *)
Definition row_key (r : Row) : V2.sort_key := V2.spd_id_sort (row_get "spd_id" r).

(** Keys in ascending order: each is at most every later one. *)
Definition ascending (ks : list V2.sort_key) : Prop :=
  StronglySorted (fun a b => V2.key_le a b = true) ks.

(** Either every [spd_id] of the rows is an unsigned-integer string, or
    none is. *)
Definition one_key_type (rs : list Row) : bool :=
  forallb (fun r => Py.isdigit (row_get "spd_id" r)) rs
  || forallb (fun r => negb (Py.isdigit (row_get "spd_id" r))) rs.


(** ** Frames and their columns *)

(** The frame has each of the columns [keys]. *)
Definition has_columns (df : V2.DataFrame) (keys : list string) : Prop :=
  Forall (fun k => k ∈ V2.columns df) keys.

(** The CSV was not supplied, or its frame has each of the columns. *)
Definition frame_has (df : option V2.DataFrame) (keys : list string) : Prop :=
  match df with
  | Some d => has_columns d keys
  | None => True
  end.

(** What the template scan of version 2 finds in [sample_template]. *)
Definition sample_blueprint : V2.Blueprint :=
  Eval vm_compute in
    match V2.scan_template (JArr [sample_template]) with
    | Ok bp => bp
    | Err _ => V2.mkBlueprint [] [] [] [] None None None [] [] None
    end.

(** A Follow-up frame with one row. *)
Definition followup_frame : V2.DataFrame :=
  V2.mkDF ["refid"; "spd_id"; "Visit"]
          [[("refid", "12"); ("spd_id", "1"); ("Visit", "Week 4")]].


(** ** Copies of template forms *)

(** The nodes attached under a node. *)
Definition children_of (node : json) : list json :=
  dict_values (get_obj "child_forms" (as_dict node)).

(** [node] has the value that [proto] has in every field other than
    [key], [data] and [child_forms]: its form name, level and so on. *)
Definition filled_from (proto : dict) (node : json) : Prop :=
  forall k, k ∉ ["key"; "data"; "child_forms"] ->
            dict_get k (as_dict node) = dict_get k proto.

(** The template form under the SPD form that an identifier found by the
    scan stands for. *)
Definition template_child (bp : V2.Blueprint) (id : option string) : dict :=
  as_dict (default (JObj []) (dict_get (default "" id) (V2.spd_children bp))).

Definition harms_template (bp : V2.Blueprint) : dict :=
  as_dict (default (JObj [])
             (dict_get (default "" (V2.harms_id_under_safety bp)) (V2.safety_children bp))).

(** A node under an SPD node is a copy of the Safety form of the template,
    with copies of its Harms form below, or a copy of the Performance or
    of the Follow-up form. *)
Definition v2_child_kept (bp : V2.Blueprint) (node : json) : Prop :=
  (filled_from (V2.safety_template bp) node
   /\ Forall (filled_from (harms_template bp)) (children_of node))
  \/ filled_from (template_child bp (V2.perf_id_under_spd bp)) node
  \/ filled_from (template_child bp (V2.followup_id_under_spd bp)) node.

Definition v2_spd_kept (bp : V2.Blueprint) (node : json) : Prop :=
  filled_from (V2.spd_template bp) node /\ Forall (v2_child_kept bp) (children_of node).

Definition v2_extraction_kept (bp : V2.Blueprint) (node : json) : Prop :=
  filled_from (V2.extraction_template bp) node
  /\ Forall (v2_spd_kept bp) (children_of node).

(** A top-level record keeps the fields of the first record of the
    template other than [refid] and [data_sets], and its nodes are copies
    of the template forms. *)
Definition v2_record_kept (bp : V2.Blueprint) (rec : json) : Prop :=
  (forall k, k ∉ ["refid"; "data_sets"] ->
             dict_get k (as_dict rec) = dict_get k (V2.template_master bp))
  /\ Forall (v2_extraction_kept bp) (dict_values (get_obj "data_sets" (as_dict rec))).


(** ** Order of the groups *)

(** The distinct elements of a list, in order of first appearance: the
    head, then those of the tail that differ from it. *)
Fixpoint first_seen {K : Type} `{EqDecision K} (l : list K) : list K :=
  match l with
  | [] => []
  | x :: l' => x :: filter (fun y => y <> x) (first_seen l')
  end.

(** The [refid] cells of the SPD rows, trimmed, the empty ones left out. *)
Definition refids_of (spd_rows : list Row) : list string :=
  filter (fun k => k <> "") (map (fun r => Py.strip (row_get "refid" r)) spd_rows).

(** The [refid] field of a top-level record. *)
Definition refid_of (rec : json) : option json := dict_get "refid" (as_dict rec).


(** ** The prototypes of version 1 *)

(** The forms attached under [node] whose trimmed name is [name], in
    mapping order. *)
Definition children_named (name : string) (node : dict) : list json :=
  filter (fun v => V1.form_name v = name) (dict_values (get_obj "child_forms" node)).

(** The question texts of the entries of a prototype, in order. *)
Definition questions_of (form_proto : dict) : list string :=
  map (fun q => get_str "question" "" (as_dict q)) (get_arr "data" form_proto).


(** A prototype with the question "Age" twice, under two types. *)
Definition sample_repeated : dict :=
  [("form", JStr "Study Parameters and Demographics"); ("level", JInt 1);
   ("data", JArr [sample_question "Age" "Text"; sample_question "Sex" "Radio";
                  sample_question "Age" "Radio"])].


(** ** One node per matched row *)

(** The rows of the group of [key], none if there is no such group. *)
Definition rows_for (groups : list (list string * V2.DataFrame)) (key : list string)
  : list Row :=
  match dict_get key groups with
  | Some df => V2.rows df
  | None => []
  end.

(** The rows that yield nodes: all of them when the template has the
    form, none otherwise. *)
Definition if_form {A} (present : bool) (rows : list A) : list A :=
  if present then rows else [].

(** A prototype was found. *)
Definition found (p : option dict) : bool :=
  match p with Some _ => true | None => false end.

(** The node carries the form name [name]. *)
Definition form_is (name : string) (node : json) : Prop :=
  dict_get "form" (as_dict node) = Some (JStr name).

(** A template as version 2 reads it: Safety (with Harms) and Performance
    under the SPD form. *)
Definition sample_harms : json :=
  JObj [("form", JStr "Harms"); ("level", JInt 3);
        ("data", JArr [sample_question "Severity" "Radio"]); ("child_forms", JObj [])].

Definition sample_safety : json :=
  JObj [("form", JStr "Safety"); ("level", JInt 2);
        ("data", JArr [sample_question "Adverse Event" "Text"]);
        ("child_forms", JObj [("105", sample_harms)])].

Definition sample_perf : json :=
  JObj [("form", JStr "Performance (discrete)"); ("level", JInt 2);
        ("data", JArr [sample_question "Perf Discrete Endpoint" "Text"]);
        ("child_forms", JObj [])].

Definition sample_nested_template : json :=
  JObj [("refid", JInt 7); ("tags", JArr [JStr "pilot"]);
        ("data_sets",
         JObj [("101",
                JObj [("form", JStr "Extraction");
                      ("data", JArr [sample_question "Article Identifier" "Text"]);
                      ("child_forms",
                       JObj [("102",
                              JObj [("form", JStr "Study Parameters and Demographics");
                                    ("level", JInt 1);
                                    ("data", JArr [sample_question "Age" "Text"]);
                                    ("child_forms",
                                     JObj [("103", sample_safety);
                                           ("104", sample_perf)])])])])])].

Definition sample_nested_blueprint : V2.Blueprint :=
  Eval vm_compute in
    match V2.scan_template (JArr [sample_nested_template]) with
    | Ok bp => bp
    | Err _ => V2.mkBlueprint [] [] [] [] None None None [] [] None
    end.

Definition safety_frame : V2.DataFrame :=
  V2.mkDF ["refid"; "spd_id"; "safety_id"; "Adverse Event"]
          [[("refid", "12"); ("spd_id", "1"); ("safety_id", "5"); ("Adverse Event", "Rash")];
           [("refid", "12"); ("spd_id", "1"); ("safety_id", "6"); ("Adverse Event", "Fever")]].

Definition perf_frame : V2.DataFrame :=
  V2.mkDF ["refid"; "spd_id"; "Perf Discrete Endpoint"]
          [[("refid", "12"); ("spd_id", "1"); ("Perf Discrete Endpoint", "Sensitivity")]].

Definition sample_tables : V2.Tables :=
  Eval vm_compute in
    match V2.make_tables (spd_frame [spd_row "12" "1" "63"])
            (Some safety_frame) (Some perf_frame) None None with
    | Ok tb => tb
    | Err _ => V2.mkTables [] [] [] [] [] [] [] [] [] []
    end.

(** A template as version 1 reads it: Safety (with Harms) and Performance
    beside the SPD form, under Extraction. *)
Definition sample_flat_template : json :=
  JObj [("refid", JInt 7);
        ("data_sets",
         JObj [("101",
                JObj [("form", JStr "Extraction");
                      ("data", JArr [sample_question "Article Identifier" "Text"]);
                      ("child_forms",
                       JObj [("102", sample_spd); ("103", sample_safety);
                             ("104", sample_perf)])])])].

Definition sample_flat_forms : V1.TemplateForms :=
  Eval vm_compute in
    match V1.TemplateForms_init sample_flat_template with
    | Ok t => t
    | Err _ => V1.mkTemplateForms [] None None None None None
    end.


(** ** The Extraction node of version 1 *)

(** An entry on which [_make_extraction] raises: its question is
    "Article Identifier" and it has a [response] that is not a mapping. *)
Definition unwritable_identifier (q : json) : bool :=
  match q with
  | JObj d =>
      is_str "Article Identifier" (dict_get "question" d)
      && match dict_get "response" d with
         | Some (JObj _) | None => false
         | Some _ => true
         end
  | _ => false
  end.

(** No entry of the Extraction prototype is one on which
    [_make_extraction] raises. *)
Definition identifier_writable (t : V1.TemplateForms) : Prop :=
  Forall (fun q => unwritable_identifier q = false)
         (get_arr "data" (V1.extraction_proto t)).

(** An Extraction form as [sample_extraction], except that the response of
    its "Article Identifier" entry is [null]. *)
Definition sample_null_response : json :=
  JObj [("data_sets",
         JObj [("101",
                JObj [("form", JStr "Extraction");
                      ("data", JArr [JObj [("question", JStr "Article Identifier");
                                           ("type", JStr "Text");
                                           ("response", JNull)]]);
                      ("child_forms", JObj [("102", sample_spd)])])])].

Definition sample_null_forms : V1.TemplateForms :=
  Eval vm_compute in
    match V1.TemplateForms_init sample_null_response with
    | Ok t => t
    | Err _ => V1.mkTemplateForms [] None None None None None
    end.


(** ** ASCII text *)

(** Every character of the text is an ASCII character. *)
Definition is_ascii (s : string) : bool :=
  forallb (fun c => (Py.code c <? 128)%N) (Py.chars s).

(** The argument of [_normalize] is [None] or an ASCII text. *)
Definition ascii_text (s : option string) : Prop :=
  match s with
  | Some t => is_ascii t = true
  | None => True
  end.


(** ** Identifiers of a whole run *)

(** The identifiers under which the nodes below [node] are attached, down
    to the given depth: for each child its identifier, then those below
    it, the children in mapping order. *)
Fixpoint tree_ids (depth : nat) (node : json) : list string :=
  match depth with
  | O => []
  | S d =>
      flat_map (fun kv => kv.1 :: tree_ids d kv.2) (get_obj "child_forms" (as_dict node))
  end.

(** The identifiers of a top-level record: those of its datasets (the
    Extraction nodes) and of the three levels of forms below them (SPD;
    Safety, Performance and Follow-up; Harms). *)
Definition record_ids (rec : json) : list string :=
  flat_map (fun kv => kv.1 :: tree_ids 3 kv.2) (get_obj "data_sets" (as_dict rec)).

(** The identifiers of the output that are not keys of the template.  (A
    copy of a Performance or Follow-up form keeps the [child_forms] of the
    template, whose keys are keys of the template.) *)
Definition new_ids (tm : json) (out : list json) : list string :=
  filter (fun k => k ∉ json_keys tm) (flat_map record_ids out).

(** The identifiers that a factory hands out while its counter goes from
    [c] to [c']. *)
Definition ids_from (c c' : Z) : list string :=
  map Py.str (seqZ (c + 1) (c' - c)).

(** Every key of [node], at any depth, is a key of [tm]. *)
Definition within (tm : json) (node : dict) : Prop :=
  forall k, k ∈ json_keys (JObj node) -> k ∈ json_keys tm.

(** The children [ch] of a node, with what is below them down to [depth],
    hold as identifiers that are not keys of the template exactly those
    handed out from [lo] to [c], in that order. *)
Definition counted (tm : json) (depth : nat) (lo c : Z) (ch : dict) : Prop :=
  filter (fun k => k ∉ json_keys tm)
         (flat_map (fun kv => kv.1 :: tree_ids depth kv.2) ch)
  = ids_from lo c.


(** [node.get('form') == name] *)
Definition has_form (name : string) (node : json) : bool :=
  is_str name (dict_get "form" (as_dict node)).

(** [s[n:]] *)
Fixpoint drop_chars (n : nat) (s : string) : string :=
  match n, s with
  | O, _ => s
  | S n', String _ s' => drop_chars n' s'
  | S _, EmptyString => ""
  end.

(** [s.startswith(prefix)] *)
Fixpoint startswith (prefix s : string) : bool :=
  match prefix with
  | EmptyString => true
  | String a prefix' =>
      match s with
      | String b s' => Ascii.eqb a b && startswith prefix' s'
      | EmptyString => false
      end
  end.

(** The identifier that the [key] of a form carries after [prefix]. *)
Definition label_of (prefix : string) (node : json) : list string :=
  match dict_get "key" (as_dict node) with
  | Some (JStr k) =>
      if startswith prefix k then [drop_chars (String.length prefix) k] else []
  | _ => []
  end.

(** The identifiers that version 1 draws for a Harms form: the one under
    which it is stored and the one in its key [harms_<id>]. *)
Definition v1_harms_ids (kv : string * json) : list string :=
  kv.1 :: label_of "harms_" kv.2.

(** The identifiers that version 1 draws for a form under an SPD form: the
    one under which it is stored; for a Performance form the one in its key
    [perf_<id>]; for a Safety form those of its Harms forms.  (The key of a
    Safety form carries the [safety_id] of its row, the key of a Follow-up
    form may come from the template.) *)
Definition v1_child_ids (kv : string * json) : list string :=
  kv.1 :: (if has_form "Performance (discrete)" kv.2 then label_of "perf_" kv.2
           else if has_form "Safety" kv.2
                then flat_map v1_harms_ids (get_obj "child_forms" (as_dict kv.2))
                else []).

(** The identifiers below an SPD form of version 1 (the form itself is
    stored under [spd_<spd_id>], which is not drawn). *)
Definition v1_spd_ids (kv : string * json) : list string :=
  flat_map v1_child_ids (get_obj "child_forms" (as_dict kv.2)).

(** The identifiers of a top-level record of version 1. *)
Definition v1_ids (rec : json) : list string :=
  flat_map (fun ds => ds.1 :: flat_map v1_spd_ids (get_obj "child_forms" (as_dict ds.2)))
           (get_obj "data_sets" (as_dict rec)).


(** A Harms frame with two rows for the Safety row of [safety_id] 5. *)
Definition harms_frame : V2.DataFrame :=
  V2.mkDF ["refid"; "spd_id"; "safety_id"; "Severity"]
          [[("refid", "12"); ("spd_id", "1"); ("safety_id", "5"); ("Severity", "Mild")];
           [("refid", "12"); ("spd_id", "1"); ("safety_id", "5"); ("Severity", "Severe")]].


(* ===================================================================== *)
(** * Properties                                                           *)
(* ===================================================================== *)

(** A property of one character, by running through the 256 of them. *)
Ltac by_cases_on_char c :=
  destruct c as [[] [] [] [] [] [] [] []]; vm_compute; try reflexivity; try discriminate.

(** ** Python strings *)

Lemma chars_str_of l : Py.chars (Py.str_of l) = l.
Proof. apply list_ascii_of_string_of_list_ascii. Qed.

Lemma str_of_chars s : Py.str_of (Py.chars s) = s.
Proof. apply string_of_list_ascii_of_string. Qed.

Lemma lstrip_scan f l :
  (forall c, Py.isspace c = true -> f c = Blank) ->
  scan f AtStart (Py.lstrip_chars Py.isspace l) = scan f AtStart l.
Proof.
  intros Hf. induction l as [|c l IH]; [done|]. simpl.
  destruct (Py.isspace c) eqn:Hc.
  - rewrite (Hf c Hc). simpl. exact IH.
  - reflexivity.
Qed.

Lemma rstrip_scan f l st :
  (forall c, Py.isspace c = true -> f c = Blank) ->
  scan f st (Py.rstrip_chars Py.isspace l) = scan f st l.
Proof.
  intros Hf. revert st. induction l as [|c l IH]; intros st; [done|].
  simpl. destruct (Py.rstrip_chars Py.isspace l) as [|d r] eqn:Hr.
  - destruct (Py.isspace c) eqn:Hc.
    + simpl. rewrite (Hf c Hc). rewrite <- IH. reflexivity.
    + simpl. destruct (f c); rewrite <- IH; reflexivity.
  - simpl (scan f st (c :: d :: r)). destruct (f c); rewrite <- IH; reflexivity.
Qed.

Lemma strip_scan f l :
  (forall c, Py.isspace c = true -> f c = Blank) ->
  scan f AtStart (Py.strip_chars Py.isspace l) = scan f AtStart l.
Proof.
  intros Hf. unfold Py.strip_chars.
  rewrite rstrip_scan by done. by apply lstrip_scan.
Qed.

Lemma collapse_scan f b l st :
  (forall c, Py.isspace c = true -> f c = Blank) ->
  (b = true -> after_blank st = st) ->
  scan f st (Py.collapse_go b l) = scan f st l.
Proof.
  intros Hf. revert b st. induction l as [|c l IH]; intros b st Hb; [done|].
  simpl. destruct (Py.isspace c) eqn:Hc.
  - rewrite (Hf c Hc). destruct b.
    + rewrite Hb by done. apply IH. intros _. by apply Hb.
    + simpl. rewrite (Hf " "%char) by done. apply IH.
      intros _. by destruct st.
  - simpl. destruct (f c); try destruct st; rewrite IH; done.
Qed.

Lemma map_scan f g l st :
  scan f st (map g l) = scan (fun c => f (g c)) st l.
Proof.
  revert st. induction l as [|c l IH]; intros st; [done|].
  simpl. destruct (f (g c)); try destruct st; by rewrite IH.
Qed.

Lemma filter_scan f (p : ascii -> bool) l st :
  scan f st (filter (fun c => p c = true) l)
  = scan (fun c => if p c then f c else Dropped) st l.
Proof.
  revert st. induction l as [|c l IH]; intros st; [done|].
  rewrite filter_cons. simpl. destruct (p c) eqn:Hp.
  - rewrite decide_True by done. simpl.
    destruct (f c); try destruct st; by rewrite IH.
  - rewrite decide_False by (by intros ?). apply IH.
Qed.

Lemma rstrip_cons_keep c l :
  Py.isspace c = false ->
  Py.rstrip_chars Py.isspace (c :: l) = c :: Py.rstrip_chars Py.isspace l.
Proof.
  intros Hc. simpl. destruct (Py.rstrip_chars Py.isspace l); by rewrite ?Hc.
Qed.

(** The last two steps of [_normalize], as one pass. *)
Lemma squeeze_scan l :
  scan class_space AtStart l = Py.rstrip_chars Py.isspace (Py.collapse_go true l)
  /\ scan class_space InWord l = Py.rstrip_chars Py.isspace (Py.collapse_go false l)
  /\ scan class_space AfterBlank l
     = Py.rstrip_chars Py.isspace (" "%char :: Py.collapse_go true l).
Proof.
  induction l as [|c l (IH1 & IH2 & IH3)]; [done|].
  simpl scan. simpl Py.collapse_go.
  destruct (Py.isspace c) eqn:Hc.
  - assert (class_space c = Blank) as -> by (unfold class_space; by rewrite Hc).
    simpl after_blank. rewrite IH1, IH3. done.
  - assert (class_space c = Kept c) as -> by (unfold class_space; by rewrite Hc).
    rewrite IH2. rewrite !rstrip_cons_keep by done.
    split_and!; [done..|].
    change (Py.rstrip_chars Py.isspace (" "%char :: c :: Py.collapse_go false l))
      with (match Py.rstrip_chars Py.isspace (c :: Py.collapse_go false l) with
            | [] => if Py.isspace " " then [] else [" "%char]
            | r => " "%char :: r
            end).
    by rewrite rstrip_cons_keep.
Qed.

Lemma collapse_true_lstrip l :
  Py.lstrip_chars Py.isspace (Py.collapse_go false l) = Py.collapse_go true l
  /\ Py.lstrip_chars Py.isspace (Py.collapse_go true l) = Py.collapse_go true l.
Proof.
  induction l as [|c l [IH1 IH2]]; [done|].
  simpl. destruct (Py.isspace c) eqn:Hc; simpl; rewrite ?Hc; auto.
Qed.

Lemma strip_collapse_scan l :
  Py.strip_chars Py.isspace (Py.collapse_go false l) = scan class_space AtStart l.
Proof.
  unfold Py.strip_chars. rewrite (proj1 (collapse_true_lstrip l)).
  symmetry. apply squeeze_scan.
Qed.

Lemma space_class_normalize c : Py.isspace c = true -> class_normalize c = Blank.
Proof. by_cases_on_char c. Qed.

Lemma space_class_keep c : Py.isspace c = true -> class_keep c = Blank.
Proof. by_cases_on_char c. Qed.

Lemma punct_class_normalize p :
  stripped_punctuation p = true -> class_normalize p = Dropped.
Proof. by_cases_on_char p. Qed.

Lemma case_class_normalize c c' :
  Py.lower_char c = Py.lower_char c' -> class_normalize c = class_normalize c'.
Proof. unfold class_normalize. by intros ->. Qed.

(** [_normalize] is the one-pass normal form of its argument. *)
Lemma normalize_scan s :
  V2._normalize (Some s) = Py.str_of (scan class_normalize AtStart (Py.chars s)).
Proof.
  unfold V2._normalize, Py.strip, Py.re_sub_spaces, Py.replace_char,
    Py.re_sub_punct, Py.lower.
  rewrite !chars_str_of. f_equal.
  rewrite strip_collapse_scan, map_scan.
  rewrite (filter_scan _ Py.normalize_keep).
  transitivity (scan class_keep AtStart
                  (Py.collapse_go false
                     (map Py.lower_char (Py.strip_chars Py.isspace (Py.chars s)))));
    [reflexivity|].
  rewrite collapse_scan by (done || apply space_class_keep).
  rewrite map_scan.
  exact (strip_scan class_normalize _ space_class_normalize).
Qed.

Lemma scan_app f st x y :
  scan f st (x ++ y) = (scan f st x ++ scan f (scan_end f st x) y)%list.
Proof.
  revert st. induction x as [|c x IH]; intros st; [done|].
  simpl. destruct (f c); try destruct st; simpl; by rewrite IH.
Qed.

Lemma after_blank_idemp st : after_blank (after_blank st) = after_blank st.
Proof. by destruct st. Qed.

Lemma scan_edit x y :
  edit x y -> scan class_normalize AtStart x = scan class_normalize AtStart y.
Proof.
  destruct 1 as [x c c' y Hc|x w w' y Hw Hw'|x w w' y Hw Hw'|w y Hw|x w Hw|x p y Hp|x y];
    rewrite ?scan_app; cbn [scan].
  - by rewrite (case_class_normalize c c' Hc).
  - by rewrite (space_class_normalize w Hw), (space_class_normalize w' Hw').
  - rewrite (space_class_normalize w Hw), (space_class_normalize w' Hw').
    by rewrite after_blank_idemp.
  - by rewrite (space_class_normalize w Hw).
  - rewrite (space_class_normalize w Hw). by rewrite app_nil_r.
  - by rewrite (punct_class_normalize p Hp).
  - reflexivity.
Qed.

Lemma scan_differ_only s t :
  differ_only s t ->
  scan class_normalize AtStart (Py.chars s) = scan class_normalize AtStart (Py.chars t).
Proof.
  unfold differ_only. induction 1 as [|x y z [Hxy|Hyx] _ IH]; [done|..].
  - rewrite <- IH. by apply scan_edit.
  - rewrite <- IH. symmetry. by apply scan_edit.
Qed.

(** ** C9 *)



(** ** Dictionaries *)

Section dict_facts.
Context {K V : Type} `{EqDecision K}.
Implicit Types (k : K) (v : V) (m : list (K * V)).

Lemma dict_get_set_eq k v m : dict_get k (dict_set k v m) = Some v.
Proof.
  induction m as [|[k' v'] m IH]; simpl.
  - by rewrite decide_True.
  - destruct (decide (k = k')); simpl; [by rewrite decide_True|].
    by rewrite decide_False.
Qed.

Lemma dict_get_set_ne k k' v m :
  k <> k' -> dict_get k' (dict_set k v m) = dict_get k' m.
Proof.
  intros Hne. induction m as [|[k1 v1] m IH]; simpl.
  - by rewrite decide_False.
  - destruct (decide (k = k1)) as [->|]; simpl.
    + by rewrite !decide_False.
    + destruct (decide (k' = k1)); [done|apply IH].
Qed.

Lemma dict_get_None k m : dict_get k m = None <-> k ∉ dict_keys m.
Proof.
  unfold dict_keys. induction m as [|[k' v'] m IH]; simpl.
  - split; [intros _; apply not_elem_of_nil|done].
  - rewrite not_elem_of_cons. destruct (decide (k = k')) as [Heq|Hne].
    + split; [done|]. by intros [? _].
    + rewrite IH. split; [by split|]. by intros [_ ?].
Qed.

Lemma dict_get_Some_elem k v m : dict_get k m = Some v -> (k, v) ∈ m.
Proof.
  induction m as [|[k' v'] m IH]; simpl; [done|].
  destruct (decide (k = k')) as [->|].
  - intros [= ->]. apply elem_of_cons; by left.
  - intros. apply elem_of_cons; right; auto.
Qed.

Lemma dict_get_elem k v m :
  NoDup (dict_keys m) -> (k, v) ∈ m -> dict_get k m = Some v.
Proof.
  unfold dict_keys. induction m as [|[k' v'] m IH]; simpl.
  - intros _ Hin. by apply elem_of_nil in Hin.
  - rewrite NoDup_cons. intros [Hk' Hnd] Hin.
    apply elem_of_cons in Hin as [Heq|Hin].
    { injection Heq as Hk Hv. rewrite decide_True by done. by rewrite Hv. }
    destruct (decide (k = k')) as [->|]; [|by apply IH].
    exfalso. apply Hk'. apply list_elem_of_fmap. by exists (k', v).
Qed.

Lemma dict_set_new k v m : k ∉ dict_keys m -> dict_set k v m = (m ++ [(k, v)])%list.
Proof.
  unfold dict_keys. induction m as [|[k' v'] m IH]; simpl; [done|].
  rewrite not_elem_of_cons. intros [Hne Hk].
  rewrite decide_False by done. by rewrite IH.
Qed.

Lemma dict_keys_set_old k v m :
  k ∈ dict_keys m -> dict_keys (dict_set k v m) = dict_keys m.
Proof.
  unfold dict_keys. induction m as [|[k' v'] m IH]; simpl.
  - intros Hin. by apply elem_of_nil in Hin.
  - intros Hin. destruct (decide (k = k')) as [->|Hne]; simpl; [done|].
    f_equal. apply IH. apply elem_of_cons in Hin as [?|?]; done.
Qed.

Lemma dict_keys_set k v m :
  dict_keys (dict_set k v m)
  = if decide (k ∈ dict_keys m) then dict_keys m else (dict_keys m ++ [k])%list.
Proof.
  destruct (decide (k ∈ dict_keys m)) as [Hin|Hout].
  - by apply dict_keys_set_old.
  - rewrite dict_set_new by done. unfold dict_keys. by rewrite map_app.
Qed.

Lemma dict_keys_set_NoDup k v m :
  NoDup (dict_keys m) -> NoDup (dict_keys (dict_set k v m)).
Proof.
  intros Hnd. rewrite dict_keys_set. destruct (decide _); [done|].
  apply NoDup_app. split_and!; [done| |apply NoDup_singleton].
  intros x Hx Hx'. apply list_elem_of_singleton in Hx'. by subst.
Qed.

Lemma dict_has_true k m : dict_has k m = true <-> k ∈ dict_keys m.
Proof.
  unfold dict_has. destruct (dict_get k m) eqn:Hg.
  - split; [intros _|done].
    destruct (decide (k ∈ dict_keys m)) as [|Hout]; [done|].
    apply dict_get_None in Hout. congruence.
  - apply dict_get_None in Hg. split; [done|]. intros. done.
Qed.

End dict_facts.

(** ** Grouping *)

Section group_facts.
Context {K R : Type} `{EqDecision K}.
Implicit Types (key : R -> K) (rows : list R) (groups : list (K * list R)).

Lemma group_rows_snoc key rows r :
  group_rows key (rows ++ [r]) = setdefault_append (key r) r (group_rows key rows).
Proof. unfold group_rows. by rewrite fold_left_app. Qed.

(** The group of a key holds the rows with that key, in their order. *)
Lemma group_rows_get key rows k :
  dict_get k (group_rows key rows)
  = match filter (fun r => key r = k) rows with
    | [] => None
    | g => Some g
    end.
Proof.
  induction rows as [|r rows IH] using rev_ind; [done|].
  rewrite group_rows_snoc, filter_app. unfold setdefault_append.
  rewrite filter_cons, filter_nil.
  destruct (decide (key r = k)) as [<-|Hne].
  - rewrite dict_get_set_eq, IH.
    by destruct (filter (fun r0 => key r0 = key r) rows).
  - rewrite dict_get_set_ne by done. by rewrite IH, app_nil_r.
Qed.

Lemma group_rows_NoDup key rows : NoDup (dict_keys (group_rows key rows)).
Proof.
  induction rows as [|r rows IH] using rev_ind; [apply NoDup_nil_2|].
  rewrite group_rows_snoc. by apply dict_keys_set_NoDup.
Qed.

Lemma setdefault_append_concat k (r : R) groups :
  concat (dict_values (setdefault_append k r groups))
  ≡ₚ (concat (dict_values groups) ++ [r])%list.
Proof.
  unfold setdefault_append, dict_values.
  induction groups as [|[k' g] groups IH]; simpl; [done|].
  destruct (decide (k = k')) as [->|Hne]; simpl.
  - rewrite <- !(assoc_L (++)). apply Permutation_app_head.
    apply Permutation_app_comm.
  - rewrite <- (assoc_L (++)). by apply Permutation_app_head.
Qed.

(** No row is lost or duplicated. *)
Lemma group_rows_concat key rows :
  concat (dict_values (group_rows key rows)) ≡ₚ rows.
Proof.
  induction rows as [|r rows IH] using rev_ind; [done|].
  rewrite group_rows_snoc, setdefault_append_concat. by rewrite IH.
Qed.

Lemma group_rows_elem key rows k g :
  (k, g) ∈ group_rows key rows ->
  g = filter (fun r => key r = k) rows /\ g <> [].
Proof.
  intros Hin. apply (dict_get_elem _ _ _ (group_rows_NoDup key rows)) in Hin.
  rewrite group_rows_get in Hin.
  destruct (filter (fun r => key r = k) rows) eqn:Hf; [done|].
  by injection Hin as <-.
Qed.

End group_facts.

Lemma group_rows_partitions {K : Type} `{EqDecision K} (key : Row -> K) rows :
  partitions key rows (group_rows key rows).
Proof.
  split_and!.
  - apply group_rows_NoDup.
  - intros r Hr.
    pose proof (group_rows_get key rows (key r)) as Hg.
    assert (r ∈ filter (fun r0 => key r0 = key r) rows) as Hin
      by (by apply list_elem_of_filter).
    destruct (filter (fun r0 => key r0 = key r) rows) as [|r1 g] eqn:Hf.
    + by apply elem_of_nil in Hin.
    + exists (r1 :: g). split; [|done]. by apply dict_get_Some_elem.
  - intros k g Hin. apply group_rows_elem in Hin as [-> ?]. done.
  - apply group_rows_concat.
Qed.

Lemma fold_dict_set_fresh {K V : Type} `{EqDecision K} (l acc : list (K * V)) :
  NoDup (dict_keys (acc ++ l)) ->
  fold_left (fun grouped g => dict_set g.1 g.2 grouped) l acc = (acc ++ l)%list.
Proof.
  revert acc. induction l as [|[k v] l IH]; intros acc Hnd; simpl.
  - by rewrite app_nil_r.
  - rewrite cons_middle, (assoc_L (++)) in Hnd |- *.
    rewrite <- IH by done. f_equal. apply dict_set_new.
    unfold dict_keys in Hnd. rewrite !map_app in Hnd.
    apply NoDup_app in Hnd as [Hnd _]. apply NoDup_app in Hnd as (_ & Hd & _).
    intros Hin. apply (Hd k Hin). simpl. apply list_elem_of_singleton. done.
Qed.

Lemma groupby_keys df keys :
  dict_keys (V2.groupby df keys)
  = dict_keys (group_rows (key_tuple keys) (V2.rows df)).
Proof. unfold V2.groupby, dict_keys. by rewrite map_map. Qed.

Lemma group_df_frames df keys groups :
  V2.group_df (Some df) keys = Ok groups ->
  groups = V2.groupby df keys
  /\ frames_rows groups = group_rows (key_tuple keys) (V2.rows df).
Proof.
  unfold V2.group_df. destruct (V2.first_missing keys (V2.columns df)); [done|].
  intros [= <-].
  rewrite (fold_dict_set_fresh _ []).
  2:{ simpl. rewrite groupby_keys. apply group_rows_NoDup. }
  split; [done|]. unfold frames_rows, V2.groupby. simpl.
  rewrite map_map. simpl.
  induction (group_rows _ _) as [|[k g] l IH]; simpl; [done|]. by f_equal.
Qed.

Lemma fold_unless_empty (f : Row -> string) rows init :
  fold_left (fun groups r =>
               let k := f r in
               if String.eqb k "" then groups else setdefault_append k r groups)
            rows init
  = fold_left (fun groups r => setdefault_append (f r) r groups)
      (filter (fun r => f r <> "") rows) init.
Proof.
  revert init. induction rows as [|r rows IH]; intros init; [done|].
  rewrite filter_cons. simpl. destruct (String.eqb_spec (f r) "") as [He|Hne].
  - rewrite decide_False by (by intros ?). apply IH.
  - rewrite decide_True by done. simpl. apply IH.
Qed.

Lemma spd_by_refid_group_rows rows :
  V1.spd_by_refid rows
  = group_rows (fun r => Py.strip (row_get "refid" r))
      (filter (fun r => Py.strip (row_get "refid" r) <> "") rows).
Proof. apply (fold_unless_empty (fun r => Py.strip (row_get "refid" r))). Qed.

Lemma harms_by_safety_id_group_rows rows :
  V1.harms_by_safety_id rows
  = group_rows (fun r => Py.strip (row_get "safety_id" r))
      (filter (fun r => Py.strip (row_get "safety_id" r) <> "") rows).
Proof. apply (fold_unless_empty (fun r => Py.strip (row_get "safety_id" r))). Qed.

(** ** C6 *)

(** C6 (amended). The row grouper of version 2, [group_df], partitions the
    rows of a supplied CSV by their linkage-key tuple: every row is in
    exactly one group, the one keyed by its tuple, no row is lost or
    duplicated, and a group keeps the original row order.  In version 1 the
    same holds for the Safety, Performance and Follow-up groupings (keyed by
    the trimmed [refid] and [spd_id]); the SPD and Harms groupings partition
    only the rows whose trimmed [refid], respectively [safety_id], is not
    empty: rows with an empty key are left out of every group. *)
Theorem row_grouper_partitions :
  (forall df keys groups,
     V2.group_df (Some df) keys = Ok groups ->
     partitions (key_tuple keys) (V2.rows df) (frames_rows groups))
  /\ (forall rows,
        partitions
          (fun r => (Py.strip (row_get "refid" r), Py.strip (row_get "spd_id" r)))
          rows (V1.by_refid_spd rows))
  /\ (forall rows,
        partitions (fun r => Py.strip (row_get "refid" r))
          (filter (fun r => Py.strip (row_get "refid" r) <> "") rows)
          (V1.spd_by_refid rows))
  /\ (forall rows,
        partitions (fun r => Py.strip (row_get "safety_id" r))
          (filter (fun r => Py.strip (row_get "safety_id" r) <> "") rows)
          (V1.harms_by_safety_id rows)).
Proof.
  split_and!.
  - intros df keys groups Hg. apply group_df_frames in Hg as [_ ->].
    apply group_rows_partitions.
  - intros rows. apply group_rows_partitions.
  - intros rows. rewrite spd_by_refid_group_rows. apply group_rows_partitions.
  - intros rows. rewrite harms_by_safety_id_group_rows. apply group_rows_partitions.
Qed.

Lemma row_grouper_partitions_witness :
  let r1 : Row := [("refid", "1"); ("spd_id", "1")] in
  let r2 : Row := [("refid", "2"); ("spd_id", "1")] in
  let r3 : Row := [("refid", "1"); ("spd_id", "2")] in
  let df := V2.mkDF ["refid"; "spd_id"] [r1; r2; r3] in
  let groups := [(["1"], V2.mkDF ["refid"; "spd_id"] [r1; r3]);
                 (["2"], V2.mkDF ["refid"; "spd_id"] [r2])] in
  V2.group_df (Some df) ["refid"] = Ok groups
  /\ partitions (key_tuple ["refid"]) [r1; r2; r3] (frames_rows groups).
Proof.
  intros r1 r2 r3 df groups.
  assert (V2.group_df (Some df) ["refid"] = Ok groups) as H by reflexivity.
  split; [exact H|].
  exact (proj1 row_grouper_partitions df ["refid"] groups H).
Defined.

(** C6, as stated, fails on version 1: an SPD row whose [refid] is empty is
    put in no group. *)
Lemma row_grouper_drops_empty_refid :
  let row : Row := [("refid", ""); ("spd_id", "1")] in
  V1.spd_by_refid [row] = []
  /\ ~ partitions (fun r => Py.strip (row_get "refid" r)) [row] (V1.spd_by_refid [row]).
Proof.
  intros row. split; [reflexivity|].
  intros (_ & Hin & _).
  destruct (Hin row) as (g & Hg & _); [apply list_elem_of_singleton; done|].
  change (V1.spd_by_refid [row]) with (@nil (string * list Row)) in Hg.
  by apply elem_of_nil in Hg.
Qed.

(** ** Missing columns *)


Lemma first_missing_None keys cols :
  (forall k, k ∈ keys -> k ∈ cols) -> V2.first_missing keys cols = None.
Proof.
  intros Hall. unfold V2.first_missing.
  destruct (filter (fun k0 => k0 ∉ cols) keys) as [|k' l] eqn:Hf; [done|].
  assert (k' ∈ filter (fun k0 => k0 ∉ cols) keys) as Hin
    by (rewrite Hf; apply elem_of_cons; by left).
  apply list_elem_of_filter in Hin as [Hout Hin]. by destruct (Hout (Hall _ Hin)).
Qed.

(** ** Integers and their decimal strings *)

Lemma digit_val_pretty_N_char x :
  (x < 10)%N -> Py.digit_val (pretty_N_char x) = Z.of_N x.
Proof.
  intros Hx.
  assert (x = 0 \/ x = 1 \/ x = 2 \/ x = 3 \/ x = 4 \/ x = 5 \/ x = 6 \/ x = 7
          \/ x = 8 \/ x = 9)%N as H by lia.
  repeat (destruct H as [->|H]; [reflexivity|]). by subst.
Qed.

Lemma digits_pretty_N_go x s :
  fold_left digit_step (Py.chars (pretty_N_go x s)) 0
  = fold_left digit_step (Py.chars s) (Z.of_N x).
Proof.
  revert s. induction (N.lt_wf_0 x) as [x _ IH]; intros s.
  assert (x = 0 \/ 0 < x)%N as [->|Hpos] by lia; [by rewrite pretty_N_go_0|].
  rewrite pretty_N_go_step by done.
  rewrite IH by (by apply N.div_lt).
  simpl. f_equal. unfold digit_step.
  rewrite digit_val_pretty_N_char by (by apply N.mod_lt).
  rewrite (N.div_mod x 10) at 3 by done. lia.
Qed.

(** [int(str(n)) == n] for a non-negative [n]. *)
Lemma int_of_digits_str n : 0 <= n -> Py.int_of_digits (Py.str n) = n.
Proof.
  intros Hn. unfold Py.int_of_digits, Py.digits_val, Py.str.
  change (fun acc c => 10 * acc + Py.digit_val c) with digit_step.
  destruct n as [|p|p]; [reflexivity| |lia].
  change (pretty (Z.pos p)) with (pretty (N.pos p)).
  unfold pretty, pretty_N. rewrite decide_False by done.
  by rewrite digits_pretty_N_go.
Qed.

Lemma str_inj m n : Py.str m = Py.str n -> m = n.
Proof. apply pretty_Z_inj. Qed.

Lemma digit_step_nonneg l acc :
  forallb Py.isdigit_char l = true -> 0 <= acc -> 0 <= fold_left digit_step l acc.
Proof.
  revert acc. induction l as [|c l IH]; intros acc Hl Hacc; [done|].
  simpl in Hl. apply andb_prop in Hl as [Hc Hl]. simpl. apply IH; [done|].
  unfold digit_step, Py.digit_val. unfold Py.isdigit_char in Hc.
  apply andb_prop in Hc as [Hlo _]. apply N.leb_le in Hlo. lia.
Qed.

Lemma int_of_digits_nonneg k : Py.isdigit k = true -> 0 <= Py.int_of_digits k.
Proof.
  unfold Py.isdigit, Py.int_of_digits, Py.digits_val.
  change (fun acc c => 10 * acc + Py.digit_val c) with digit_step.
  destruct (Py.chars k) as [|c l] eqn:Hk; [done|].
  intros Hd. by apply digit_step_nonneg.
Qed.

(** ** Identifier factory *)

Lemma collect_numeric_keys j keys :
  V2._collect_all_numeric_keys j keys = (keys ++ numeric_keys j)%list.
Proof.
  revert keys. induction j as [| | | |l IH|m IH] using json_nested_ind;
    intros keys; try (by rewrite app_nil_r).
  - unfold numeric_keys. simpl. revert keys.
    induction IH as [|x l Hx _ IHl]; intros keys; [by rewrite app_nil_r|].
    rewrite Hx, IHl. rewrite filter_app, map_app. unfold numeric_keys.
    by rewrite (assoc_L (++)).
  - unfold numeric_keys. simpl. revert keys.
    induction IH as [|[k v] m Hv _ IHm]; intros keys; [by rewrite app_nil_r|].
    simpl in Hv. rewrite Hv, IHm. rewrite filter_cons, filter_app.
    unfold numeric_keys.
    destruct (Py.isdigit k) eqn:Hk.
    + rewrite decide_True by done. simpl. rewrite map_app.
      by rewrite <- !(assoc_L (++)).
    + rewrite decide_False by (by intros ?). rewrite map_app.
      by rewrite <- !(assoc_L (++)).
Qed.

Lemma fold_max_init xs x : x <= fold_left Z.max xs x.
Proof.
  revert x. induction xs as [|z xs IH]; intros x; simpl; [lia|].
  transitivity (Z.max x z); [lia|apply IH].
Qed.

Lemma py_max_ge x xs y : y ∈ x :: xs -> y <= V2.py_max x xs.
Proof.
  unfold V2.py_max. revert x. induction xs as [|z xs IH]; intros x Hy; simpl.
  - apply list_elem_of_singleton in Hy. lia.
  - apply elem_of_cons in Hy as [Hy|Hy].
    + transitivity (Z.max x z); [lia|apply fold_max_init].
    + apply elem_of_cons in Hy as [Hy|Hy].
      * transitivity (Z.max x z); [lia|apply fold_max_init].
      * apply IH, elem_of_cons. by right.
Qed.

Lemma py_max_elem x xs : V2.py_max x xs ∈ x :: xs.
Proof.
  unfold V2.py_max. revert x. induction xs as [|z xs IH]; intros x; simpl.
  - apply elem_of_cons; by left.
  - specialize (IH (Z.max x z)). apply elem_of_cons in IH as [Heq|Hin].
    + rewrite Heq. destruct (Z.max_spec x z) as [[_ ->]|[_ ->]].
      * apply elem_of_cons; right. apply elem_of_cons; by left.
      * apply elem_of_cons; by left.
    + apply elem_of_cons; right. apply elem_of_cons; by right.
Qed.

Lemma generated_spec n f :
  generated n f = map (fun i => Py.str (V2.counter f + Z.of_nat i)) (seq 1 n).
Proof.
  revert f. induction n as [|n IH]; intros f; [done|].
  simpl. rewrite IH. simpl. rewrite <- (seq_shift n 1), map_map.
  apply (f_equal2 cons); [f_equal; lia|].
  apply map_ext. intros i. f_equal. lia.
Qed.

Lemma gen_ids_spec n c :
  gen_ids n c = map (fun i => Py.str (c + Z.of_nat i)) (seq 1 n).
Proof.
  revert c. induction n as [|n IH]; intros c; [done|].
  simpl. rewrite IH. rewrite <- (seq_shift n 1), map_map.
  apply (f_equal2 cons); [f_equal; lia|].
  apply map_ext. intros i. f_equal. lia.
Qed.

Lemma str_offsets_NoDup c n :
  NoDup (map (fun i => Py.str (c + Z.of_nat i)) (seq 1 n)).
Proof.
  apply NoDup_fmap_2_strong; [|apply NoDup_seq].
  intros i j _ _ Heq. apply str_inj in Heq. lia.
Qed.

Lemma start_from_spec tm :
  let found := V2._collect_all_numeric_keys tm [] in
  (found = [] -> V2.start_from tm = 10000)
  /\ (found <> [] ->
      V2.start_from tm ∈ found /\ forall x, x ∈ found -> x <= V2.start_from tm).
Proof.
  unfold V2.start_from. destruct (V2._collect_all_numeric_keys tm []) as [|x xs].
  - split; done.
  - split; [done|]. intros _. split; [apply py_max_elem|].
    intros y Hy. by apply py_max_ge.
Qed.

Lemma numeric_key_found tm k :
  k ∈ json_keys tm -> Py.isdigit k = true ->
  Py.int_of_digits k ∈ V2._collect_all_numeric_keys tm [].
Proof.
  intros Hk Hd. rewrite collect_numeric_keys. simpl. unfold numeric_keys.
  apply list_elem_of_fmap. exists k. split; [done|].
  by apply list_elem_of_filter.
Qed.

(** No identifier drawn from a factory seeded on the template is one of the
    template's unsigned-integer keys. *)
Lemma template_key_not_generated tm k i :
  k ∈ json_keys tm -> Py.isdigit k = true ->
  (0 < i) -> k <> Py.str (V2.start_from tm + i).
Proof.
  intros Hk Hd Hi Heq.
  pose proof (numeric_key_found tm k Hk Hd) as Hfound.
  pose proof (int_of_digits_nonneg k Hd) as Hnn.
  destruct (start_from_spec tm) as [_ Hmax].
  destruct Hmax as [_ Hle]; [by intros Hnil; rewrite Hnil in Hfound; apply elem_of_nil in Hfound|].
  specialize (Hle _ Hfound).
  rewrite Heq in Hle, Hnn. rewrite int_of_digits_str in Hle by lia. lia.
Qed.

(** ** Form populator *)

Lemma get_arr_set k l (m : dict) : get_arr k (dict_set k (JArr l) m) = l.
Proof. unfold get_arr. by rewrite dict_get_set_eq. Qed.

Lemma get_arr_set_ne k k' v (m : dict) :
  k <> k' -> get_arr k' (dict_set k v m) = get_arr k' m.
Proof. intros. unfold get_arr. by rewrite dict_get_set_ne. Qed.

Lemma get_arr_setdefault_ne k k' v (m : dict) :
  k <> k' -> get_arr k' (dict_setdefault k v m) = get_arr k' m.
Proof.
  intros. unfold dict_setdefault. destruct (dict_has k m); [done|].
  by apply get_arr_set_ne.
Qed.

(** The entries that version 1 emits: those of each question in turn. *)
Lemma V1_populated_data form_proto row :
  data_of (V1._populate_form_from_row form_proto row)
  = flat_map (fun q => V1.entries_for row q.1 q.2) (V1.question_types form_proto).
Proof.
  unfold data_of, V1._populate_form_from_row.
  rewrite get_arr_setdefault_ne by done. apply get_arr_set.
Qed.

(** The entries that version 2 leaves: one per entry of the prototype. *)
Lemma V2_populated_data form row idx ov :
  data_of (V2._populate_form_data_from_row form row idx ov)
  = map (fun datum =>
           match datum with
           | JObj d => JObj (V2.populate_datum row idx ov d)
           | other => other
           end) (data_of form).
Proof.
  unfold data_of, V2._populate_form_data_from_row, get_arr.
  destruct (dict_get "data" form) as [[]|] eqn:Hd; rewrite ?Hd; try done.
  by rewrite dict_get_set_eq.
Qed.

Lemma entries_for_cases row q ty e :
  e ∈ V1.entries_for row q ty ->
  entry_question e = q /\ entry_type e = ty /\
  ((exists val item, dict_get q row = Some val /\ q = "Associated CERs" /\
      response_of "text" e = empty_answer /\ response_of "answer" e = Some (JStr item) /\
      (item ∈ V1.cer_items val \/ (V1.cer_items val = [] /\ item = "")))
   \/ (exists val, dict_get q row = Some val /\ q <> "Associated CERs" /\
         (ty = "Radio" \/ ty = "Checkbox") /\
         response_of "text" e = empty_answer /\ response_of "answer" e = Some (JStr val))
   \/ (exists val, dict_get q row = Some val /\ q <> "Associated CERs" /\
         ~ (ty = "Radio" \/ ty = "Checkbox") /\
         response_of "text" e = Some (JStr val) /\ response_of "answer" e = empty_answer)
   \/ (dict_get q row = None /\
         response_of "text" e = empty_answer /\ response_of "answer" e = empty_answer)).
Proof.
  unfold V1.entries_for. destruct (dict_get q row) as [val|] eqn:Hrow.
  - destruct (decide (q = "Associated CERs")) as [Hq|Hq].
    + destruct (V1.cer_items val) as [|i0 items] eqn:Hitems.
      * intros ->%list_elem_of_singleton. split_and!; [done..|].
        left. exists val, "". split_and!; try done. by right.
      * intros (item & -> & Hin)%list_elem_of_fmap. split_and!; [done..|].
        left. exists val, item. split_and!; try done. left. by rewrite Hitems.
    + destruct (decide (ty = "Radio" \/ ty = "Checkbox")) as [Hty|Hty].
      * intros ->%list_elem_of_singleton. split_and!; [done..|].
        right; left. by exists val.
      * intros ->%list_elem_of_singleton. split_and!; [done..|].
        right; right; left. by exists val.
  - intros ->%list_elem_of_singleton. split_and!; [done..|].
    right; right; right. done.
Qed.

Lemma V1_populated_entry form_proto row e :
  e ∈ data_of (V1._populate_form_from_row form_proto row) ->
  exists q ty, (q, ty) ∈ V1.question_types form_proto /\ e ∈ V1.entries_for row q ty.
Proof.
  rewrite V1_populated_data. intros Hin.
  apply list_elem_of_In, in_flat_map in Hin as ([q ty] & Hq & He).
  exists q, ty. split; by apply list_elem_of_In.
Qed.

(** What [_set_response] leaves in the two response sub-fields. *)
Lemma set_response_fields datum value r :
  dict_get "response" datum = Some r ->
  written_by_type datum r (default "" value) (JObj (V2._set_response datum value)).
Proof.
  intros Hr. unfold written_by_type.
  set (dtype := Py.lower (Py.strip (get_str "type" "" datum))).
  unfold response_of, V2._set_response. rewrite Hr. fold dtype.
  unfold get_obj. simpl as_dict. rewrite dict_get_set_eq.
  assert (forall (a b : string) x (m : dict), a <> b ->
            dict_get a (dict_setdefault b (JStr "") (dict_set a x m)) = Some x) as Hactive.
  { intros a b x m Hab. unfold dict_setdefault.
    destruct (dict_has b _); [by rewrite dict_get_set_eq|].
    rewrite dict_get_set_ne by done. by rewrite dict_get_set_eq. }
  assert (forall (a b : string) x (m : dict), a <> b ->
            dict_get b (dict_setdefault b (JStr "") (dict_set a x m))
            = Some (default (JStr "") (dict_get b m))) as Hkept.
  { intros a b x m Hab. unfold dict_setdefault, dict_has.
    rewrite (dict_get_set_ne a b) by done.
    destruct (dict_get b m) eqn:Hb.
    - by rewrite dict_get_set_ne, Hb.
    - by rewrite dict_get_set_eq. }
  split_and!.
  - intros Ht. rewrite decide_True by done.
    split; [by apply Hactive|by apply Hkept].
  - intros Hrc. rewrite decide_False by (by destruct Hrc as [-> | ->]).
    rewrite decide_True by done.
    split; [by apply Hactive|by apply Hkept].
  - intros H1 H2 H3. rewrite decide_False by done.
    rewrite decide_False by (by intros [?|?]).
    split; [|by rewrite dict_get_set_eq].
    rewrite dict_get_set_ne by done. by rewrite dict_get_set_eq.
Qed.

Lemma V2_populated_entry form row idx ov e :
  e ∈ data_of (V2._populate_form_data_from_row form row idx ov) ->
  exists datum, datum ∈ data_of form /\
    ((exists d, datum = JObj d /\ e = JObj (V2.populate_datum row idx ov d))
     \/ (e = datum /\ forall d, datum <> JObj d)).
Proof.
  rewrite V2_populated_data.
  intros (datum & -> & Hin)%list_elem_of_fmap. exists datum. split; [done|].
  destruct datum; try (right; split; [done|by intros ?]).
  left. eauto.
Qed.

Lemma populate_datum_value row idx ov d :
  exists value, V2.populate_datum row idx ov d = V2._set_response d value.
Proof. unfold V2.populate_datum. eauto. Qed.

(** ** C2 *)

(** C2 (amended). Version 1: in every entry that the form populator emits,
    [response.text] is empty when the type is Radio or Checkbox, and
    [response.answer] is empty for every other type unless the question is
    "Associated CERs", whose items go to [answer] whatever the type; the two
    sub-fields are never both non-empty.  Version 2: every entry of the
    populated form is an entry of the prototype passed through
    [_set_response]; by the type of the entry (trimmed, case ignored), Text
    gets the value in [text] and keeps the prototype's [answer] (empty if
    absent), Radio and Checkbox get the value in [answer] and keep the
    prototype's [text] (empty if absent), and every other type gets the value
    in both sub-fields. *)
Theorem response_fields_by_type :
  (forall form_proto row e,
     e ∈ data_of (V1._populate_form_from_row form_proto row) ->
     (entry_type e = "Radio" \/ entry_type e = "Checkbox" ->
        response_of "text" e = empty_answer)
     /\ (~ (entry_type e = "Radio" \/ entry_type e = "Checkbox") ->
         entry_question e <> "Associated CERs" ->
         response_of "answer" e = empty_answer)
     /\ (response_of "text" e = empty_answer \/ response_of "answer" e = empty_answer))
  /\ (forall form row idx ov e,
        e ∈ data_of (V2._populate_form_data_from_row form row idx ov) ->
        exists datum, datum ∈ data_of form /\
          ((exists d value, datum = JObj d /\ e = JObj (V2._set_response d value))
           \/ (e = datum /\ forall d, datum <> JObj d)))
  /\ (forall datum value r,
        dict_get "response" datum = Some r ->
        written_by_type datum r (default "" value) (JObj (V2._set_response datum value))).
Proof.
  split_and!.
  - intros form_proto row e He.
    apply V1_populated_entry in He as (q & ty & _ & He).
    apply entries_for_cases in He as (Hq & Hty & Hcases).
    rewrite Hq, Hty.
    destruct Hcases as [(val & item & _ & Hcer & Ht & Ha & _)
                       |[(val & _ & _ & Hrc & Ht & Ha)
                        |[(val & _ & _ & Hrc & Ht & Ha)|(_ & Ht & Ha)]]].
    + split_and!; [done|done|by left].
    + split_and!; [done|done|by left].
    + split_and!; [done|done|by right].
    + split_and!; [done|done|by left].
  - intros form row idx ov e He.
    apply V2_populated_entry in He as (datum & Hin & [(d & -> & ->)|Hsame]).
    + exists (JObj d). split; [done|]. left.
      destruct (populate_datum_value row idx ov d) as [value ->]. eauto.
    + exists datum. split; [done|]. by right.
  - apply set_response_fields.
Qed.

Lemma response_fields_by_type_witness :
  let proto : dict :=
    [("form", JStr "Safety");
     ("data", JArr [JObj [("question", JStr "Serious"); ("type", JStr "Radio")]])] in
  let row : Row := [("Serious", "Yes")] in
  let e := V1.entry_at "Serious" "Radio" "Yes" "" in
  let datum : dict :=
    [("question", JStr "Serious"); ("type", JStr "Radio");
     ("response", JObj [("text", JStr "old"); ("answer", JStr "No")])] in
  e ∈ data_of (V1._populate_form_from_row proto row)
  /\ response_of "text" e = empty_answer
  /\ written_by_type datum (JObj [("text", JStr "old"); ("answer", JStr "No")]) "Yes"
       (JObj (V2._set_response datum (Some "Yes"))).
Proof.
  intros proto row e datum.
  assert (e ∈ data_of (V1._populate_form_from_row proto row)) as He
    by (apply list_elem_of_singleton; reflexivity).
  destruct response_fields_by_type as (H1 & _ & H3).
  split_and!.
  - exact He.
  - apply (H1 proto row e He). left. reflexivity.
  - apply (H3 datum (Some "Yes")). reflexivity.
Defined.

(** C2, as stated, fails.  Version 2 writes the value into both sub-fields
    of an entry whose type is none of Text, Radio, Checkbox, and leaves a
    Radio entry the text its prototype had; version 1 writes an
    "Associated CERs" item into [answer] although the type is Text. *)
Lemma response_fields_not_exclusive :
  let dropdown : dict :=
    [("question", JStr "Route"); ("type", JStr "Dropdown");
     ("response", JObj [("text", JStr ""); ("answer", JStr "")])] in
  let radio : dict :=
    [("question", JStr "Serious"); ("type", JStr "Radio");
     ("response", JObj [("text", JStr "old"); ("answer", JStr "")])] in
  let proto : dict :=
    [("data", JArr [JObj [("question", JStr "Associated CERs"); ("type", JStr "Text")]])] in
  (response_of "text" (JObj (V2._set_response dropdown (Some "oral"))) = Some (JStr "oral")
   /\ response_of "answer" (JObj (V2._set_response dropdown (Some "oral"))) = Some (JStr "oral"))
  /\ (response_of "text" (JObj (V2._set_response radio (Some "Yes"))) = Some (JStr "old")
      /\ response_of "answer" (JObj (V2._set_response radio (Some "Yes"))) = Some (JStr "Yes"))
  /\ data_of (V1._populate_form_from_row proto [("Associated CERs", "A")])
     = [V1.entry "Associated CERs" "Text" "" "A"].
Proof. intros dropdown radio proto. split_and!; reflexivity. Qed.

(** ** C8 *)






(** ** C3 *)

Lemma filter_all {A} (P : A -> Prop) `{forall x, Decision (P x)} (l : list A) :
  (forall x, x ∈ l -> P x) -> filter P l = l.
Proof.
  induction l as [|x l IH]; intros Hall; [done|].
  rewrite filter_cons, decide_True by (apply Hall, elem_of_cons; by left).
  f_equal. apply IH. intros y Hy. apply Hall, elem_of_cons. by right.
Qed.

Lemma filter_none {A} (P : A -> Prop) `{forall x, Decision (P x)} (l : list A) :
  (forall x, x ∈ l -> ~ P x) -> filter P l = [].
Proof.
  induction l as [|x l IH]; intros Hall; [done|].
  rewrite filter_cons, decide_False by (apply Hall, elem_of_cons; by left).
  apply IH. intros y Hy. apply Hall, elem_of_cons. by right.
Qed.

Lemma question_types_NoDup form_proto : NoDup (dict_keys (V1.question_types form_proto)).
Proof.
  unfold V1.question_types.
  generalize (get_arr "data" form_proto). intros l.
  assert (NoDup (dict_keys (@nil (string * string)))) as Hinit by apply NoDup_nil_2.
  revert Hinit. generalize (@nil (string * string)).
  induction l as [|q l IH]; intros init Hinit; [done|].
  simpl. apply IH. by apply dict_keys_set_NoDup.
Qed.

Lemma entries_of_question (F : string -> string -> list json) qs Q ty :
  NoDup (dict_keys qs) ->
  (Q, ty) ∈ qs ->
  (forall q t e, e ∈ F q t -> entry_question e = q) ->
  filter (fun e => entry_question e = Q) (flat_map (fun q => F q.1 q.2) qs) = F Q ty.
Proof.
  intros Hnd Hin HF. induction qs as [|[q1 t1] qs IH]; [by apply elem_of_nil in Hin|].
  unfold dict_keys in Hnd. simpl in Hnd. apply NoDup_cons in Hnd as [Hq1 Hnd].
  simpl. rewrite filter_app.
  assert (forall e, e ∈ flat_map (fun q => F q.1 q.2) qs ->
            exists q t, (q, t) ∈ qs /\ e ∈ F q t) as Hrest.
  { intros e He. apply list_elem_of_In, in_flat_map in He as ([q t] & Hq & He).
    exists q, t. split; by apply list_elem_of_In. }
  apply elem_of_cons in Hin as [Heq|Hin].
  - injection Heq as <- <-.
    rewrite filter_all by (intros e He; by apply (HF Q ty)).
    rewrite filter_none; [by rewrite app_nil_r|].
    intros e He Hqe. apply Hrest in He as (q & t & Hq & He).
    apply HF in He. rewrite Hqe in He. subst q.
    apply Hq1. apply list_elem_of_fmap. by exists (Q, t).
  - rewrite filter_none.
    + simpl. by apply IH.
    + intros e He Hqe. apply HF in He. rewrite Hqe in He. subst q1.
      apply Hq1. apply list_elem_of_fmap. by exists (Q, ty).
Qed.

Lemma split_replaced_semicolons l :
  Py.split_chars "," (map (fun c => if Ascii.eqb c ";" then ","%char else c) l)
  = fields_by comma_or_semicolon l.
Proof.
  induction l as [|c l IH]; [done|].
  simpl. rewrite IH. unfold comma_or_semicolon.
  destruct (Ascii.eqb_spec c ";") as [->|Hsemi]; [done|].
  rewrite orb_false_r. by destruct (Ascii.eqb c ",").
Qed.

(** The items that version 1 extracts are the non-empty trimmed fields
    between commas and semicolons. *)
Lemma cer_items_listed val : V1.cer_items val = listed_items val.
Proof.
  unfold V1.cer_items, listed_items, Py.split, Py.replace_char.
  rewrite chars_str_of, split_replaced_semicolons. by rewrite map_map.
Qed.

(** C3 (amended). Version 1: for a row that has the column
    "Associated CERs", the form populator emits, for that question, one entry
    per non-empty trimmed item of the value split on commas and semicolons,
    each with the question, the type of the question, an empty [text] and the
    item as [answer]; when there is no item it emits one entry with an empty
    answer.  The value "A, B; C" has the three items A, B, C and the empty
    value has none.  Version 2 has no such rule: the populated form has
    exactly one entry per entry of the prototype. *)
Theorem associated_cers_exploded :
  (forall form_proto row ty val,
     ("Associated CERs", ty) ∈ V1.question_types form_proto ->
     dict_get "Associated CERs" row = Some val ->
     filter (fun e => entry_question e = "Associated CERs")
            (data_of (V1._populate_form_from_row form_proto row))
     = match listed_items val with
       | [] => [V1.entry "Associated CERs" ty "" ""]
       | items => map (fun item => V1.entry "Associated CERs" ty "" item) items
       end)
  /\ listed_items "A, B; C" = ["A"; "B"; "C"]
  /\ listed_items "" = []
  /\ (forall form row idx ov,
        length (data_of (V2._populate_form_data_from_row form row idx ov))
        = length (data_of form)).
Proof.
  split_and!; try reflexivity.
  - intros form_proto row ty val Hq Hrow.
    rewrite V1_populated_data.
    rewrite (entries_of_question (V1.entries_for row) _ "Associated CERs" ty).
    + unfold V1.entries_for. rewrite Hrow, decide_True by done.
      by rewrite cer_items_listed.
    + apply question_types_NoDup.
    + exact Hq.
    + intros q t e He. by apply entries_for_cases in He as [? _].
  - intros form row idx ov. rewrite V2_populated_data. apply length_map.
Qed.

Lemma associated_cers_exploded_witness :
  let proto : dict :=
    [("form", JStr "Study Parameters and Demographics");
     ("data", JArr [JObj [("question", JStr "Age"); ("type", JStr "Text")];
                    JObj [("question", JStr "Associated CERs"); ("type", JStr "Checkbox")]])] in
  let row : Row := [("Age", "63"); ("Associated CERs", "A, B; C")] in
  filter (fun e => entry_question e = "Associated CERs")
         (data_of (V1._populate_form_from_row proto row))
  = [V1.entry "Associated CERs" "Checkbox" "" "A";
     V1.entry "Associated CERs" "Checkbox" "" "B";
     V1.entry "Associated CERs" "Checkbox" "" "C"].
Proof.
  intros proto row.
  assert (("Associated CERs", "Checkbox") ∈ V1.question_types proto) as Hq.
  { apply elem_of_cons. right. apply list_elem_of_singleton. reflexivity. }
  rewrite (proj1 associated_cers_exploded proto row "Checkbox" "A, B; C" Hq eq_refl).
  reflexivity.
Defined.

(** C3, as stated, fails on version 2: the value "A, B; C" gives one entry
    that holds the whole value, not three. *)
Lemma associated_cers_not_exploded_in_v2 :
  let form : dict :=
    [("form", JStr "Study Parameters and Demographics");
     ("data", JArr [JObj [("question", JStr "Associated CERs"); ("type", JStr "Checkbox");
                          ("response", JObj [("text", JStr ""); ("answer", JStr "")])]])] in
  let row : Row := [("Associated CERs", "A, B; C")] in
  data_of (V2._populate_form_data_from_row form row
             (V2._index_by_normalized ["Associated CERs"]) None)
  = [JObj [("question", JStr "Associated CERs"); ("type", JStr "Checkbox");
           ("response", JObj [("text", JStr ""); ("answer", JStr "A, B; C")])]].
Proof. intros form row. reflexivity. Qed.

(** ** The build monad *)

Lemma bind_Ok {A B} (m : M A) (k : A -> M B) c r :
  bind m k c = Ok r <-> exists a c1, m c = Ok (a, c1) /\ k a c1 = Ok r.
Proof.
  unfold bind. destruct (m c) as [[a c1]|e].
  - split; [eauto|]. by intros (? & ? & [= <- <-] & ?).
  - split; [done|]. by intros (? & ? & ? & _).
Qed.

Lemma ret_Ok {A} (a : A) c r : ret a c = Ok r <-> r = (a, c).
Proof. unfold ret. split; [by intros [= <-]|by intros ->]. Qed.

Lemma lift_Ok {A} (r : result A) c a c' :
  lift r c = Ok (a, c') <-> r = Ok a /\ c' = c.
Proof.
  unfold lift. destruct r as [a0|e]; split.
  - by intros [= -> ->].
  - by intros [[= ->] ->].
  - done.
  - by intros [? _].
Qed.

Lemma for_each_snoc_inv {A B} (I : list A -> B -> Z -> Prop)
    (body : B -> A -> M B) xs :
  (forall seen x acc c acc' c',
     I seen acc c -> x ∈ xs -> body acc x c = Ok (acc', c') ->
     I (seen ++ [x])%list acc' c') ->
  forall seen rest acc c acc' c',
    (xs = seen ++ rest)%list ->
    I seen acc c -> for_each rest acc body c = Ok (acc', c') -> I xs acc' c'.
Proof.
  intros Hstep seen rest. revert seen.
  induction rest as [|x rest IH]; intros seen acc c acc' c' Hxs HI Hrun.
  - apply ret_Ok in Hrun as [= <- <-]. by rewrite Hxs, app_nil_r.
  - simpl in Hrun. apply bind_Ok in Hrun as (acc1 & c1 & Hbody & Hrun).
    apply (IH (seen ++ [x])%list acc1 c1); [by rewrite <- (assoc_L (++))| |done].
    apply (Hstep seen x acc c); [done| |done].
    rewrite Hxs. apply elem_of_app. right. apply elem_of_cons. by left.
Qed.

(** A loop invariant over the elements seen so far. *)
Lemma for_each_inv {A B} (I : list A -> B -> Z -> Prop)
    (body : B -> A -> M B) xs acc c acc' c' :
  I [] acc c ->
  (forall seen x acc c acc' c',
     I seen acc c -> x ∈ xs -> body acc x c = Ok (acc', c') ->
     I (seen ++ [x])%list acc' c') ->
  for_each xs acc body c = Ok (acc', c') -> I xs acc' c'.
Proof. intros HI Hstep. by apply (for_each_snoc_inv I body xs Hstep [] xs). Qed.

(** A loop whose body never raises does not raise. *)
Lemma for_each_total {A B} (body : B -> A -> M B) xs acc c :
  (forall acc x c, exists r, body acc x c = Ok r) ->
  exists r, for_each xs acc body c = Ok r.
Proof.
  intros Hbody. revert acc c. induction xs as [|x xs IH]; intros acc c.
  - by eexists.
  - simpl. unfold bind. destruct (Hbody acc x c) as [[acc1 c1] ->]. apply IH.
Qed.

(** ** Version 1: the records of a build *)

Lemma get_obj_set k m (node : dict) : get_obj k (dict_set k (JObj m) node) = m.
Proof. unfold get_obj. by rewrite dict_get_set_eq. Qed.

Lemma v1_spd_step_skip t sk pk fk hb refid children row c :
  Py.strip (row_get "spd_id" row) = "" ->
  V1.spd_step t sk pk fk hb refid children row c = Ok (children, c).
Proof. intros Hempty. unfold V1.spd_step. by rewrite Hempty. Qed.

Lemma v1_spd_step_add t sk pk fk hb refid children row c children' c' :
  Py.strip (row_get "spd_id" row) <> "" ->
  V1.spd_step t sk pk fk hb refid children row c = Ok (children', c') ->
  exists spd_form,
    children' = dict_set (v1_spd_key row) (JObj spd_form) children
    /\ dict_get "key" spd_form = Some (JStr (v1_spd_key row)).
Proof.
  intros Hne. unfold V1.spd_step.
  destruct (String.eqb_spec (Py.strip (row_get "spd_id" row)) "") as [|_]; [done|].
  destruct (V1.spd_proto t) as [proto|]; [|done].
  intros Hrun.
  apply bind_Ok in Hrun as (ch1 & c1 & _ & Hrun).
  apply bind_Ok in Hrun as (ch2 & c2 & _ & Hrun).
  apply bind_Ok in Hrun as (ch3 & c3 & _ & Hrun).
  apply ret_Ok in Hrun as [= -> ->].
  eexists. split; [reflexivity|].
  rewrite !dict_get_set_ne by done. apply dict_get_set_eq.
Qed.

Lemma v1_spd_children_nil : v1_spd_children [] [].
Proof.
  split_and!.
  - apply NoDup_nil_2.
  - intros k. split.
    + intros Hk. by apply elem_of_nil in Hk.
    + intros (r & Hr & _). by apply elem_of_nil in Hr.
  - intros k node Hin. by apply elem_of_nil in Hin.
Qed.

Lemma v1_spd_children_step t sk pk fk hb refid seen row children c children' c' :
  v1_spd_children seen children ->
  V1.spd_step t sk pk fk hb refid children row c = Ok (children', c') ->
  v1_spd_children (seen ++ [row]) children'.
Proof.
  intros (Hnd & Hkeys & Hnodes) Hrun.
  destruct (decide (Py.strip (row_get "spd_id" row) = "")) as [Hempty|Hne].
  - rewrite v1_spd_step_skip in Hrun by done. injection Hrun as <- <-.
    split_and!; [done| |done].
    intros k. rewrite Hkeys. split.
    + intros (r & Hr & ? & ?). exists r. split; [|done].
      apply elem_of_app. by left.
    + intros (r & Hr & Hr' & ?). exists r. split; [|done].
      apply elem_of_app in Hr as [Hr|Hr%list_elem_of_singleton]; [done|].
      by subst r.
  - apply v1_spd_step_add in Hrun as (spd_form & -> & Hkey); [|done].
    split_and!.
    + by apply dict_keys_set_NoDup.
    + intros k. rewrite dict_keys_set. split.
      * intros Hk.
        assert (k ∈ dict_keys children \/ k = v1_spd_key row) as [Hold| ->].
        { destruct (decide (v1_spd_key row ∈ dict_keys children)); [by left|].
          apply elem_of_app in Hk as [?|?%list_elem_of_singleton]; auto. }
        -- apply Hkeys in Hold as (r & Hr & ? & ?). exists r.
           split; [|done]. apply elem_of_app. by left.
        -- exists row. split; [|done]. apply elem_of_app. right.
           by apply list_elem_of_singleton.
      * intros (r & Hr & Hr' & ->).
        apply elem_of_app in Hr as [Hr|Hr%list_elem_of_singleton].
        -- assert (v1_spd_key r ∈ dict_keys children) as Hold
             by (apply Hkeys; by exists r).
           destruct (decide (v1_spd_key row ∈ dict_keys children)); [done|].
           apply elem_of_app. by left.
        -- subst r.
           destruct (decide (v1_spd_key row ∈ dict_keys children)); [done|].
           apply elem_of_app. right. by apply list_elem_of_singleton.
    + intros k node Hin.
      destruct (decide (k = v1_spd_key row)) as [->|Hk].
      * apply dict_get_elem in Hin; [|by apply dict_keys_set_NoDup].
        rewrite dict_get_set_eq in Hin. by injection Hin as <-.
      * apply dict_get_elem in Hin; [|by apply dict_keys_set_NoDup].
        rewrite dict_get_set_ne in Hin by done.
        apply dict_get_Some_elem in Hin. by apply Hnodes.
Qed.

Lemma v1_refid_step_record t sk pk fk hb out g c out' c' :
  V1.refid_step t sk pk fk hb out g c = Ok (out', c') ->
  exists rec, out' = (out ++ [rec])%list /\ v1_record g rec.
Proof.
  unfold V1.refid_step. intros Hrun.
  apply bind_Ok in Hrun as (ds_id & c1 & _ & Hrun).
  apply bind_Ok in Hrun as (extraction & c1' & _ & Hrun).
  apply bind_Ok in Hrun as (children & c2 & Hloop & Hrun).
  apply ret_Ok in Hrun as [= -> ->].
  eexists. split; [reflexivity|].
  exists ds_id. eexists. split; [reflexivity|].
  rewrite get_obj_set.
  apply (for_each_inv (fun seen ch _ => v1_spd_children seen ch)) in Hloop; [done|..].
  - apply v1_spd_children_nil.
  - intros seen x acc c0 acc' c0' HI _ Hbody.
    by apply (v1_spd_children_step t sk pk fk hb g.1 seen x acc c0 acc' c0').
Qed.

(** The records of a successful build of version 1, one per group of SPD
    rows, in the order of the groups. *)
Lemma v1_build_records t spd_rows safety_rows perf_rows harms_rows followup_rows c out c' :
  V1.build t spd_rows safety_rows perf_rows harms_rows followup_rows c = Ok (out, c') ->
  Forall2 v1_record (V1.spd_by_refid spd_rows) out.
Proof.
  unfold V1.build. intros Hrun.
  apply (for_each_inv (fun seen out _ => Forall2 v1_record seen out)) in Hrun; [done|..].
  - apply Forall2_nil_2.
  - intros seen g acc c0 acc' c0' HI _ Hbody.
    apply v1_refid_step_record in Hbody as (rec & -> & Hrec).
    apply Forall2_app; [done|]. by apply Forall2_cons_2; [|apply Forall2_nil_2].
Qed.

(** ** Identifiers drawn during a run *)

Lemma drawn_nil c c' : drawn c c' [].
Proof. exists []. split_and!; [done|apply NoDup_nil_2|apply Forall_nil_2]. Qed.

Lemma drawn_weaken a b a' b' ids :
  a' <= a -> b <= b' -> drawn a b ids -> drawn a' b' ids.
Proof.
  intros Ha Hb (ns & -> & Hnd & Hall). exists ns. split_and!; [done..|].
  eapply Forall_impl; [exact Hall|]. intros n ?. simpl in *. lia.
Qed.

Lemma drawn_app a b c l1 l2 :
  a <= b -> b <= c -> drawn a b l1 -> drawn b c l2 -> drawn a c (l1 ++ l2).
Proof.
  intros Hab Hbc (ns1 & -> & Hnd1 & Hall1) (ns2 & -> & Hnd2 & Hall2).
  exists (ns1 ++ ns2)%list. split_and!.
  - by rewrite map_app.
  - apply NoDup_app. split_and!; [done| |done].
    intros n Hn1 Hn2.
    rewrite Forall_forall in Hall1, Hall2.
    specialize (Hall1 n Hn1). specialize (Hall2 n Hn2). simpl in *. lia.
  - apply Forall_app. split.
    + eapply Forall_impl; [exact Hall1|]. intros n ?. simpl in *. lia.
    + eapply Forall_impl; [exact Hall2|]. intros n ?. simpl in *. lia.
Qed.

Lemma drawn_one c : drawn c (c + 1) [Py.str (c + 1)].
Proof.
  exists [c + 1]. split_and!; [done|apply NoDup_singleton|].
  apply Forall_singleton. lia.
Qed.

Lemma drawn_perm a b l l' : l ≡ₚ l' -> drawn a b l -> drawn a b l'.
Proof.
  intros Hperm (ns & -> & Hnd & Hall).
  symmetry in Hperm. apply Permutation_map_inv in Hperm as (ns' & -> & Hns).
  exists ns'. split_and!; [done|by rewrite <- Hns|by rewrite <- Hns].
Qed.

Lemma drawn_NoDup a b l : drawn a b l -> NoDup l.
Proof.
  intros (ns & -> & Hnd & _). apply NoDup_fmap_2_strong; [|done].
  intros x y _ _. apply str_inj.
Qed.

Lemma drawn_above a b l n : drawn a b l -> n <= a -> Py.str n ∉ l.
Proof.
  intros (ns & -> & _ & Hall) Hn Hin.
  apply list_elem_of_fmap in Hin as (m & Heq & Hm).
  apply str_inj in Heq. subst m.
  rewrite Forall_forall in Hall. specialize (Hall n Hm). simpl in Hall. lia.
Qed.

Lemma drawn_next a b l : drawn a b l -> Py.str (b + 1) ∉ l.
Proof.
  intros (ns & -> & _ & Hall) Hin.
  apply list_elem_of_fmap in Hin as (m & Heq & Hm).
  apply str_inj in Heq. subst m.
  rewrite Forall_forall in Hall. specialize (Hall _ Hm). simpl in Hall. lia.
Qed.

(** Identifiers drawn above the seed are not unsigned-integer keys of the
    template. *)
Lemma drawn_not_template_key tm c' l k :
  drawn (V2.start_from tm) c' l ->
  k ∈ json_keys tm -> Py.isdigit k = true -> k ∉ l.
Proof.
  intros (ns & -> & _ & Hall) Hk Hd Hin.
  apply list_elem_of_fmap in Hin as (m & Heq & Hm).
  rewrite Forall_forall in Hall. specialize (Hall _ Hm). simpl in Hall.
  apply (template_key_not_generated tm k (m - V2.start_from tm) Hk Hd); [lia|].
  rewrite Heq. f_equal. lia.
Qed.

Lemma next_id_Ok c r : V2.next_id c = Ok r <-> r = (Py.str (c + 1), c + 1).
Proof. unfold V2.next_id. simpl. split; [by intros [= <-]|by intros ->]. Qed.

(** A loop that attaches one node per element under an identifier drawn at
    the start of the iteration keeps the keys drawn. *)
Lemma attach_loop {A} (body : dict -> A -> M dict) xs lo ch c ch' c' :
  (forall ch x c ch' c',
     body ch x c = Ok (ch', c') ->
     exists node, ch' = dict_set (Py.str (c + 1)) node ch /\ c + 1 <= c') ->
  lo <= c -> drawn lo c (dict_keys ch) ->
  for_each xs ch body c = Ok (ch', c') ->
  drawn lo c' (dict_keys ch') /\ c <= c'.
Proof.
  intros Hbody. revert lo ch c ch' c'.
  induction xs as [|x xs IH]; intros lo ch c ch' c' Hlo Hdr Hrun.
  - apply ret_Ok in Hrun as [= -> ->]. split; [done|lia].
  - simpl in Hrun. apply bind_Ok in Hrun as (ch1 & c1 & Hb & Hrun).
    apply Hbody in Hb as (node & -> & Hc1).
    apply (IH lo) in Hrun as [Hdr' Hle]; [split; [done|lia]|lia|].
    rewrite dict_set_new by (by apply (drawn_next lo)).
    unfold dict_keys. rewrite map_app. simpl.
    apply (drawn_app lo c c1); [lia|lia|done|].
    apply (drawn_weaken c (c + 1)); [lia|lia|apply drawn_one].
Qed.

Lemma v2_harms_nodes bp tb refid spd_id_val safety_id_val spd_name c ch c' :
  V2.harms_nodes bp tb refid spd_id_val safety_id_val spd_name c = Ok (ch, c') ->
  drawn c c' (dict_keys ch) /\ c <= c'.
Proof.
  unfold V2.harms_nodes.
  destruct (dict_get _ (V2.harms_by_refid_spd_safety tb)) as [harms_rows|];
    [destruct (V2.truthy (V2.harms_id_under_safety bp))|].
  - apply attach_loop; [|lia|apply drawn_nil].
    intros ch0 x c0 ch0' c0' Hb.
    apply bind_Ok in Hb as (id & c1 & [= -> ->]%next_id_Ok & Hb).
    apply ret_Ok in Hb as [= -> ->]. eexists. split; [reflexivity|lia].
  - intros [= -> ->]%ret_Ok. split; [apply drawn_nil|lia].
  - intros [= -> ->]%ret_Ok. split; [apply drawn_nil|lia].
Qed.

Lemma v2_safety_nodes bp tb refid spd_id_val spd_name lo ch c ch' c' :
  lo <= c -> drawn lo c (dict_keys ch) ->
  V2.safety_nodes bp tb refid spd_id_val spd_name ch c = Ok (ch', c') ->
  drawn lo c' (dict_keys ch') /\ c <= c'.
Proof.
  intros Hlo Hdr. unfold V2.safety_nodes.
  destruct (dict_get _ (V2.safety_by_refid_spd tb)) as [safety_rows|];
    [destruct (V2.truthy (V2.safety_id_under_spd bp));
      [destruct (bool_decide _); [|done]|]|].
  - apply attach_loop; [|done..].
    intros ch0 x c0 ch0' c0' Hb.
    apply bind_Ok in Hb as (id & c1 & [= -> ->]%next_id_Ok & Hb).
    apply bind_Ok in Hb as (harms & c2 & [_ Hle]%v2_harms_nodes & Hb).
    apply ret_Ok in Hb as [= -> ->]. eexists. split; [reflexivity|lia].
  - intros [= -> ->]%ret_Ok. split; [done|lia].
  - intros [= -> ->]%ret_Ok. split; [done|lia].
Qed.

Lemma v2_perf_nodes bp tb refid spd_id_val spd_name lo ch c ch' c' :
  lo <= c -> drawn lo c (dict_keys ch) ->
  V2.perf_nodes bp tb refid spd_id_val spd_name ch c = Ok (ch', c') ->
  drawn lo c' (dict_keys ch') /\ c <= c'.
Proof.
  intros Hlo Hdr. unfold V2.perf_nodes.
  destruct (dict_get _ (V2.perf_by_refid_spd tb)) as [perf_rows|];
    [destruct (V2.truthy (V2.perf_id_under_spd bp))|].
  - apply attach_loop; [|done..].
    intros ch0 x c0 ch0' c0' Hb.
    apply bind_Ok in Hb as (id & c1 & [= -> ->]%next_id_Ok & Hb).
    apply ret_Ok in Hb as [= -> ->]. eexists. split; [reflexivity|lia].
  - intros [= -> ->]%ret_Ok. split; [done|lia].
  - intros [= -> ->]%ret_Ok. split; [done|lia].
Qed.

Lemma v2_followup_nodes bp tb refid spd_id_val spd_name lo ch c ch' c' :
  lo <= c -> drawn lo c (dict_keys ch) ->
  V2.followup_nodes bp tb refid spd_id_val spd_name ch c = Ok (ch', c') ->
  drawn lo c' (dict_keys ch') /\ c <= c'.
Proof.
  intros Hlo Hdr. unfold V2.followup_nodes.
  destruct (dict_get _ (V2.follow_by_refid_spd tb)) as [follow_rows|];
    [destruct (V2.truthy (V2.followup_id_under_spd bp))|].
  - apply attach_loop; [|done..].
    intros ch0 x c0 ch0' c0' Hb.
    apply bind_Ok in Hb as (id & c1 & [= -> ->]%next_id_Ok & Hb).
    apply ret_Ok in Hb as [= -> ->]. eexists. split; [reflexivity|lia].
  - intros [= -> ->]%ret_Ok. split; [done|lia].
  - intros [= -> ->]%ret_Ok. split; [done|lia].
Qed.

(** ** Version 2: the records of a build *)

Lemma populate_keeps_field k form row idx ov :
  k <> "data" ->
  dict_get k (V2._populate_form_data_from_row form row idx ov) = dict_get k form.
Proof.
  intros Hk. unfold V2._populate_form_data_from_row.
  destruct (dict_get "data" form) as [[]|]; try done.
  by rewrite dict_get_set_ne.
Qed.

Lemma v2_spd_step bp tb zp refid ext_children row c ext' c' :
  V2.spd_step bp tb zp refid ext_children row c = Ok (ext', c') ->
  exists node,
    ext' = dict_set (Py.str (c + 1)) (JObj node) ext_children
    /\ dict_get "key" node = Some (JStr (V2.spd_name_of zp (row_get "spd_id" row)))
    /\ drawn (c + 1) c' (child_ids (JObj node))
    /\ c + 1 <= c'.
Proof.
  unfold V2.spd_step. intros Hrun.
  apply bind_Ok in Hrun as (id & c1 & [= -> ->]%next_id_Ok & Hrun).
  apply bind_Ok in Hrun as (ch1 & c2 & Hsafety & Hrun).
  apply bind_Ok in Hrun as (ch2 & c3 & Hperf & Hrun).
  apply bind_Ok in Hrun as (ch3 & c4 & Hfollow & Hrun).
  apply ret_Ok in Hrun as [= -> ->].
  apply (v2_safety_nodes _ _ _ _ _ (c + 1)) in Hsafety as [Hd1 Hle1];
    [|lia|apply drawn_nil].
  apply (v2_perf_nodes _ _ _ _ _ (c + 1)) in Hperf as [Hd2 Hle2]; [|lia|done].
  apply (v2_followup_nodes _ _ _ _ _ (c + 1)) in Hfollow as [Hd3 Hle3]; [|lia|done].
  eexists. split_and!; [reflexivity| | |lia].
  - rewrite dict_get_set_ne by done.
    rewrite populate_keeps_field by done. apply dict_get_set_eq.
  - unfold child_ids. simpl as_dict. by rewrite get_obj_set.
Qed.

Lemma flat_map_snoc {A B} (f : A -> list B) l x :
  flat_map f (l ++ [x]) = (flat_map f l ++ f x)%list.
Proof. rewrite flat_map_app. simpl. by rewrite app_nil_r. Qed.

Lemma v2_spd_loop bp tb zp refid rows c0 ch c' :
  for_each rows [] (V2.spd_step bp tb zp refid) c0 = Ok (ch, c') ->
  Forall2 (v2_spd_node zp) rows ch
  /\ drawn c0 c' (dict_keys ch ++ flat_map child_ids (dict_values ch))
  /\ c0 <= c'.
Proof.
  apply (for_each_inv (fun seen ch c =>
    Forall2 (v2_spd_node zp) seen ch
    /\ drawn c0 c (dict_keys ch ++ flat_map child_ids (dict_values ch))
    /\ c0 <= c)).
  - split_and!; [apply Forall2_nil_2|apply drawn_nil|lia].
  - intros seen row acc c acc' c1 (Hnodes & Hdr & Hle) _ Hstep.
    apply v2_spd_step in Hstep as (node & -> & Hkey & Hch & Hc1).
    assert (Py.str (c + 1) ∉ dict_keys acc) as Hfresh.
    { intros Hin. apply (drawn_next _ _ _ Hdr). apply elem_of_app. by left. }
    rewrite dict_set_new by done.
    split_and!; [|  |lia].
    + apply Forall2_app; [done|]. apply Forall2_cons_2; [done|apply Forall2_nil_2].
    + unfold dict_keys, dict_values. rewrite !map_app. cbn [map fst snd].
      rewrite flat_map_snoc.
      apply (drawn_perm c0 c1
               ((map fst acc ++ flat_map child_ids (map snd acc))
                ++ (Py.str (c + 1) :: child_ids (JObj node)))).
      * rewrite <- !(assoc_L (++)). apply Permutation_app_head.
        simpl. symmetry. apply Permutation_middle.
      * apply (drawn_app c0 c c1); [lia|lia|done|].
        apply (drawn_app c (c + 1) c1 [Py.str (c + 1)]); [lia|lia|apply drawn_one|done].
Qed.

Lemma v2_refid_step bp tb zp refid_key df c top c' :
  V2.refid_step bp tb zp refid_key df c = Ok (top, c') ->
  v2_record zp (refid_key, df) (JObj top)
  /\ drawn c c' (v2_ids (JObj top))
  /\ c <= c'.
Proof.
  unfold V2.refid_step. intros Hrun.
  apply bind_Ok in Hrun as (id & c1 & [= -> ->]%next_id_Ok & Hrun).
  destruct (bool_decide _); [|done].
  apply bind_Ok in Hrun as (sorted & c2 & Hsort & Hrun).
  assert (V2.sort_values (V2.rows df) = Ok sorted /\ c2 = c + 1) as [Hsorted ->].
  { unfold lift in Hsort. destruct (V2.sort_values (V2.rows df)); [|done].
    by injection Hsort as -> ->. }
  apply bind_Ok in Hrun as (children & c3 & Hloop & Hrun).
  apply ret_Ok in Hrun as [= -> ->].
  apply v2_spd_loop in Hloop as (Hnodes & Hdr & Hle).
  split_and!; [|  |lia].
  - eexists (Py.str (c + 1)), _, sorted. simpl as_dict. split_and!.
    + rewrite !dict_get_set_ne by done. apply dict_get_set_eq.
    + apply get_obj_set.
    + exact Hsorted.
    + by rewrite get_obj_set.
  - unfold v2_ids. simpl as_dict. rewrite get_obj_set. simpl.
    rewrite app_nil_r. unfold ids_below, child_ids at 1. simpl as_dict.
    rewrite get_obj_set.
    apply (drawn_app c (c + 1) c3 [Py.str (c + 1)]); [lia|lia|apply drawn_one|done].
Qed.

Lemma v2_collect_records bp tb zp c out c' :
  V2.collect_records bp tb zp c = Ok (out, c') ->
  Forall2 (v2_record zp) (V2.spd_by_refid tb) out
  /\ drawn c c' (flat_map v2_ids out)
  /\ c <= c'.
Proof.
  unfold V2.collect_records.
  apply (for_each_inv (fun seen out c1 =>
    Forall2 (v2_record zp) seen out /\ drawn c c1 (flat_map v2_ids out) /\ c <= c1)).
  - split_and!; [apply Forall2_nil_2|apply drawn_nil|lia].
  - intros seen [key df] acc c1 acc' c2 (Hrecs & Hdr & Hle) _ Hstep.
    apply bind_Ok in Hstep as (top & c3 & Hrec & Hstep).
    apply ret_Ok in Hstep as [= -> ->].
    apply v2_refid_step in Hrec as (Hrec & Hdr' & Hle').
    split_and!; [|  |lia].
    + apply Forall2_app; [done|]. apply Forall2_cons_2; [done|apply Forall2_nil_2].
    + rewrite flat_map_snoc. by apply (drawn_app c c1 c3).
Qed.

Lemma scan_template_master tj bp :
  V2.scan_template tj = Ok bp ->
  exists rest, tj = JArr (JObj (V2.template_master bp) :: rest).
Proof.
  unfold V2.scan_template. destruct tj as [| | | |[|tm rest]|]; try done.
  destruct tm as [| | | | |m]; try done. simpl as_dict.
  destruct (get_obj "data_sets" m) as [|kv ds]; [done|].
  destruct (V2._find_form_id_by_name (kv :: ds) _); [|done].
  destruct (V2._find_form_id_by_name _ ["study"; "demographics"]); [|done].
  intros [= <-]. by exists rest.
Qed.

Lemma make_tables_spd spd_df sdf pdf hdf fdf tb :
  V2.make_tables spd_df sdf pdf hdf fdf = Ok tb ->
  V2.spd_by_refid tb = V2.groupby spd_df ["refid"].
Proof.
  unfold V2.make_tables, V2.bind_result.
  destruct (V2.group_df (Some spd_df) ["refid"]) as [g|] eqn:Hg; [|done].
  destruct (V2.group_df sdf _); [|done].
  destruct (V2.group_df pdf _); [|done].
  destruct (V2.group_df hdf _); [|done].
  destruct (V2.group_df fdf _); [|done].
  intros [= <-]. simpl. by apply group_df_frames in Hg as [-> _].
Qed.

(** The records of a successful build of version 2, one per group of SPD
    rows, and the identifiers under which their nodes are attached. *)
Lemma v2_build_records tm rest spd_df sdf pdf hdf fdf zp out c' :
  V2.build_from_files (JArr (tm :: rest)) spd_df sdf pdf hdf fdf zp = Ok (out, c') ->
  Forall2 (v2_record zp) (V2.groupby spd_df ["refid"]) out
  /\ drawn (V2.start_from tm) c' (flat_map v2_ids out).
Proof.
  unfold V2.build_from_files, V2.bind_result.
  destruct (V2.scan_template _) as [bp|] eqn:Hscan; [|done].
  destruct (V2.make_tables _ _ _ _ _) as [tb|] eqn:Htb; [|done].
  intros Hrun. apply v2_collect_records in Hrun as (Hrecs & Hdr & _).
  apply scan_template_master in Hscan as (rest' & [= -> ->]).
  apply make_tables_spd in Htb. rewrite Htb in Hrecs. done.
Qed.

(** ** Version 1: when the build raises *)

Lemma for_each_Err {A B} (body : B -> A -> M B) xs acc c e :
  for_each xs acc body c = Err e ->
  exists x acc0 c0, x ∈ xs /\ body acc0 x c0 = Err e.
Proof.
  revert acc c. induction xs as [|x xs IH]; intros acc c; [done|].
  simpl. unfold bind. destruct (body acc x c) as [[acc1 c1]|e1] eqn:Hb.
  - intros Hrun. apply IH in Hrun as (y & acc0 & c0 & Hy & Hrun).
    exists y, acc0, c0. split; [|done]. apply elem_of_cons. by right.
  - intros [= ->]. exists x, acc, c. split; [|done]. apply elem_of_cons. by left.
Qed.

Lemma v1_gen_id_Ok c : V1._gen_id c = Ok (Py.str (c + 1), c + 1).
Proof. reflexivity. Qed.

Lemma v1_perf_forms_total t pk refid spd_id ch c :
  exists r, V1.perf_forms t pk refid spd_id ch c = Ok r.
Proof.
  unfold V1.perf_forms. apply for_each_total. intros acc x c0.
  destruct (V1.perf_discrete_proto t); [|by eexists].
  unfold bind. rewrite !v1_gen_id_Ok. by eexists.
Qed.

Lemma v1_harms_forms_total t hb safety_id c :
  exists r, V1.harms_forms t hb safety_id c = Ok r.
Proof.
  unfold V1.harms_forms. apply for_each_total. intros acc x c0.
  destruct (V1.harms_proto t); [|by eexists].
  unfold bind. rewrite !v1_gen_id_Ok. by eexists.
Qed.

Lemma v1_safety_forms_total t sk hb refid spd_id ch c :
  exists r, V1.safety_forms t sk hb refid spd_id ch c = Ok r.
Proof.
  unfold V1.safety_forms. apply for_each_total. intros acc x c0.
  destruct (V1.safety_proto t); [|by eexists].
  unfold bind at 1.
  destruct (String.eqb _ "").
  - rewrite v1_gen_id_Ok. unfold bind at 1.
    destruct (v1_harms_forms_total t hb (Py.strip (row_get "safety_id" x)) (c0 + 1))
      as [[h c1] ->].
    unfold bind. rewrite v1_gen_id_Ok. by eexists.
  - unfold ret at 1. unfold bind at 1.
    destruct (v1_harms_forms_total t hb (Py.strip (row_get "safety_id" x)) c0)
      as [[h c1] ->].
    unfold bind. rewrite v1_gen_id_Ok. by eexists.
Qed.

Lemma v1_followup_forms_total t fk refid spd_id ch c :
  exists r, V1.followup_forms t fk refid spd_id ch c = Ok r.
Proof.
  unfold V1.followup_forms. apply for_each_total. intros acc x c0.
  destruct (V1.followup_proto t); unfold bind; rewrite !v1_gen_id_Ok; by eexists.
Qed.

(** An SPD row raises only when it has an [spd_id] and the template has no
    SPD prototype. *)
Lemma v1_spd_step_Err t sk pk fk hb refid children row c e :
  V1.spd_step t sk pk fk hb refid children row c = Err e ->
  (exists msg, e = ValueError msg)
  /\ V1.spd_proto t = None /\ Py.strip (row_get "spd_id" row) <> "".
Proof.
  unfold V1.spd_step.
  destruct (String.eqb_spec (Py.strip (row_get "spd_id" row)) "") as [|Hne]; [done|].
  destruct (V1.spd_proto t) as [proto|];
    [|intros [= <-]; split_and!; [by eexists|done|done]].
  unfold bind at 1.
  destruct (v1_perf_forms_total t pk refid (Py.strip (row_get "spd_id" row)) [] c)
    as [[ch1 c1] ->].
  unfold bind at 1.
  destruct (v1_safety_forms_total t sk hb refid (Py.strip (row_get "spd_id" row)) ch1 c1)
    as [[ch2 c2] ->].
  unfold bind at 1.
  destruct (v1_followup_forms_total t fk refid (Py.strip (row_get "spd_id" row)) ch2 c2)
    as [[ch3 c3] ->].
  done.
Qed.

Lemma spd_by_refid_group spd_rows k g :
  (k, g) ∈ V1.spd_by_refid spd_rows ->
  k <> "" /\
  g = filter (fun r => Py.strip (row_get "refid" r) = k)
        (filter (fun r => Py.strip (row_get "refid" r) <> "") spd_rows).
Proof.
  rewrite spd_by_refid_group_rows. intros [-> Hne]%group_rows_elem.
  split; [|done]. intros ->.
  destruct (filter _ (filter _ spd_rows)) as [|r g] eqn:Hg; [done|].
  assert (r ∈ r :: g) as Hr by (apply elem_of_cons; by left).
  rewrite <- Hg in Hr.
  apply list_elem_of_filter in Hr as [Hk Hr].
  apply list_elem_of_filter in Hr as [Hr _]. done.
Qed.

Lemma spd_by_refid_row spd_rows row :
  row ∈ spd_rows -> Py.strip (row_get "refid" row) <> "" ->
  exists g, (Py.strip (row_get "refid" row), g) ∈ V1.spd_by_refid spd_rows /\ row ∈ g.
Proof.
  intros Hrow Hne. rewrite spd_by_refid_group_rows.
  apply (group_rows_partitions (fun r => Py.strip (row_get "refid" r))).
  by apply list_elem_of_filter.
Qed.

Lemma for_all_Ok {A B} (f : A -> result B) xs ys :
  V1.for_all f xs = Ok ys -> Forall2 (fun x y => f x = Ok y) xs ys.
Proof.
  revert ys. induction xs as [|x xs IH]; intros ys; simpl.
  - intros [= <-]. apply Forall2_nil_2.
  - destruct (f x) as [y|] eqn:Hx; [|done].
    destruct (V1.for_all f xs) as [ys'|]; [|done].
    intros [= <-]. apply Forall2_cons_2; [done|by apply IH].
Qed.

Lemma for_all_Err {A B} (f : A -> result B) xs e :
  V1.for_all f xs = Err e -> exists x, x ∈ xs /\ f x = Err e.
Proof.
  induction xs as [|x xs IH]; simpl; [done|].
  destruct (f x) as [y|e'] eqn:Hx.
  - destruct (V1.for_all f xs) as [ys'|e']; [done|].
    intros [= ->]. destruct IH as (x' & Hin & Hx'); [done|].
    exists x'. split; [|done]. apply elem_of_cons. by right.
  - intros [= ->]. exists x. split; [|done]. apply elem_of_cons. by left.
Qed.

Lemma for_all_total {A B} (f : A -> result B) xs :
  Forall (fun x => exists y, f x = Ok y) xs -> exists ys, V1.for_all f xs = Ok ys.
Proof.
  induction 1 as [|x xs [y Hy] _ [ys IH]]; simpl; [by eexists|].
  rewrite Hy, IH. by eexists.
Qed.

(** On one entry, [_make_extraction] raises exactly when the entry is an
    "Article Identifier" whose response is there and is not a mapping, and
    then it raises [TypeError]. *)
Lemma extraction_entry_cases refid q :
  match V1.extraction_entry refid q with
  | Ok q' =>
      unwritable_identifier q = false
      /\ q' = match q with
              | JObj d =>
                  if is_str "Article Identifier" (dict_get "question" d)
                  then JObj (dict_set "response"
                               (JObj (dict_set "text" (JStr refid) (get_obj "response" d))) d)
                  else q
              | other => other
              end
  | Err e => e = TypeError /\ unwritable_identifier q = true
  end.
Proof.
  destruct q as [| | | | |d]; try done. simpl.
  destruct (is_str "Article Identifier" (dict_get "question" d)); [|done].
  unfold V1.set_article_identifier, get_obj.
  destruct (dict_get "response" d) as [[]|]; done.
Qed.

(** [_make_extraction] raises only [TypeError], and only when the
    prototype has an entry on which it does. *)
Lemma make_extraction_Err t refid e :
  V1._make_extraction t refid = Err e ->
  e = TypeError /\ ~ identifier_writable t.
Proof.
  unfold V1._make_extraction, identifier_writable, get_arr.
  rewrite !dict_get_set_ne by done.
  destruct (dict_get "data" (V1.extraction_proto t)) as [[| | | |data|]|]; try done.
  destruct (V1.for_all _ data) as [data'|e'] eqn:Hall; [done|].
  intros [= ->]. apply for_all_Err in Hall as (q & Hq & Herr).
  pose proof (extraction_entry_cases refid q) as Hcases. rewrite Herr in Hcases.
  destruct Hcases as [-> Hbad]. split; [done|].
  intros Hok. rewrite Forall_forall in Hok. specialize (Hok q Hq). congruence.
Qed.

Lemma make_extraction_total t refid :
  identifier_writable t -> exists ex, V1._make_extraction t refid = Ok ex.
Proof.
  unfold V1._make_extraction, identifier_writable, get_arr.
  rewrite !dict_get_set_ne by done.
  destruct (dict_get "data" (V1.extraction_proto t)) as [[| | | |data|]|];
    try (by eexists).
  intros Hok.
  destruct (for_all_total (V1.extraction_entry refid) data) as [data' ->]; [|by eexists].
  eapply Forall_impl; [exact Hok|]. intros q Hq. simpl in Hq.
  pose proof (extraction_entry_cases refid q) as Hcases.
  destruct (V1.extraction_entry refid q) as [q'|e]; [by eexists|].
  destruct Hcases as [_ Hbad]. congruence.
Qed.

Lemma v1_refid_step_Err t sk pk fk hb out g c e :
  V1.refid_step t sk pk fk hb out g c = Err e ->
  (e = TypeError /\ ~ identifier_writable t)
  \/ ((exists msg, e = ValueError msg) /\ V1.spd_proto t = None /\
      exists r, r ∈ g.2 /\ Py.strip (row_get "spd_id" r) <> "").
Proof.
  unfold V1.refid_step. unfold bind at 1. rewrite v1_gen_id_Ok.
  unfold bind at 1, lift.
  destruct (V1._make_extraction t g.1) as [ex|e0] eqn:Hex.
  - unfold bind at 1.
    destruct (for_each g.2 [] (V1.spd_step t sk pk fk hb g.1) (c + 1))
      as [[ch c1]|e1] eqn:Hloop; [done|].
    intros [= ->]. apply for_each_Err in Hloop as (r & acc0 & c0 & Hr & Hstep).
    right. apply v1_spd_step_Err in Hstep as (Hmsg & Hproto & Hne). eauto.
  - intros [= ->]. left. by apply make_extraction_Err in Hex.
Qed.

(** The build of version 1 raises only [TypeError], when the Extraction
    prototype has an "Article Identifier" entry whose response is not a
    mapping and some SPD row has a [refid], or [ValueError], when the
    template has no SPD prototype and some SPD row has both a [refid] and
    an [spd_id]. *)
Lemma v1_build_Err t spd_rows safety_rows perf_rows harms_rows followup_rows c e :
  V1.build t spd_rows safety_rows perf_rows harms_rows followup_rows c = Err e ->
  (e = TypeError /\ ~ identifier_writable t /\
   exists r, r ∈ spd_rows /\ Py.strip (row_get "refid" r) <> "")
  \/ ((exists msg, e = ValueError msg) /\ V1.spd_proto t = None /\
      exists r, r ∈ spd_rows /\ Py.strip (row_get "refid" r) <> ""
                /\ Py.strip (row_get "spd_id" r) <> "").
Proof.
  unfold V1.build. intros Hrun.
  apply for_each_Err in Hrun as ([k g] & acc0 & c0 & Hg & Hstep).
  assert (g <> []) as Hg0.
  { rewrite spd_by_refid_group_rows in Hg. by apply group_rows_elem in Hg as [_ ?]. }
  apply spd_by_refid_group in Hg as [Hk Hg].
  apply v1_refid_step_Err in Hstep as [[-> Hbad]|(Hmsg & Hproto & r & Hr & Hne)].
  - left. split_and!; [done..|].
    destruct g as [|r g]; [done|exists r].
    + assert (r ∈ r :: g) as Hr by (apply elem_of_cons; by left).
      rewrite Hg in Hr.
      apply list_elem_of_filter in Hr as [_ Hr].
      apply list_elem_of_filter in Hr as [Hrf Hr]. done.
  - right. split_and!; [done..|]. exists r.
    simpl in Hr. rewrite Hg in Hr.
    apply list_elem_of_filter in Hr as [_ Hr].
    apply list_elem_of_filter in Hr as [Hrf Hr]. done.
Qed.

(** ** C5 *)

(** C5 (amended). Version 1: in the build's output there is one top-level
    record per unique non-empty trimmed [refid], in first-seen order, and its
    [refid] field is the integer that the [refid] string denotes when the
    string consists of digits only, and the string itself otherwise.
    Version 2: the [refid] field of every top-level record is the [refid]
    string, also when it consists of digits only. *)
Theorem refid_field_of_records :
  (forall t spd_rows safety_rows perf_rows harms_rows followup_rows c out c',
     V1.build t spd_rows safety_rows perf_rows harms_rows followup_rows c = Ok (out, c') ->
     Forall2 (fun g rec =>
                dict_get "refid" (as_dict rec)
                = Some (if Py.isdigit g.1 then JInt (Py.int_of_digits g.1) else JStr g.1))
             (V1.spd_by_refid spd_rows) out)
  /\ (forall n, 0 <= n -> Py.int_of_digits (Py.str n) = n)
  /\ (forall tm rest spd_df sdf pdf hdf fdf zp out c',
        V2.build_from_files (JArr (tm :: rest)) spd_df sdf pdf hdf fdf zp = Ok (out, c') ->
        Forall2 (fun g rec =>
                   dict_get "refid" (as_dict rec) = Some (JStr (default "" (head g.1))))
                (V2.groupby spd_df ["refid"]) out).
Proof.
  split_and!.
  - intros t spd_rows safety_rows perf_rows harms_rows followup_rows c out c' Hrun.
    apply v1_build_records in Hrun.
    eapply Forall2_impl; [exact Hrun|].
    intros g rec (ds_id & extraction & -> & _). reflexivity.
  - apply int_of_digits_str.
  - intros tm rest spd_df sdf pdf hdf fdf zp out c' Hrun.
    apply v2_build_records in Hrun as [Hrecs _].
    eapply Forall2_impl; [exact Hrecs|].
    intros g rec (ext_id & extraction & sorted & Hrefid & _). exact Hrefid.
Qed.

Lemma refid_field_of_records_witness :
  exists out c',
    V1.build sample_forms [spd_row "12" "1" "63"; spd_row "A7" "1" "58"] [] [] [] None
             V1.initial_next_id = Ok (out, c')
    /\ Forall2 (fun g rec =>
                  dict_get "refid" (as_dict rec)
                  = Some (if Py.isdigit g.1 then JInt (Py.int_of_digits g.1) else JStr g.1))
               (V1.spd_by_refid [spd_row "12" "1" "63"; spd_row "A7" "1" "58"]) out.
Proof.
  destruct (V1.build sample_forms [spd_row "12" "1" "63"; spd_row "A7" "1" "58"]
              [] [] [] None V1.initial_next_id) as [[out c']|e] eqn:Hrun.
  - exists out, c'. split; [reflexivity|].
    exact (proj1 refid_field_of_records _ _ _ _ _ _ _ _ _ Hrun).
  - vm_compute in Hrun. discriminate.
Defined.

(** C5, as stated, fails on version 2: the all-digits [refid] "12" stays
    the string "12". *)
Lemma refid_stays_string_in_v2 :
  exists out c',
    V2.build_from_files (JArr [sample_template]) (spd_frame [spd_row "12" "1" "63"])
      None None None None false = Ok (out, c')
    /\ map (fun rec => dict_get "refid" (as_dict rec)) out = [Some (JStr "12")]
    /\ Py.isdigit "12" = true.
Proof. do 2 eexists. split_and!; [vm_compute; reflexivity|reflexivity|reflexivity]. Qed.

(** ** C4 *)

Lemma pretty_N_char_digit x : Py.isdigit_char (pretty_N_char x) = true.
Proof. unfold pretty_N_char. by repeat case_match. Qed.

Lemma pretty_N_go_head x s :
  (0 < x)%N ->
  exists c, head (Py.chars (pretty_N_go x s)) = Some c /\ Py.isdigit_char c = true.
Proof.
  revert s. induction (N.lt_wf_0 x) as [x _ IH]; intros s Hpos.
  rewrite pretty_N_go_step by done.
  destruct (N.eq_0_gt_0_cases (x `div` 10)) as [->|Hdiv].
  - rewrite pretty_N_go_0. eexists. split; [reflexivity|apply pretty_N_char_digit].
  - apply IH; [|done]. by apply N.div_lt.
Qed.

(** A decimal string starts with a digit or a minus sign. *)
Lemma str_head n :
  exists c, head (Py.chars (Py.str n)) = Some c
            /\ (Py.isdigit_char c = true \/ c = "-"%char).
Proof.
  destruct n as [|p|p].
  - exists "0"%char. split; [reflexivity|by left].
  - unfold Py.str. change (pretty (Z.pos p)) with (pretty (N.pos p)).
    unfold pretty, pretty_N. rewrite decide_False by done.
    destruct (pretty_N_go_head (N.pos p) "") as (c & Hc & Hd); [lia|].
    exists c. split; [done|by left].
  - exists "-"%char. split; [reflexivity|by right].
Qed.

(** The key under which version 1 stores an SPD node is not a generated
    identifier. *)
Lemma v1_spd_key_not_generated r n : v1_spd_key r <> Py.str n.
Proof.
  intros Heq. destruct (str_head n) as (c & Hc & Hcases).
  rewrite <- Heq in Hc. injection Hc as <-.
  destruct Hcases as [Hd|Hminus]; [|done]. by vm_compute in Hd.
Qed.

Lemma insert_row_perm x l : V2.insert_row x l ≡ₚ x :: l.
Proof.
  induction l as [|y l IH]; [done|]. simpl.
  destruct (V2.key_le x.1 y.1); [done|]. rewrite IH. apply perm_swap.
Qed.

(** Sorting the SPD rows of a [refid] keeps every row, once. *)
Lemma sort_values_perm rs sorted : V2.sort_values rs = Ok sorted -> sorted ≡ₚ rs.
Proof.
  unfold V2.sort_values. destruct (_ || _); [|done]. intros [= <-].
  set (keyed := map (fun r => (V2.spd_id_sort (row_get "spd_id" r), r)) rs).
  assert (foldr V2.insert_row [] keyed ≡ₚ keyed) as Hperm.
  { induction keyed as [|x l IH]; [done|]. simpl.
    rewrite insert_row_perm. by rewrite IH. }
  rewrite Hperm. unfold keyed. rewrite map_map. simpl. by rewrite map_id.
Qed.

(** ** C7 *)




(** ** Normal forms *)

Lemma kept_char_normal c :
  match class_normalize c with
  | Kept c' => normal_char c' = true /\ class_normalize c' = Kept c'
  | _ => True
  end.
Proof. by_cases_on_char c; done. Qed.

Lemma normal_char_kept c : normal_char c = true -> class_normalize c = Kept c.
Proof. by_cases_on_char c. Qed.

Lemma normal_char_not_space c : normal_char c = true -> Ascii.eqb c " " = false.
Proof. by_cases_on_char c. Qed.

(** What a pass emits from a state: a normal tail, which does not begin
    with a space when nothing was emitted before. *)
Lemma scan_normal_tail st l :
  normal_tail (scan class_normalize st l) = true
  /\ (st = AtStart ->
      match scan class_normalize st l with
      | c :: _ => normal_char c = true
      | [] => True
      end).
Proof.
  revert st. induction l as [|c l IH]; intros st; [done|].
  cbn [scan]. pose proof (kept_char_normal c) as Hc.
  destruct (class_normalize c) as [| |c'].
  - apply IH.
  - destruct (IH (after_blank st)) as [Ht Hh]. split; [done|].
    intros ->. by apply Hh.
  - destruct Hc as [Hn _]. destruct (IH InWord) as [Ht _].
    destruct st; cbn [normal_tail]; rewrite ?(normal_char_not_space c' Hn), ?Hn, ?Ht;
      by split.
Qed.

Lemma normal_tail_scan l :
  normal_tail l = true -> scan class_normalize InWord l = l.
Proof.
  induction l as [|c l IH]; [done|]. cbn [normal_tail scan].
  destruct (Ascii.eqb_spec c " ") as [->|Hc].
  - destruct l as [|c' l]; [done|]. intros [Hn Ht]%andb_true_iff.
    specialize (IH Ht). cbn [scan] in IH |- *.
    rewrite (normal_char_kept c' Hn) in IH |- *.
    change (class_normalize " ") with Blank. cbn [after_blank].
    by injection IH as ->.
  - intros [Hn Ht]%andb_true_iff. rewrite (normal_char_kept c Hn).
    by rewrite (IH Ht).
Qed.

Lemma normal_form_scan l :
  match l with [] => true | c :: l' => normal_char c && normal_tail l' end = true ->
  scan class_normalize AtStart l = l.
Proof.
  destruct l as [|c l]; [done|]. intros [Hn Ht]%andb_true_iff.
  cbn [scan]. rewrite (normal_char_kept c Hn). by rewrite (normal_tail_scan l Ht).
Qed.

Lemma scan_normal_form l :
  match scan class_normalize AtStart l with
  | [] => true
  | c :: l' => normal_char c && normal_tail l'
  end = true.
Proof.
  destruct (scan_normal_tail AtStart l) as [Ht Hh].
  specialize (Hh eq_refl).
  destruct (scan class_normalize AtStart l) as [|c o]; [done|].
  cbn [normal_tail] in Ht. rewrite (normal_char_not_space c Hh) in Ht. exact Ht.
Qed.

Lemma normalize_normal s : is_normal_form (V2._normalize s) = true.
Proof.
  destruct s as [s|]; [|done].
  unfold is_normal_form. rewrite normalize_scan, chars_str_of.
  apply scan_normal_form.
Qed.

Lemma normal_form_fixed s : is_normal_form s = true -> V2._normalize (Some s) = s.
Proof.
  unfold is_normal_form. intros H. rewrite normalize_scan.
  rewrite (normal_form_scan _ H). apply str_of_chars.
Qed.

(** X1. On an ASCII text (or on [None]), the normal form that
    [_normalize] returns is made of lower-case letters, digits, the
    punctuation [%()/?-.] and single spaces only; it neither starts nor
    ends with a space and has no two spaces in a row.  In particular it
    holds no upper-case letter, no underscore, no tab or newline and no
    punctuation outside the allow-list.  (A text with other characters is
    outside the embedding: the code keeps accented letters.) *)
Theorem normalize_yields_normal_form :
  forall s : option string,
    ascii_text s ->
    is_normal_form (V2._normalize s) = true
    /\ (forall c, c ∈ Py.chars (V2._normalize s) ->
          c = " "%char \/ normal_char c = true)
    /\ (forall x y, Py.chars (V2._normalize s) <> (x ++ " "%char :: " "%char :: y)%list)
    /\ head (Py.chars (V2._normalize s)) <> Some " "%char
    /\ last (Py.chars (V2._normalize s)) <> Some " "%char.
Proof.
  intros s _. pose proof (normalize_normal s) as Hn.
  unfold is_normal_form in Hn.
  assert (forall l, normal_tail l = true ->
            (forall c, c ∈ l -> c = " "%char \/ normal_char c = true)
            /\ (forall x y, l <> (x ++ " "%char :: " "%char :: y)%list)
            /\ last l <> Some " "%char) as Htail.
  { induction l as [|c l IH]; intros Ht.
    - split_and!; [by intros c ?%elem_of_nil| |done].
      intros [|??] ?; done.
    - cbn [normal_tail] in Ht. destruct (Ascii.eqb_spec c " ") as [->|Hc].
      + destruct l as [|c' l]; [done|].
        apply andb_true_iff in Ht as [Hc' Ht]. destruct (IH Ht) as (Ha & Hb & Hl).
        split_and!.
        * intros c [->|Hin]%elem_of_cons; [by left|by apply Ha].
        * intros [|a x] y Heq.
          -- injection Heq as -> _. done.
          -- injection Heq as _ Heq. by apply (Hb x y).
        * exact Hl.
      + apply andb_true_iff in Ht as [Hc' Ht]. destruct (IH Ht) as (Ha & Hb & Hl).
        split_and!.
        * intros c0 [->|Hin]%elem_of_cons; [by right|by apply Ha].
        * intros [|a x] y Heq.
          -- injection Heq as -> _. done.
          -- injection Heq as _ Heq. by apply (Hb x y).
        * destruct l as [|c1 l]; [|done]. simpl. by intros [= ->]. }
  split; [by apply normalize_normal|].
  destruct (Py.chars (V2._normalize s)) as [|c l].
  - split_and!; [by intros c ?%elem_of_nil| |done|done].
    intros [|??] ?; done.
  - apply andb_true_iff in Hn as [Hc Ht]. destruct (Htail l Ht) as (Ha & Hb & Hl).
    split_and!.
    + intros c0 [->|Hin]%elem_of_cons; [by right|by apply Ha].
    + intros [|a x] y Heq.
      * injection Heq as -> _. done.
      * injection Heq as _ Heq. by apply (Hb x y).
    + simpl. intros [= ->]. done.
    + destruct l as [|c1 l]; [|done]. simpl. intros [= ->]. done.
Qed.

Lemma normalize_yields_normal_form_witness :
  ascii_text (Some "  Dose_(mg) per  DAY! ")
  /\ V2._normalize (Some "  Dose_(mg) per  DAY! ") = "dose (mg) per day"
  /\ is_normal_form (V2._normalize (Some "  Dose_(mg) per  DAY! ")) = true.
Proof.
  assert (ascii_text (Some "  Dose_(mg) per  DAY! ")) as Hascii by reflexivity.
  split_and!; [exact Hascii|reflexivity|].
  exact (proj1 (normalize_yields_normal_form _ Hascii)).
Defined.

(** X2. On ASCII texts [_normalize] is idempotent: normalizing a normal
    form changes nothing.  The ASCII texts it leaves unchanged are exactly
    the texts in normal form. *)
Theorem normalize_idempotent :
  forall s : option string,
    ascii_text s ->
    V2._normalize (Some (V2._normalize s)) = V2._normalize s
    /\ (forall t : string,
          s = Some t -> (V2._normalize (Some t) = t <-> is_normal_form t = true)).
Proof.
  intros s _. split.
  - apply normal_form_fixed, normalize_normal.
  - intros t _. split.
    + intros <-. apply normalize_normal.
    + apply normal_form_fixed.
Qed.

Lemma normalize_idempotent_witness :
  ascii_text (Some "Time_Point (h)")
  /\ V2._normalize (Some (V2._normalize (Some "Time_Point (h)")))
     = V2._normalize (Some "Time_Point (h)")
  /\ V2._normalize (Some "Time_Point (h)") = "time point (h)".
Proof.
  assert (ascii_text (Some "Time_Point (h)")) as Hascii by reflexivity.
  split_and!; [exact Hascii| |reflexivity].
  exact (proj1 (normalize_idempotent _ Hascii)).
Defined.

(** ** Indexing headers and finding forms *)

(** Looking up a mapping built by successive assignments: the last
    assignment to the key, or what the mapping held before. *)
Lemma fold_set_get {A K V : Type} `{EqDecision K} (f : A -> K) (g : A -> V)
    (xs : list A) (init : list (K * V)) (k : K) :
  dict_get k (fold_left (fun m x => dict_set (f x) (g x) m) xs init)
  = match last (filter (fun x => f x = k) xs) with
    | Some x => Some (g x)
    | None => dict_get k init
    end.
Proof.
  revert init. induction xs as [|x xs IH]; intros init; [done|].
  cbn [fold_left]. rewrite IH, filter_cons.
  destruct (decide (f x = k)) as [<-|Hne].
  - rewrite last_cons. destruct (last (filter _ xs)); [done|].
    apply dict_get_set_eq.
  - destruct (last (filter _ xs)); [done|]. by apply dict_get_set_ne.
Qed.

Lemma fold_set_keys_NoDup {A K V : Type} `{EqDecision K} (f : A -> K) (g : A -> V)
    (xs : list A) (init : list (K * V)) :
  NoDup (dict_keys init) ->
  NoDup (dict_keys (fold_left (fun m x => dict_set (f x) (g x) m) xs init)).
Proof.
  revert init. induction xs as [|x xs IH]; intros init Hnd; [done|].
  cbn [fold_left]. apply IH. by apply dict_keys_set_NoDup.
Qed.

(** X3. In the header index that [_index_by_normalized] builds, the entry
    under a normal form is the last header that has this normal form, and
    there is no entry when no header has it: of two columns whose headers
    normalize alike, only the later one can be matched by a question.  The
    keys of the index are pairwise distinct. *)
Theorem index_by_normalized_lookup :
  forall (headers : list string) (k : string),
    dict_get k (V2._index_by_normalized headers) = last (headers_like k headers)
    /\ NoDup (dict_keys (V2._index_by_normalized headers)).
Proof.
  intros headers k. unfold V2._index_by_normalized, headers_like. split.
  - rewrite (fold_set_get (fun h => V2._normalize (Some h)) id).
    by destruct (last _).
  - apply (fold_set_keys_NoDup (fun h => V2._normalize (Some h)) id).
    apply NoDup_nil_2.
Qed.

Lemma find_first_named forms terms :
  V2._find_form_id_by_name forms terms = fst <$> first_named terms forms.
Proof.
  unfold first_named. induction forms as [|[fid node] forms IH]; [done|].
  cbn [V2._find_form_id_by_name]. rewrite filter_cons. cbn [snd].
  destruct (decide (name_mentions terms node = true)) as [Hn|Hn].
  - unfold name_mentions in Hn. by rewrite Hn.
  - apply not_true_is_false in Hn. unfold name_mentions in Hn. by rewrite Hn.
Qed.

Lemma first_named_split terms forms :
  match first_named terms forms with
  | Some (fid, node) =>
      exists before after,
        forms = (before ++ (fid, node) :: after)%list
        /\ name_mentions terms node = true
        /\ Forall (fun kv => name_mentions terms kv.2 = false) before
  | None => Forall (fun kv => name_mentions terms kv.2 = false) forms
  end.
Proof.
  unfold first_named. induction forms as [|[fid node] forms IH].
  - apply Forall_nil_2.
  - rewrite filter_cons. cbn [snd].
    destruct (name_mentions terms node) eqn:Hn.
    + rewrite decide_True by done. cbn [head].
      exists [], forms. split_and!; [done|done|apply Forall_nil_2].
    + rewrite decide_False by done.
      destruct (head (filter _ forms)) as [[fid' node']|].
      * destruct IH as (before & after & -> & Hm & Hb).
        exists ((fid, node) :: before), after. split_and!; [done|done|].
        by apply Forall_cons_2.
      * by apply Forall_cons_2.
Qed.

Lemma first_named_get terms forms fid node :
  NoDup (dict_keys forms) ->
  first_named terms forms = Some (fid, node) ->
  dict_get fid forms = Some node /\ name_mentions terms node = true.
Proof.
  intros Hnd Hf. pose proof (first_named_split terms forms) as Hs.
  rewrite Hf in Hs. destruct Hs as (before & after & -> & Hm & _).
  split; [|done]. apply dict_get_elem; [done|].
  apply elem_of_app. right. apply elem_of_cons. by left.
Qed.

(** X4. [_find_form_id_by_name] returns the key of the first form, in
    mapping order, whose normalized name contains every term, and [None]
    exactly when no form does.  The name is compared in normal form, so two
    forms whose names differ only in case, whitespace, punctuation outside
    the allow-list or underscore versus space are found by the same terms. *)
Theorem find_form_id_first_match :
  (forall (forms : dict) (terms : list string),
     match V2._find_form_id_by_name forms terms with
     | Some fid =>
         exists before node after,
           forms = (before ++ (fid, node) :: after)%list
           /\ name_mentions terms node = true
           /\ Forall (fun kv => name_mentions terms kv.2 = false) before
     | None => Forall (fun kv => name_mentions terms kv.2 = false) forms
     end)
  /\ (forall (terms : list string) (node node' : dict),
        differ_only (get_str "form" "" node) (get_str "form" "" node') ->
        name_mentions terms (JObj node) = name_mentions terms (JObj node')).
Proof.
  split.
  - intros forms terms. rewrite find_first_named.
    pose proof (first_named_split terms forms) as Hs.
    destruct (first_named terms forms) as [[fid node]|]; [|done].
    destruct Hs as (before & after & Hs). exists before, node, after. exact Hs.
  - intros terms node node' Hd. unfold name_mentions. cbn [as_dict].
    rewrite !normalize_scan. by rewrite (scan_differ_only _ _ Hd).
Qed.

Lemma find_form_id_first_match_witness :
  let spd := [("form", JStr "Study_Parameters and  DEMOGRAPHICS!")] in
  let spd' := [("form", JStr "study parameters and demographics")] in
  differ_only (get_str "form" "" spd) (get_str "form" "" spd')
  /\ name_mentions ["study"; "demographics"] (JObj spd)
     = name_mentions ["study"; "demographics"] (JObj spd').
Proof.
  intros spd spd'.
  assert (differ_only (get_str "form" "" spd) (get_str "form" "" spd')) as H.
  { unfold differ_only. apply rtc_rtsc_rl.
    eapply rtc_l; [exact (edit_case [] "S" "s" (Py.chars "tudy_Parameters and  DEMOGRAPHICS!") eq_refl)|].
    eapply rtc_l; [exact (edit_underscore (Py.chars "study") (Py.chars "Parameters and  DEMOGRAPHICS!"))|].
    eapply rtc_l; [exact (edit_case (Py.chars "study ") "P" "p" (Py.chars "arameters and  DEMOGRAPHICS!") eq_refl)|].
    eapply rtc_l; [exact (edit_ws_run (Py.chars "study parameters and") " " " " (Py.chars "DEMOGRAPHICS!") eq_refl eq_refl)|].
    eapply rtc_l; [exact (edit_case (Py.chars "study parameters and ") "D" "d" (Py.chars "EMOGRAPHICS!") eq_refl)|].
    eapply rtc_l; [exact (edit_case (Py.chars "study parameters and d") "E" "e" (Py.chars "MOGRAPHICS!") eq_refl)|].
    eapply rtc_l; [exact (edit_case (Py.chars "study parameters and de") "M" "m" (Py.chars "OGRAPHICS!") eq_refl)|].
    eapply rtc_l; [exact (edit_case (Py.chars "study parameters and dem") "O" "o" (Py.chars "GRAPHICS!") eq_refl)|].
    eapply rtc_l; [exact (edit_case (Py.chars "study parameters and demo") "G" "g" (Py.chars "RAPHICS!") eq_refl)|].
    eapply rtc_l; [exact (edit_case (Py.chars "study parameters and demog") "R" "r" (Py.chars "APHICS!") eq_refl)|].
    eapply rtc_l; [exact (edit_case (Py.chars "study parameters and demogr") "A" "a" (Py.chars "PHICS!") eq_refl)|].
    eapply rtc_l; [exact (edit_case (Py.chars "study parameters and demogra") "P" "p" (Py.chars "HICS!") eq_refl)|].
    eapply rtc_l; [exact (edit_case (Py.chars "study parameters and demograp") "H" "h" (Py.chars "ICS!") eq_refl)|].
    eapply rtc_l; [exact (edit_case (Py.chars "study parameters and demograph") "I" "i" (Py.chars "CS!") eq_refl)|].
    eapply rtc_l; [exact (edit_case (Py.chars "study parameters and demographi") "C" "c" (Py.chars "S!") eq_refl)|].
    eapply rtc_l; [exact (edit_case (Py.chars "study parameters and demographic") "S" "s" (Py.chars "!") eq_refl)|].
    eapply rtc_l; [exact (edit_punct (Py.chars "study parameters and demographics") "!" [] eq_refl)|].
    apply rtc_refl. }
  split; [exact H|].
  exact (proj2 find_form_id_first_match ["study"; "demographics"] spd spd' H).
Defined.

(** X5. The template scan of [build_from_files] fails in exactly four
    ways, each with its own [ValueError]: the template is not a non-empty
    array (an object, which version 1 accepts, is refused); the first
    record has no or an empty [data_sets]; no dataset is named like
    "Extraction"; the first such dataset has no child named like "Study ...
    Demographics".  Otherwise the scan succeeds, whether or not the
    template has Safety, Performance, Follow-up or Harms forms: it takes the
    first dataset named like "Extraction", its first child named like
    "Study ... Demographics", and under that child the first forms named
    like "Safety", "Performance ... discrete" and "Follow"; Harms is looked
    for under the Safety form.  (The keys of a JSON object are distinct.) *)
Theorem scan_template_outcomes :
  (forall tj,
     (forall tm rest, tj <> JArr (tm :: rest)) ->
     V2.scan_template tj
     = Err (ValueError "Template must be a JSON array with at least 1 record."))
  /\ (forall tm rest,
        get_obj "data_sets" (as_dict tm) = [] ->
        V2.scan_template (JArr (tm :: rest))
        = Err (ValueError "Template missing 'data_sets' dictionary with at least one dataset."))
  /\ (forall tm rest,
        get_obj "data_sets" (as_dict tm) <> [] ->
        first_named ["extraction"] (get_obj "data_sets" (as_dict tm)) = None ->
        V2.scan_template (JArr (tm :: rest))
        = Err (ValueError "Could not find an 'Extraction' dataset in template (form name contains 'Extraction')."))
  /\ (forall tm rest ext_id ext,
        NoDup (dict_keys (get_obj "data_sets" (as_dict tm))) ->
        first_named ["extraction"] (get_obj "data_sets" (as_dict tm)) = Some (ext_id, ext) ->
        first_named ["study"; "demographics"] (get_obj "child_forms" (as_dict ext)) = None ->
        V2.scan_template (JArr (tm :: rest))
        = Err (ValueError "Could not find a 'Study and Patient Demographics' form under Extraction (form name should contain 'Study' and 'Demographics')."))
  /\ (forall tm rest ext_id ext spd_id spd,
        NoDup (dict_keys (get_obj "data_sets" (as_dict tm))) ->
        first_named ["extraction"] (get_obj "data_sets" (as_dict tm)) = Some (ext_id, ext) ->
        NoDup (dict_keys (get_obj "child_forms" (as_dict ext))) ->
        first_named ["study"; "demographics"] (get_obj "child_forms" (as_dict ext))
        = Some (spd_id, spd) ->
        exists bp,
          V2.scan_template (JArr (tm :: rest)) = Ok bp
          /\ V2.template_master bp = as_dict tm
          /\ V2.extraction_template bp = as_dict ext
          /\ V2.spd_template bp = as_dict spd
          /\ V2.spd_children bp = get_obj "child_forms" (as_dict spd)
          /\ V2.safety_id_under_spd bp = fst <$> first_named ["safety"] (V2.spd_children bp)
          /\ V2.perf_id_under_spd bp
             = fst <$> first_named ["performance"; "discrete"] (V2.spd_children bp)
          /\ V2.followup_id_under_spd bp = fst <$> first_named ["follow"] (V2.spd_children bp)
          /\ V2.harms_id_under_safety bp = fst <$> first_named ["harms"] (V2.safety_children bp)).
Proof.
  split_and!.
  - intros tj Hshape. destruct tj as [| | | |[|tm rest]|]; try done.
    by destruct (Hshape tm rest).
  - intros tm rest Hds. unfold V2.scan_template. by rewrite Hds.
  - intros tm rest. unfold V2.scan_template.
    destruct (get_obj "data_sets" (as_dict tm)) as [|kv ds]; [done|].
    intros _ Hnone. by rewrite find_first_named, Hnone.
  - intros tm rest ext_id ext. unfold V2.scan_template.
    destruct (get_obj "data_sets" (as_dict tm)) as [|kv ds].
    { intros _ Hext. done. }
    intros Hnd Hext Hnone.
    rewrite find_first_named, Hext. cbn [fmap option_fmap option_map fst].
    destruct (first_named_get _ _ _ _ Hnd Hext) as [Hget _]. rewrite Hget.
    change (default JNull (Some ext)) with ext. by rewrite find_first_named, Hnone.
  - intros tm rest ext_id ext spd_id spd. unfold V2.scan_template.
    destruct (get_obj "data_sets" (as_dict tm)) as [|kv ds].
    { intros _ Hext. done. }
    intros Hnd Hext Hnd' Hspd.
    rewrite find_first_named, Hext. cbn [fmap option_fmap option_map fst].
    destruct (first_named_get _ _ _ _ Hnd Hext) as [Hget _]. rewrite Hget.
    change (default JNull (Some ext)) with ext. rewrite find_first_named, Hspd. cbn [fmap option_fmap option_map fst].
    destruct (first_named_get _ _ _ _ Hnd' Hspd) as [Hget' _]. rewrite Hget'.
    change (default JNull (Some spd)) with spd.
    eexists. split; [reflexivity|].
    cbn [V2.template_master V2.extraction_template V2.spd_template V2.spd_children
         V2.safety_id_under_spd V2.perf_id_under_spd V2.followup_id_under_spd
         V2.harms_id_under_safety V2.safety_children].
    rewrite !find_first_named. split_and!; try reflexivity.
    match goal with |- match ?x with _ => _ end = _ => by destruct x end.
Qed.

Lemma scan_template_outcomes_witness :
  exists bp,
    V2.scan_template (JArr [sample_template]) = Ok bp
    /\ V2.extraction_template bp = as_dict sample_extraction
    /\ V2.spd_template bp = as_dict sample_spd
    /\ V2.safety_id_under_spd bp = None.
Proof.
  assert (NoDup (dict_keys (get_obj "data_sets" (as_dict sample_template)))) as Hnd
    by (apply (bool_decide_unpack _); vm_compute; exact I).
  assert (NoDup (dict_keys (get_obj "child_forms" (as_dict sample_extraction)))) as Hnd'
    by (apply (bool_decide_unpack _); vm_compute; exact I).
  destruct (proj2 (proj2 (proj2 (proj2 scan_template_outcomes)))
              sample_template [] "101" sample_extraction "102" sample_spd
              Hnd eq_refl Hnd' eq_refl)
    as (bp & Hok & _ & Hext & Hspd & Hch & Hsafety & _).
  exists bp. split_and!; [exact Hok|exact Hext|exact Hspd|].
  rewrite Hsafety, Hch. reflexivity.
Defined.

(** ** Filling responses in version 2 *)

Lemma dict_set_same {K V : Type} `{EqDecision K} (k : K) (v : V) m :
  dict_get k m = Some v -> dict_set k v m = m.
Proof.
  induction m as [|[k' v'] m IH]; simpl; [done|].
  destruct (decide (k = k')) as [->|Hne].
  - by intros [= ->].
  - intros Hg. by rewrite IH.
Qed.

Lemma dict_set_set {K V : Type} `{EqDecision K} (k : K) (v v' : V) m :
  dict_set k v (dict_set k v' m) = dict_set k v m.
Proof.
  induction m as [|[k0 v0] m IH]; simpl.
  - by rewrite decide_True.
  - destruct (decide (k = k0)) as [->|Hne]; simpl.
    + by rewrite decide_True.
    + rewrite decide_False by done. by rewrite IH.
Qed.

Lemma dict_get_keys {K V : Type} `{EqDecision K} (k : K) (v : V) m :
  dict_get k m = Some v -> k ∈ dict_keys m.
Proof.
  intros Hg. destruct (decide (k ∈ dict_keys m)) as [|Hout]; [done|].
  apply dict_get_None in Hout. congruence.
Qed.

Lemma same_but_refl k d : same_but k d d.
Proof. by split. Qed.

Lemma same_but_set k v d :
  k ∈ dict_keys d -> same_but k d (dict_set k v d).
Proof.
  intros Hk. split; [by apply dict_keys_set_old|].
  intros k' Hne. by apply dict_get_set_ne.
Qed.

Lemma set_response_same_but datum value :
  same_but "response" datum (V2._set_response datum value).
Proof.
  unfold V2._set_response.
  destruct (dict_get "response" datum) as [r|] eqn:Hr; [|apply same_but_refl].
  apply same_but_set. by apply (dict_get_keys _ r).
Qed.

(** Writing the same value twice into a response: the second write changes
    nothing. *)
Lemma response_write_twice (a b : string) (x : json) (m : dict) :
  a <> b ->
  let m' := dict_setdefault b (JStr "") (dict_set a x m) in
  dict_setdefault b (JStr "") (dict_set a x m') = m'.
Proof.
  intros Hab m'.
  assert (dict_get a m' = Some x) as Ha.
  { unfold m', dict_setdefault. destruct (dict_has b _); [by rewrite dict_get_set_eq|].
    rewrite dict_get_set_ne by done. by rewrite dict_get_set_eq. }
  assert (dict_has b m' = true) as Hb.
  { unfold m', dict_setdefault.
    destruct (dict_has b (dict_set a x m)) eqn:Hh; [done|].
    unfold dict_has. by rewrite dict_get_set_eq. }
  rewrite (dict_set_same a x m' Ha). unfold dict_setdefault at 1. by rewrite Hb.
Qed.

Lemma set_response_twice datum value :
  V2._set_response (V2._set_response datum value) value = V2._set_response datum value.
Proof.
  destruct (set_response_same_but datum value) as [_ Hsame].
  unfold V2._set_response at 1.
  unfold get_str. rewrite (Hsame "type") by done. fold (get_str "type" "" datum).
  unfold V2._set_response.
  destruct (dict_get "response" datum) as [r|] eqn:Hr; [|by rewrite Hr].
  rewrite dict_get_set_eq. cbn [as_dict].
  set (dtype := Py.lower (Py.strip (get_str "type" "" datum))).
  set (v := JStr (default "" value)).
  rewrite dict_set_set. f_equal. f_equal.
  destruct (decide (dtype = "text")); [by apply response_write_twice|].
  destruct (decide (dtype = "radio" \/ dtype = "checkbox"));
    [by apply response_write_twice|].
  rewrite (dict_set_same "text" v).
  - apply dict_set_same, dict_get_set_eq.
  - rewrite dict_get_set_ne by done. apply dict_get_set_eq.
Qed.

(** X6. [_set_response] touches nothing but the response: the datum keeps
    its fields, in order, and the value of every field other than
    ["response"] (so its question and its type); a datum that has no
    ["response"] is returned as it is, the value being dropped; and setting
    the same value a second time changes nothing. *)
Theorem set_response_only_response :
  forall (datum : dict) (value : option string),
    same_but "response" datum (V2._set_response datum value)
    /\ (dict_get "response" datum = None -> V2._set_response datum value = datum)
    /\ V2._set_response (V2._set_response datum value) value
       = V2._set_response datum value.
Proof.
  intros datum value. split_and!.
  - apply set_response_same_but.
  - intros Hr. unfold V2._set_response. by rewrite Hr.
  - apply set_response_twice.
Qed.

Lemma populate_datum_value_for row headers ov d :
  V2.populate_datum row (V2._index_by_normalized headers) ov d
  = V2._set_response d (value_for row headers ov d).
Proof.
  unfold V2.populate_datum, value_for.
  fold (overridden ov d). destruct (overridden ov d); [done|].
  unfold V2._index_by_normalized, headers_like.
  rewrite (fold_set_get (fun h => V2._normalize (Some h)) id).
  by destruct (last _).
Qed.

Lemma last_all_equal {A} (x : A) (l : list A) :
  l <> [] -> Forall (fun y => y = x) l -> last l = Some x.
Proof.
  induction l as [|y l IH]; [done|]. intros _ [-> Hall]%Forall_cons.
  rewrite last_cons. destruct l as [|z l]; [done|]. by rewrite IH.
Qed.

(** X7. With the header index of a CSV, version 2 fills the response of a
    datum with the SPD label override where it applies, and otherwise with
    the row's cell in the last column whose header has the same normal form
    as the question (with no value when there is none).  So a question is
    matched by a header that differs from it only in case, whitespace,
    punctuation outside the allow-list or underscore versus space: when this
    header is the only one of its normal form, the datum gets its cell. *)
Theorem question_matched_by_normal_form :
  (forall (row : Row) (headers : list string) (ov : option string) (d : dict),
     V2.populate_datum row (V2._index_by_normalized headers) ov d
     = V2._set_response d (value_for row headers ov d))
  /\ (forall (row : Row) (headers : list string) (ov : option string) (d : dict)
             (h : string),
        h ∈ headers ->
        (forall h', h' ∈ headers ->
           V2._normalize (Some h') = V2._normalize (Some h) -> h' = h) ->
        differ_only (get_str "question" "" d) h ->
        overridden ov d = false ->
        V2.populate_datum row (V2._index_by_normalized headers) ov d
        = V2._set_response d (dict_get h row)).
Proof.
  split; [apply populate_datum_value_for|].
  intros row headers ov d h Hh Huniq Hd Hov.
  rewrite populate_datum_value_for. unfold value_for. rewrite Hov.
  assert (V2._normalize (Some (get_str "question" "" d)) = V2._normalize (Some h)) as ->.
  { rewrite !normalize_scan. by rewrite (scan_differ_only _ _ Hd). }
  rewrite (last_all_equal h); [done| |].
  - intros Hnil.
    assert (h ∈ headers_like (V2._normalize (Some h)) headers) as Hin
      by (by apply list_elem_of_filter).
    rewrite Hnil in Hin. by apply elem_of_nil in Hin.
  - apply Forall_forall. intros h' [Hn Hh']%list_elem_of_filter. by apply Huniq.
Qed.

Lemma question_matched_by_normal_form_witness :
  let d : dict :=
    [("question", JStr "Age (Years)!"); ("type", JStr "Text");
     ("response", JObj [("text", JStr ""); ("answer", JStr "")])] in
  let headers := ["refid"; "spd_id"; "age (years)"] in
  let row : Row := [("refid", "12"); ("spd_id", "1"); ("age (years)", "63")] in
  V2.populate_datum row (V2._index_by_normalized headers) None d
  = V2._set_response d (Some "63").
Proof.
  intros d headers row.
  apply (proj2 question_matched_by_normal_form row headers None d "age (years)").
  - apply (bool_decide_unpack _). vm_compute. exact I.
  - intros h' Hh' Hn.
    apply elem_of_cons in Hh' as [->|Hh']; [by vm_compute in Hn|].
    apply elem_of_cons in Hh' as [->|Hh']; [by vm_compute in Hn|].
    apply elem_of_cons in Hh' as [->|Hh']; [done|].
    by apply elem_of_nil in Hh'.
  - unfold differ_only. apply rtc_rtsc_rl.
    eapply rtc_l; [exact (edit_case [] "A" "a" (Py.chars "ge (Years)!") eq_refl)|].
    eapply rtc_l; [exact (edit_case (Py.chars "age (") "Y" "y" (Py.chars "ears)!") eq_refl)|].
    eapply rtc_l; [exact (edit_punct (Py.chars "age (years)") "!" [] eq_refl)|].
    apply rtc_refl.
  - reflexivity.
Defined.

(** X8. [_populate_form_data_from_row] keeps the structure of the form: the
    form keeps its fields, in order, and the value of every field other
    than ["data"] (its name, level, key, children); ["data"] keeps its
    length and order, and each of its entries keeps its fields and the
    value of every field other than ["response"].  Only responses are
    filled. *)
Theorem populate_keeps_structure :
  forall (form : dict) (row : Row) (idx : list (string * string)) (ov : option string),
    same_but "data" form (V2._populate_form_data_from_row form row idx ov)
    /\ Forall2 (fun e e' => same_but "response" (as_dict e) (as_dict e'))
               (data_of form)
               (data_of (V2._populate_form_data_from_row form row idx ov)).
Proof.
  intros form row idx ov. split.
  - unfold V2._populate_form_data_from_row.
    destruct (dict_get "data" form) as [[]|] eqn:Hd; try apply same_but_refl.
    apply same_but_set. by apply (dict_get_keys _ _ _ Hd).
  - rewrite V2_populated_data. apply Forall2_fmap_r, Forall_Forall2_diag.
    apply Forall_forall. intros e _. unfold compose.
    destruct e as [| | | | |m]; cbn [as_dict]; try apply same_but_refl.
    destruct (populate_datum_value row idx ov m) as [value ->].
    apply set_response_same_but.
Qed.

(** ** Sorting the SPD rows of a [refid] *)

Lemma key_le_refl k : V2.key_le k k = true.
Proof.
  destruct k as [n|s]; simpl; [by apply Z.leb_refl|].
  apply Is_true_true. by change (String.le s s).
Qed.

Lemma key_le_trans a b c :
  V2.key_le a b = true -> V2.key_le b c = true -> V2.key_le a c = true.
Proof.
  destruct a as [x|x], b as [y|y], c as [z|z]; simpl; try done.
  - rewrite !Z.leb_le. lia.
  - intros Hxy%Is_true_true Hyz%Is_true_true. apply Is_true_true.
    change (String.le x z). by transitivity y.
Qed.

Lemma key_le_total a b :
  V2.is_KInt a = V2.is_KInt b -> V2.key_le a b = false -> V2.key_le b a = true.
Proof.
  destruct a as [x|x], b as [y|y]; simpl; try done.
  - rewrite Z.leb_le, Z.leb_gt. lia.
  - intros _ Hxy. destruct (String.leb_total x y) as [H|H]; [congruence|done].
Qed.

Lemma insert_row_sorted x l :
  Forall (fun y => V2.is_KInt x.1 = V2.is_KInt y.1) l ->
  StronglySorted (fun a b => V2.key_le a.1 b.1 = true) l ->
  StronglySorted (fun a b => V2.key_le a.1 b.1 = true) (V2.insert_row x l).
Proof.
  induction l as [|y l IH]; intros Hty Hs; simpl.
  - apply SSorted_cons; [apply SSorted_nil|apply Forall_nil_2].
  - apply Forall_cons in Hty as [Hy Hty].
    apply StronglySorted_inv in Hs as [Hs Hall].
    destruct (V2.key_le x.1 y.1) eqn:Hxy.
    + apply SSorted_cons; [by apply SSorted_cons|].
      apply Forall_cons. split; [done|].
      eapply Forall_impl; [exact Hall|]. intros z Hyz. simpl in *.
      by apply (key_le_trans _ y.1).
    + apply SSorted_cons; [by apply IH|].
      rewrite insert_row_perm. apply Forall_cons. split; [|done].
      by apply key_le_total.
Qed.

(** An insertion leaves the elements of each key in their order: the new
    element goes in front of the elements of its own key. *)
Lemma insert_row_filter k x l :
  filter (fun y => y.1 = k) (V2.insert_row x l) = filter (fun y => y.1 = k) (x :: l).
Proof.
  induction l as [|y l IH]; [done|]. simpl.
  destruct (V2.key_le x.1 y.1) eqn:Hxy; [done|].
  rewrite (filter_cons _ y), IH, !filter_cons.
  destruct (decide (y.1 = k)) as [Hy|Hy]; [|done].
  destruct (decide (x.1 = k)) as [Hx|Hx]; [|done].
  rewrite Hx, <- Hy, key_le_refl in Hxy. done.
Qed.

Lemma foldr_insert_perm l : foldr V2.insert_row [] l ≡ₚ l.
Proof.
  induction l as [|x l IH]; [done|]. simpl. rewrite insert_row_perm. by rewrite IH.
Qed.

Lemma foldr_insert_filter k l :
  filter (fun y => y.1 = k) (foldr V2.insert_row [] l) = filter (fun y => y.1 = k) l.
Proof.
  induction l as [|x l IH]; [done|]. simpl.
  rewrite insert_row_filter, !filter_cons. by rewrite IH.
Qed.

Lemma foldr_insert_sorted b l :
  Forall (fun y => V2.is_KInt y.1 = b) l ->
  StronglySorted (fun a b => V2.key_le a.1 b.1 = true) (foldr V2.insert_row [] l).
Proof.
  induction l as [|x l IH]; intros Hty; [apply SSorted_nil|].
  apply Forall_cons in Hty as [Hx Hty]. simpl.
  apply insert_row_sorted; [|by apply IH].
  rewrite foldr_insert_perm. eapply Forall_impl; [exact Hty|].
  intros y Hy. simpl in *. congruence.
Qed.

Lemma is_KInt_row_key r : V2.is_KInt (row_key r) = Py.isdigit (row_get "spd_id" r).
Proof. unfold row_key, V2.spd_id_sort. by destruct (Py.isdigit _). Qed.

(** Filtering keyed rows by key, against filtering the rows. *)
Lemma filter_keyed k l :
  Forall (fun y : V2.sort_key * Row => y.1 = row_key y.2) l ->
  map snd (filter (fun y => y.1 = k) l) = filter (fun r => row_key r = k) (map snd l).
Proof.
  induction l as [|y l IH]; [done|]. intros [Hy Hl]%Forall_cons.
  rewrite map_cons, !filter_cons, <- Hy.
  destruct (decide (y.1 = k)); [rewrite map_cons|]; by rewrite IH.
Qed.

(** [sort_values] succeeds exactly on rows of one key type. *)
Lemma sort_values_condition rs :
  V2.sort_values rs
  = if one_key_type rs
    then Ok (map snd (foldr V2.insert_row []
                        (map (fun r => (V2.spd_id_sort (row_get "spd_id" r), r)) rs)))
    else Err TypeError.
Proof.
  unfold V2.sort_values, one_key_type.
  assert (forall p : V2.sort_key -> bool,
            forallb (fun kr : V2.sort_key * Row => p kr.1)
                    (map (fun r => (V2.spd_id_sort (row_get "spd_id" r), r)) rs)
            = forallb (fun r => p (row_key r)) rs) as Hall.
  { intros p. induction rs as [|r rs IH]; [done|]. simpl. by rewrite IH. }
  rewrite (Hall V2.is_KInt), (Hall (fun k => negb (V2.is_KInt k))).
  assert (forallb (fun r => V2.is_KInt (row_key r)) rs
          = forallb (fun r => Py.isdigit (row_get "spd_id" r)) rs) as ->.
  { clear. induction rs as [|r rs IH]; [done|]. simpl. by rewrite IH, is_KInt_row_key. }
  assert (forallb (fun r => negb (V2.is_KInt (row_key r))) rs
          = forallb (fun r => negb (Py.isdigit (row_get "spd_id" r))) rs) as ->.
  { clear. induction rs as [|r rs IH]; [done|]. simpl. by rewrite IH, is_KInt_row_key. }
  done.
Qed.

Lemma one_key_type_keys rs :
  one_key_type rs = true ->
  exists b, Forall (fun y : V2.sort_key * Row => V2.is_KInt y.1 = b)
                   (map (fun r => (V2.spd_id_sort (row_get "spd_id" r), r)) rs).
Proof.
  unfold one_key_type. intros [H|H]%orb_true_iff; [exists true|exists false].
  - apply Forall_fmap, Forall_forall. intros r Hr%list_elem_of_In. simpl.
    rewrite forallb_forall in H. fold (row_key r). rewrite is_KInt_row_key. by apply H.
  - apply Forall_fmap, Forall_forall. intros r Hr%list_elem_of_In. simpl.
    rewrite forallb_forall in H. fold (row_key r). rewrite is_KInt_row_key.
    by apply negb_true_iff, H.
Qed.

(** X9. The stable sort of the SPD rows of one [refid].  When every
    [spd_id] is an unsigned-integer string, or none is, [sort_values]
    returns the same rows in ascending order of their keys (the integer
    value in the first case, so that 10 comes after 9; the text in the
    second), and rows of equal key keep the order they had in the CSV.
    When the two kinds are mixed it raises [TypeError]. *)
Theorem sort_values_sorted_stable :
  forall rs : list Row,
    if one_key_type rs then
      exists sorted,
        V2.sort_values rs = Ok sorted
        /\ sorted ≡ₚ rs
        /\ ascending (map row_key sorted)
        /\ forall k, filter (fun r => row_key r = k) sorted
                     = filter (fun r => row_key r = k) rs
    else
      V2.sort_values rs = Err TypeError.
Proof.
  intros rs. rewrite sort_values_condition.
  destruct (one_key_type rs) eqn:Hty; [|done].
  set (keyed := map (fun r => (V2.spd_id_sort (row_get "spd_id" r), r)) rs).
  assert (map snd keyed = rs) as Hsnd.
  { unfold keyed. rewrite map_map. simpl. apply map_id. }
  assert (Forall (fun y : V2.sort_key * Row => y.1 = row_key y.2) keyed) as Hkeyed.
  { unfold keyed. apply Forall_fmap, Forall_forall. by intros r _. }
  assert (Forall (fun y : V2.sort_key * Row => y.1 = row_key y.2)
                 (foldr V2.insert_row [] keyed)) as Hkeyed'
    by (by rewrite foldr_insert_perm).
  eexists. split_and!; [reflexivity| | |].
  - transitivity (map snd keyed); [|by rewrite Hsnd].
    apply Permutation_map, foldr_insert_perm.
  - unfold ascending.
    assert (map row_key (map snd (foldr V2.insert_row [] keyed))
            = map fst (foldr V2.insert_row [] keyed)) as ->.
    { rewrite map_map. apply map_ext_Forall.
      eapply Forall_impl; [exact Hkeyed'|]. by intros y ->. }
    apply (StronglySorted_fmap fst (fun a b => V2.key_le a.1 b.1 = true)); [done|].
    destruct (one_key_type_keys rs Hty) as [b Hb].
    by apply (foldr_insert_sorted b).
  - intros k. rewrite <- (filter_keyed k _ Hkeyed'), foldr_insert_filter.
    rewrite (filter_keyed k _ Hkeyed). by rewrite Hsnd.
Qed.

(** ** The name of an SPD node *)

Lemma strip_chars_id (p : ascii -> bool) l :
  Forall (fun c => p c = false) l -> Py.strip_chars p l = l.
Proof.
  intros Hl. unfold Py.strip_chars.
  assert (Py.lstrip_chars p l = l) as ->.
  { destruct Hl as [|c l Hc _]; [done|]. simpl. by rewrite Hc. }
  induction Hl as [|c l Hc Hl IH]; [done|].
  cbn [Py.rstrip_chars] in IH |- *. rewrite IH, Hc. by destruct l.
Qed.

Lemma digit_not_space c : Py.isdigit_char c = true -> Py.isspace c = false.
Proof. by_cases_on_char c. Qed.

Lemma int_body_digits l acc :
  forallb Py.isdigit_char l = true ->
  int_body acc true l = Some (fold_left digit_step l acc).
Proof.
  revert acc. induction l as [|c l IH]; intros acc Hl; [done|].
  simpl in Hl. apply andb_prop in Hl as [Hc Hl].
  cbn [int_body fold_left]. rewrite Hc. by apply IH.
Qed.

Lemma py_int_unsigned s c l :
  Py.strip_chars Py.isspace (Py.chars s) = c :: l ->
  Py.isdigit_char c = true ->
  py_int s = int_body 0 false (c :: l).
Proof.
  unfold py_int. intros ->.
  destruct c as [[] [] [] [] [] [] [] []]; cbv [Py.isdigit_char Py.code N_of_ascii N_of_digits N.leb N.compare N.add N.mul Pos.compare Pos.compare_cont Pos.add Pos.succ Pos.mul andb];
    try discriminate; intros _; reflexivity.
Qed.

(** [int] reads an unsigned-integer string as [int_of_digits] does. *)
Lemma py_int_digits s :
  Py.isdigit s = true -> py_int (Py.strip s) = Some (Py.int_of_digits s).
Proof.
  unfold Py.isdigit, Py.int_of_digits, Py.digits_val, Py.strip.
  change (fun acc c => 10 * acc + Py.digit_val c) with digit_step.
  destruct (Py.chars s) as [|c l] eqn:Hs; [done|]. intros Hd.
  assert (Py.strip_chars Py.isspace (c :: l) = c :: l) as Hstrip.
  { apply strip_chars_id, Forall_forall. intros x Hx%list_elem_of_In.
    rewrite forallb_forall in Hd. by apply digit_not_space, Hd. }
  rewrite Hstrip.
  pose proof Hd as Hd'. simpl in Hd'. apply andb_prop in Hd' as [Hc Hl].
  rewrite (py_int_unsigned _ c l); [|by rewrite chars_str_of|done].
  cbn [int_body fold_left]. rewrite Hc. by apply int_body_digits.
Qed.

(** X10. An SPD node whose [spd_id] is an unsigned-integer string is named
    by the integer it denotes, which is also its sort key: [spd_<n>], or,
    with zero-padding, [spd_<nn>] with at least two digits.  Leading zeros
    of the [spd_id] do not show in the name. *)
Theorem spd_name_of_digits :
  forall (zero_pad_spd : bool) (spd_id : string),
    Py.isdigit spd_id = true ->
    V2.spd_id_sort spd_id = V2.KInt (Py.int_of_digits spd_id)
    /\ V2.spd_name_of zero_pad_spd spd_id
       = "spd_" +:+ (if zero_pad_spd then fmt_02d (Py.int_of_digits spd_id)
                     else Py.str (Py.int_of_digits spd_id))
    /\ 0 <= Py.int_of_digits spd_id.
Proof.
  intros zp s Hd. split_and!.
  - unfold V2.spd_id_sort. by rewrite Hd.
  - unfold V2.spd_name_of. rewrite (py_int_digits s Hd). by destruct zp.
  - by apply int_of_digits_nonneg.
Qed.

Lemma spd_name_of_digits_witness :
  V2.spd_id_sort "007" = V2.KInt 7
  /\ V2.spd_name_of true "007" = "spd_07"
  /\ 0 <= 7.
Proof. exact (spd_name_of_digits true "007" eq_refl). Defined.

(** ** Version 2: which inputs the build depends on, and when it returns *)

Lemma for_each_ext {A B} (f g : B -> A -> M B) xs :
  (forall acc x c, x ∈ xs -> f acc x c = g acc x c) ->
  forall acc c, for_each xs acc f c = for_each xs acc g c.
Proof.
  induction xs as [|x xs IH]; intros Hfg acc c; [done|].
  simpl. unfold bind. rewrite Hfg by (apply elem_of_cons; by left).
  destruct (g acc x c) as [[acc1 c1]|]; [|done].
  apply IH. intros. apply Hfg. apply elem_of_cons. by right.
Qed.

Lemma for_each_total_in {A B} (body : B -> A -> M B) xs acc c :
  (forall acc x c, x ∈ xs -> exists r, body acc x c = Ok r) ->
  exists r, for_each xs acc body c = Ok r.
Proof.
  revert acc c. induction xs as [|x xs IH]; intros acc c Hbody.
  - by eexists.
  - simpl. unfold bind.
    destruct (Hbody acc x c) as [[acc1 c1] ->]; [apply elem_of_cons; by left|].
    apply IH. intros. apply Hbody. apply elem_of_cons. by right.
Qed.

Lemma group_df_Ok df keys :
  has_columns df keys -> V2.group_df (Some df) keys = Ok (V2.groupby df keys).
Proof.
  intros Hcols. unfold V2.group_df.
  rewrite first_missing_None by (by apply Forall_forall).
  f_equal. rewrite (fold_dict_set_fresh _ []); [done|].
  simpl. rewrite groupby_keys. apply group_rows_NoDup.
Qed.

Lemma group_df_frame_Ok df keys :
  frame_has df keys -> exists g, V2.group_df df keys = Ok g.
Proof.
  destruct df as [d|]; [|by eexists]. intros H. rewrite group_df_Ok by done. by eexists.
Qed.

Lemma harms_nodes_absent bp tb refid spd_id_val safety_id_val spd_name c :
  V2.truthy (V2.harms_id_under_safety bp) = false ->
  V2.harms_nodes bp tb refid spd_id_val safety_id_val spd_name c = Ok ([], c).
Proof.
  intros H. unfold V2.harms_nodes. destruct (dict_get _ _); [|done]. by rewrite H.
Qed.

Lemma safety_nodes_absent bp tb refid spd_id_val spd_name ch c :
  V2.truthy (V2.safety_id_under_spd bp) = false ->
  V2.safety_nodes bp tb refid spd_id_val spd_name ch c = Ok (ch, c).
Proof.
  intros H. unfold V2.safety_nodes. destruct (dict_get _ _); [|done]. by rewrite H.
Qed.

Lemma perf_nodes_absent bp tb refid spd_id_val spd_name ch c :
  V2.truthy (V2.perf_id_under_spd bp) = false ->
  V2.perf_nodes bp tb refid spd_id_val spd_name ch c = Ok (ch, c).
Proof.
  intros H. unfold V2.perf_nodes. destruct (dict_get _ _); [|done]. by rewrite H.
Qed.

Lemma followup_nodes_absent bp tb refid spd_id_val spd_name ch c :
  V2.truthy (V2.followup_id_under_spd bp) = false ->
  V2.followup_nodes bp tb refid spd_id_val spd_name ch c = Ok (ch, c).
Proof.
  intros H. unfold V2.followup_nodes. destruct (dict_get _ _); [|done]. by rewrite H.
Qed.

(** The records depend on the tables only through the SPD groups, the SPD
    header index and the three loops under an SPD node. *)
Lemma collect_records_ext bp tb tb' zp c :
  V2.spd_hdr_idx tb = V2.spd_hdr_idx tb' ->
  V2.spd_by_refid tb = V2.spd_by_refid tb' ->
  (forall r s n ch c0,
     V2.safety_nodes bp tb r s n ch c0 = V2.safety_nodes bp tb' r s n ch c0) ->
  (forall r s n ch c0,
     V2.perf_nodes bp tb r s n ch c0 = V2.perf_nodes bp tb' r s n ch c0) ->
  (forall r s n ch c0,
     V2.followup_nodes bp tb r s n ch c0 = V2.followup_nodes bp tb' r s n ch c0) ->
  V2.collect_records bp tb zp c = V2.collect_records bp tb' zp c.
Proof.
  intros Hidx Hby Hs Hp Hf. unfold V2.collect_records. rewrite Hby.
  apply for_each_ext. intros out [key df] c1 _. unfold bind. cbn [fst snd].
  assert (V2.refid_step bp tb zp key df c1 = V2.refid_step bp tb' zp key df c1) as ->;
    [|done].
  unfold V2.refid_step, bind. cbn [V2.next_id V2.next V2.counter].
  destruct (bool_decide _); [|done].
  destruct (lift (V2.sort_values (V2.rows df)) (c1 + 1)) as [[sorted c2]|]; [|done].
  assert (for_each sorted [] (V2.spd_step bp tb zp (default "" (head key))) c2
          = for_each sorted [] (V2.spd_step bp tb' zp (default "" (head key))) c2) as ->;
    [|done].
  apply for_each_ext. intros ch row c3 _.
  unfold V2.spd_step, bind. cbn [V2.next_id V2.next V2.counter].
  rewrite Hs. destruct (V2.safety_nodes bp tb' _ _ _ _ _) as [[ch1 c4]|]; [|done].
  rewrite Hp. destruct (V2.perf_nodes bp tb' _ _ _ _ _) as [[ch2 c5]|]; [|done].
  rewrite Hf. destruct (V2.followup_nodes bp tb' _ _ _ _ _) as [[ch3 c6]|]; [|done].
  by rewrite Hidx.
Qed.

(** X11. A CSV whose form the template lacks is ignored by version 2: when
    the SPD form of the template has no child named like "Follow" (like
    "Performance ... discrete", like "Safety"), or its Safety form has no
    child named like "Harms", the build with a Follow-up (Performance,
    Safety, Harms) CSV that has its linkage columns gives the same result, and
    draws the same identifiers, as the build without this CSV.  No error
    reports the missing form. *)
Theorem csv_without_form_ignored :
  forall (tj : json) (bp : V2.Blueprint),
    V2.scan_template tj = Ok bp ->
    forall (spd_df : V2.DataFrame) (sdf pdf hdf fdf : option V2.DataFrame)
           (zp : bool) (df : V2.DataFrame),
      (V2.truthy (V2.followup_id_under_spd bp) = false ->
       has_columns df ["refid"; "spd_id"] ->
       V2.build_from_files tj spd_df sdf pdf hdf (Some df) zp
       = V2.build_from_files tj spd_df sdf pdf hdf None zp)
      /\ (V2.truthy (V2.perf_id_under_spd bp) = false ->
          has_columns df ["refid"; "spd_id"] ->
          V2.build_from_files tj spd_df sdf (Some df) hdf fdf zp
          = V2.build_from_files tj spd_df sdf None hdf fdf zp)
      /\ (V2.truthy (V2.safety_id_under_spd bp) = false ->
          has_columns df ["refid"; "spd_id"] ->
          V2.build_from_files tj spd_df (Some df) pdf hdf fdf zp
          = V2.build_from_files tj spd_df None pdf hdf fdf zp)
      /\ (V2.truthy (V2.harms_id_under_safety bp) = false ->
          has_columns df ["refid"; "spd_id"; "safety_id"] ->
          V2.build_from_files tj spd_df sdf pdf (Some df) fdf zp
          = V2.build_from_files tj spd_df sdf pdf None fdf zp).
Proof.
  intros tj bp Hscan spd_df sdf pdf hdf fdf zp df.
  unfold V2.build_from_files. rewrite Hscan. cbn [V2.bind_result].
  unfold V2.make_tables.
  destruct (V2.group_df (Some spd_df) ["refid"]) as [g1|]; [|done].
  cbn [V2.bind_result]. split_and!.
  - intros Habs Hcols. rewrite (group_df_Ok df) by done.
    destruct (V2.group_df sdf _) as [g2|]; [|done].
    destruct (V2.group_df pdf _) as [g3|]; [|done].
    destruct (V2.group_df hdf _) as [g4|]; [|done].
    cbn [V2.bind_result V2.group_df].
    apply collect_records_ext; try done.
    intros. by rewrite !followup_nodes_absent.
  - intros Habs Hcols. rewrite (group_df_Ok df) by done.
    destruct (V2.group_df sdf _) as [g2|]; [|done].
    destruct (V2.group_df hdf _) as [g4|]; [|done].
    destruct (V2.group_df fdf _) as [g5|]; [|done].
    cbn [V2.bind_result V2.group_df].
    apply collect_records_ext; try done.
    intros. by rewrite !perf_nodes_absent.
  - intros Habs Hcols. rewrite (group_df_Ok df) by done.
    destruct (V2.group_df pdf _) as [g3|]; [|done].
    destruct (V2.group_df hdf _) as [g4|]; [|done].
    destruct (V2.group_df fdf _) as [g5|]; [|done].
    cbn [V2.bind_result V2.group_df].
    apply collect_records_ext; try done.
    intros. by rewrite !safety_nodes_absent.
  - intros Habs Hcols. rewrite (group_df_Ok df) by done.
    destruct (V2.group_df sdf _) as [g2|]; [|done].
    destruct (V2.group_df pdf _) as [g3|]; [|done].
    destruct (V2.group_df fdf _) as [g5|]; [|done].
    cbn [V2.bind_result V2.group_df].
    apply collect_records_ext; try done.
    intros r s n ch c0. unfold V2.safety_nodes. cbn [V2.safety_by_refid_spd V2.safety_hdr_idx].
    destruct (dict_get _ g2) as [safety_rows|]; [|done].
    destruct (V2.truthy (V2.safety_id_under_spd bp)); [|done].
    destruct (bool_decide _); [|done].
    apply for_each_ext. intros ch1 srow c1 _.
    unfold bind. cbn [V2.next_id V2.next V2.counter].
    by rewrite !harms_nodes_absent.
Qed.

Lemma csv_without_form_ignored_witness :
  V2.build_from_files (JArr [sample_template]) (spd_frame [spd_row "12" "1" "63"])
    None None None (Some followup_frame) false
  = V2.build_from_files (JArr [sample_template]) (spd_frame [spd_row "12" "1" "63"])
      None None None None false.
Proof.
  apply (proj1 (csv_without_form_ignored (JArr [sample_template]) sample_blueprint eq_refl
                  (spd_frame [spd_row "12" "1" "63"]) None None None None false
                  followup_frame)).
  - reflexivity.
  - apply (bool_decide_unpack _). vm_compute. exact I.
Defined.

Lemma groupby_columns df keys g :
  g ∈ V2.groupby df keys -> V2.columns g.2 = V2.columns df.
Proof. unfold V2.groupby. by intros (x & -> & _)%list_elem_of_fmap. Qed.

Lemma groupby_nonempty df keys : V2.rows df <> [] -> V2.groupby df keys <> [].
Proof.
  intros Hrows Hnil. destruct (V2.rows df) as [|r rs] eqn:Hr; [done|].
  destruct (group_rows_partitions (key_tuple keys) (r :: rs)) as (_ & Hin & _).
  destruct (Hin r) as (g & Hg & _); [apply elem_of_cons; by left|].
  unfold V2.groupby in Hnil. rewrite Hr in Hnil.
  apply fmap_nil_inv in Hnil. unfold key_tuple in Hg. rewrite Hnil in Hg.
  by apply elem_of_nil in Hg.
Qed.

Lemma make_tables_Ok spd_df sdf pdf hdf fdf :
  has_columns spd_df ["refid"] ->
  frame_has sdf ["refid"; "spd_id"] ->
  frame_has pdf ["refid"; "spd_id"] ->
  frame_has hdf ["refid"; "spd_id"; "safety_id"] ->
  frame_has fdf ["refid"; "spd_id"] ->
  exists tb,
    V2.make_tables spd_df sdf pdf hdf fdf = Ok tb
    /\ V2.spd_by_refid tb = V2.groupby spd_df ["refid"]
    /\ V2.group_df sdf ["refid"; "spd_id"] = Ok (V2.safety_by_refid_spd tb).
Proof.
  intros Hspd Hs Hp Hh Hf. unfold V2.make_tables.
  rewrite (group_df_Ok spd_df) by done. cbn [V2.bind_result].
  destruct (group_df_frame_Ok _ _ Hs) as [g2 ->].
  destruct (group_df_frame_Ok _ _ Hp) as [g3 ->].
  destruct (group_df_frame_Ok _ _ Hh) as [g4 ->].
  destruct (group_df_frame_Ok _ _ Hf) as [g5 ->].
  cbn [V2.bind_result]. eexists. split; [reflexivity|]. by split.
Qed.

Lemma next_id_total c : exists r, V2.next_id c = Ok r.
Proof. by eexists. Qed.

Lemma harms_nodes_total bp tb refid spd_id_val safety_id_val spd_name c :
  exists r, V2.harms_nodes bp tb refid spd_id_val safety_id_val spd_name c = Ok r.
Proof.
  unfold V2.harms_nodes. destruct (dict_get _ _); [|by eexists].
  destruct (V2.truthy _); [|by eexists].
  apply for_each_total. intros acc x c0. by eexists.
Qed.

Lemma perf_nodes_total bp tb refid spd_id_val spd_name ch c :
  exists r, V2.perf_nodes bp tb refid spd_id_val spd_name ch c = Ok r.
Proof.
  unfold V2.perf_nodes. destruct (dict_get _ _); [|by eexists].
  destruct (V2.truthy _); [|by eexists].
  apply for_each_total. intros acc x c0. by eexists.
Qed.

Lemma followup_nodes_total bp tb refid spd_id_val spd_name ch c :
  exists r, V2.followup_nodes bp tb refid spd_id_val spd_name ch c = Ok r.
Proof.
  unfold V2.followup_nodes. destruct (dict_get _ _); [|by eexists].
  destruct (V2.truthy _); [|by eexists].
  apply for_each_total. intros acc x c0. by eexists.
Qed.

Lemma safety_nodes_total bp tb refid spd_id_val spd_name ch c :
  (forall k g, (k, g) ∈ V2.safety_by_refid_spd tb -> "safety_id" ∈ V2.columns g) ->
  exists r, V2.safety_nodes bp tb refid spd_id_val spd_name ch c = Ok r.
Proof.
  intros Hcol. unfold V2.safety_nodes.
  destruct (dict_get _ _) as [g|] eqn:Hg; [|by eexists].
  destruct (V2.truthy _); [|by eexists].
  apply dict_get_Some_elem in Hg. rewrite bool_decide_eq_true_2 by by eapply Hcol.
  apply for_each_total. intros acc x c0. unfold bind. cbn [V2.next_id V2.next V2.counter].
  destruct (harms_nodes_total bp tb refid spd_id_val (row_get "safety_id" x)
              spd_name (c0 + 1)) as [[harms c1] ->].
  by eexists.
Qed.

Lemma spd_step_total bp tb zp refid ch row c :
  (forall k g, (k, g) ∈ V2.safety_by_refid_spd tb -> "safety_id" ∈ V2.columns g) ->
  exists r, V2.spd_step bp tb zp refid ch row c = Ok r.
Proof.
  intros Hcol. unfold V2.spd_step, bind. cbn [V2.next_id V2.next V2.counter].
  destruct (safety_nodes_total bp tb refid (row_get "spd_id" row)
              (V2.spd_name_of zp (row_get "spd_id" row)) [] (c + 1) Hcol) as [[ch1 c1] ->].
  destruct (perf_nodes_total bp tb refid (row_get "spd_id" row)
              (V2.spd_name_of zp (row_get "spd_id" row)) ch1 c1) as [[ch2 c2] ->].
  destruct (followup_nodes_total bp tb refid (row_get "spd_id" row)
              (V2.spd_name_of zp (row_get "spd_id" row)) ch2 c2) as [[ch3 c3] ->].
  by eexists.
Qed.

Lemma refid_step_total bp tb zp key df c :
  (forall k g, (k, g) ∈ V2.safety_by_refid_spd tb -> "safety_id" ∈ V2.columns g) ->
  "spd_id" ∈ V2.columns df ->
  one_key_type (V2.rows df) = true ->
  exists r, V2.refid_step bp tb zp key df c = Ok r.
Proof.
  intros Hcol Hspd Hty. unfold V2.refid_step, bind. cbn [V2.next_id V2.next V2.counter].
  rewrite bool_decide_eq_true_2 by done.
  rewrite sort_values_condition, Hty. cbn [lift].
  destruct (for_each_total (V2.spd_step bp tb zp (default "" (head key)))
              (map snd (foldr V2.insert_row []
                 (map (fun r => (V2.spd_id_sort (row_get "spd_id" r), r)) (V2.rows df))))
              [] (c + 1)) as [[ch c1] ->].
  { intros acc x c0. by apply spd_step_total. }
  by eexists.
Qed.

(** X12. Version 2 returns when the template scans, the SPD CSV has
    [refid] and [spd_id], each other CSV that is supplied has its linkage
    columns, and within each [refid] the [spd_id]s are all unsigned-integer
    strings or all something else: the build raises nothing and yields
    one top-level record per distinct [refid]. *)
Theorem build_from_files_returns :
  forall (tj : json) (bp : V2.Blueprint) (spd_df : V2.DataFrame)
         (sdf pdf hdf fdf : option V2.DataFrame) (zp : bool),
    V2.scan_template tj = Ok bp ->
    has_columns spd_df ["refid"; "spd_id"] ->
    frame_has sdf ["refid"; "spd_id"; "safety_id"] ->
    frame_has pdf ["refid"; "spd_id"] ->
    frame_has hdf ["refid"; "spd_id"; "safety_id"] ->
    frame_has fdf ["refid"; "spd_id"] ->
    Forall (fun g => one_key_type (V2.rows g.2) = true) (V2.groupby spd_df ["refid"]) ->
    exists out c',
      V2.build_from_files tj spd_df sdf pdf hdf fdf zp = Ok (out, c')
      /\ length out = length (V2.groupby spd_df ["refid"]).
Proof.
  intros tj bp spd_df sdf pdf hdf fdf zp Hscan Hspd Hs Hp Hh Hf Hty.
  assert (has_columns spd_df ["refid"]) as Hrefid.
  { apply Forall_cons in Hspd as [? _]. by apply Forall_singleton. }
  assert ("spd_id" ∈ V2.columns spd_df) as Hspd_id.
  { apply Forall_cons in Hspd as [_ [? _]%Forall_cons]. done. }
  assert (frame_has sdf ["refid"; "spd_id"]) as Hs'.
  { destruct sdf as [d|]; [|done]. simpl in *.
    apply Forall_cons in Hs as [? [? _]%Forall_cons].
    apply Forall_cons; split; [done|]. by apply Forall_singleton. }
  destruct (make_tables_Ok spd_df sdf pdf hdf fdf Hrefid Hs' Hp Hh Hf)
    as (tb & Htb & Hby & Hsafety).
  assert (forall k g, (k, g) ∈ V2.safety_by_refid_spd tb -> "safety_id" ∈ V2.columns g)
    as Hcol.
  { intros k g Hg. destruct sdf as [d|].
    - rewrite (group_df_Ok d) in Hsafety by done. injection Hsafety as Hsafety.
      rewrite <- Hsafety in Hg. apply groupby_columns in Hg. simpl in Hg, Hs.
      rewrite Hg. apply Forall_cons in Hs as [_ [_ [? _]%Forall_cons]%Forall_cons]. done.
    - simpl in Hsafety. injection Hsafety as Hsafety. rewrite <- Hsafety in Hg.
      by apply elem_of_nil in Hg. }
  assert (exists r, V2.build_from_files tj spd_df sdf pdf hdf fdf zp = Ok r) as [[out c'] Hrun].
  { unfold V2.build_from_files. rewrite Hscan. cbn [V2.bind_result]. rewrite Htb.
    cbn [V2.bind_result]. unfold V2.collect_records. rewrite Hby.
    apply for_each_total_in. intros acc [key df] c Hin. unfold bind. cbn [fst snd].
    destruct (refid_step_total bp tb zp key df c Hcol) as [[top c1] ->].
    - apply groupby_columns in Hin. simpl in Hin. by rewrite Hin.
    - rewrite Forall_forall in Hty. by apply (Hty (key, df)).
    - by eexists. }
  exists out, c'. split; [done|].
  destruct (scan_template_master tj bp Hscan) as [rest ->].
  apply v2_build_records in Hrun as [Hrecs _].
  symmetry. by apply Forall2_length in Hrecs.
Qed.

Lemma build_from_files_returns_witness :
  exists out c',
    V2.build_from_files (JArr [sample_template])
      (spd_frame [spd_row "12" "2" "63"; spd_row "12" "10" "58"; spd_row "15" "1" "40"])
      None None None (Some followup_frame) false = Ok (out, c')
    /\ length out
       = length (V2.groupby
                   (spd_frame [spd_row "12" "2" "63"; spd_row "12" "10" "58";
                               spd_row "15" "1" "40"]) ["refid"]).
Proof.
  apply (build_from_files_returns (JArr [sample_template]) sample_blueprint
           (spd_frame [spd_row "12" "2" "63"; spd_row "12" "10" "58"; spd_row "15" "1" "40"])
           None None None (Some followup_frame) false eq_refl).
  - apply (bool_decide_unpack _). vm_compute. exact I.
  - exact I.
  - exact I.
  - exact I.
  - apply (bool_decide_unpack _). vm_compute. exact I.
  - apply (bool_decide_unpack _). vm_compute. exact I.
Defined.

(** X13. The [spd_id] column of the SPD CSV is checked inside the loop
    over the [refid]s, not when the CSV is grouped.  With a template that
    scans and CSVs that group, an SPD CSV without rows yields the empty
    output and draws no identifier, whether or not it has an [spd_id]
    column; an SPD CSV with rows and no [spd_id] column makes the build
    raise [ValueError] at the first [refid]. *)
Theorem spd_id_column_checked_per_refid :
  forall (tj : json) (bp : V2.Blueprint) (tb : V2.Tables) (spd_df : V2.DataFrame)
         (sdf pdf hdf fdf : option V2.DataFrame) (zp : bool),
    V2.scan_template tj = Ok bp ->
    V2.make_tables spd_df sdf pdf hdf fdf = Ok tb ->
    (V2.rows spd_df = [] ->
     V2.build_from_files tj spd_df sdf pdf hdf fdf zp
     = Ok ([], V2.start_from (JObj (V2.template_master bp))))
    /\ (V2.rows spd_df <> [] ->
        "spd_id" ∉ V2.columns spd_df ->
        V2.build_from_files tj spd_df sdf pdf hdf fdf zp
        = Err (ValueError "SPD CSV must contain 'spd_id' column.")).
Proof.
  intros tj bp tb spd_df sdf pdf hdf fdf zp Hscan Htb.
  pose proof (make_tables_spd _ _ _ _ _ _ Htb) as Hby.
  unfold V2.build_from_files. rewrite Hscan. cbn [V2.bind_result]. rewrite Htb.
  cbn [V2.bind_result]. unfold V2.collect_records. rewrite Hby. split.
  - intros Hrows. unfold V2.groupby. by rewrite Hrows.
  - intros Hrows Hcol. pose proof (groupby_nonempty spd_df ["refid"] Hrows) as Hne.
    destruct (V2.groupby spd_df ["refid"]) as [|[key df] gs] eqn:Hg; [done|].
    assert (V2.columns df = V2.columns spd_df) as Hcols.
    { apply (groupby_columns spd_df ["refid"] (key, df)). rewrite Hg.
      apply elem_of_cons. by left. }
    cbn [for_each]. unfold bind at 1. unfold bind at 1. cbn [fst snd].
    unfold V2.refid_step, bind at 1. cbn [V2.next_id V2.next V2.counter].
    rewrite bool_decide_eq_false_2 by (by rewrite Hcols). done.
Qed.

Lemma spd_id_column_checked_per_refid_witness :
  V2.build_from_files (JArr [sample_template]) (V2.mkDF ["refid"] [])
    None None None None false = Ok ([], 102)
  /\ V2.build_from_files (JArr [sample_template]) (V2.mkDF ["refid"] [[("refid", "12")]])
       None None None None false
     = Err (ValueError "SPD CSV must contain 'spd_id' column.").
Proof.
  split.
  - apply (proj1 (spd_id_column_checked_per_refid (JArr [sample_template]) sample_blueprint
                    _ (V2.mkDF ["refid"] []) None None None None false eq_refl eq_refl)).
    reflexivity.
  - apply (proj2 (spd_id_column_checked_per_refid (JArr [sample_template]) sample_blueprint
                    _ (V2.mkDF ["refid"] [[("refid", "12")]]) None None None None false
                    eq_refl eq_refl)).
    + done.
    + apply (bool_decide_unpack _). vm_compute. exact I.
Defined.

(** ** Version 2: the output keeps the template's structure *)

Lemma dict_values_set {K V : Type} `{EqDecision K} (P : V -> Prop) (k : K) (v : V) m :
  Forall P (dict_values m) -> P v -> Forall P (dict_values (dict_set k v m)).
Proof.
  unfold dict_values. intros Hm Hv. induction m as [|[k' v'] m IH]; simpl.
  - by apply Forall_singleton.
  - simpl in Hm. apply Forall_cons in Hm as [Hv' Hm].
    destruct (decide (k = k')); simpl; apply Forall_cons; split; auto.
Qed.

(** A loop that attaches one node per element keeps a property that all
    attached nodes have. *)
Lemma for_each_values {A} (P : json -> Prop) (body : dict -> A -> M dict) xs ch c ch' c' :
  (forall ch x c ch' c',
     body ch x c = Ok (ch', c') -> exists k node, ch' = dict_set k node ch /\ P node) ->
  Forall P (dict_values ch) ->
  for_each xs ch body c = Ok (ch', c') -> Forall P (dict_values ch').
Proof.
  intros Hbody. revert ch c. induction xs as [|x xs IH]; intros ch c Hch Hrun.
  - by apply ret_Ok in Hrun as [= -> ->].
  - simpl in Hrun. apply bind_Ok in Hrun as (ch1 & c1 & Hb & Hrun).
    apply Hbody in Hb as (k & node & -> & Hnode).
    apply (IH _ _ (dict_values_set P k node ch Hch Hnode) Hrun).
Qed.

Lemma not_in_three (k a b c : string) : k ∉ [a; b; c] -> k <> a /\ k <> b /\ k <> c.
Proof.
  intros Hk. split_and!; intros ->; apply Hk.
  - apply elem_of_cons. by left.
  - apply elem_of_cons. right. apply elem_of_cons. by left.
  - apply elem_of_cons. right. apply elem_of_cons. right. apply elem_of_cons. by left.
Qed.

Lemma filled_from_populated proto key row idx ov :
  filled_from proto
    (JObj (V2._populate_form_data_from_row (dict_set "key" key proto) row idx ov)).
Proof.
  intros k (Hkey & Hdata & _)%not_in_three. cbn [as_dict].
  rewrite populate_keeps_field by done. by rewrite dict_get_set_ne.
Qed.

Lemma filled_from_children proto node ch :
  filled_from proto (JObj node) ->
  filled_from proto (JObj (dict_set "child_forms" ch node)).
Proof.
  intros Hn k Hk. pose proof (not_in_three _ _ _ _ Hk) as (_ & _ & Hch).
  cbn [as_dict]. rewrite dict_get_set_ne by done. by apply Hn.
Qed.

Lemma children_of_set ch node :
  children_of (JObj (dict_set "child_forms" (JObj ch) node)) = dict_values ch.
Proof. unfold children_of. cbn [as_dict]. by rewrite get_obj_set. Qed.

Lemma harms_nodes_kept bp tb refid spd_id_val safety_id_val spd_name c ch c' :
  V2.harms_nodes bp tb refid spd_id_val safety_id_val spd_name c = Ok (ch, c') ->
  Forall (filled_from (harms_template bp)) (dict_values ch).
Proof.
  unfold V2.harms_nodes.
  destruct (dict_get _ (V2.harms_by_refid_spd_safety tb)) as [harms_rows|];
    [destruct (V2.truthy (V2.harms_id_under_safety bp))|].
  - apply for_each_values; [|apply Forall_nil_2].
    intros ch0 x c0 ch0' c0' Hb.
    apply bind_Ok in Hb as (id & c1 & _ & Hb).
    apply ret_Ok in Hb as [= -> ->]. eexists _, _. split; [reflexivity|].
    apply filled_from_populated.
  - intros [= -> ->]%ret_Ok. apply Forall_nil_2.
  - intros [= -> ->]%ret_Ok. apply Forall_nil_2.
Qed.

Lemma safety_nodes_kept bp tb refid spd_id_val spd_name ch c ch' c' :
  Forall (v2_child_kept bp) (dict_values ch) ->
  V2.safety_nodes bp tb refid spd_id_val spd_name ch c = Ok (ch', c') ->
  Forall (v2_child_kept bp) (dict_values ch').
Proof.
  intros Hch. unfold V2.safety_nodes.
  destruct (dict_get _ (V2.safety_by_refid_spd tb)) as [safety_rows|];
    [destruct (V2.truthy (V2.safety_id_under_spd bp));
      [destruct (bool_decide _); [|done]|]|].
  - apply for_each_values; [|done].
    intros ch0 x c0 ch0' c0' Hb.
    apply bind_Ok in Hb as (id & c1 & _ & Hb).
    apply bind_Ok in Hb as (harms & c2 & Hharms%harms_nodes_kept & Hb).
    apply ret_Ok in Hb as [= -> ->]. eexists _, _. split; [reflexivity|].
    left. split.
    + apply filled_from_children, filled_from_populated.
    + by rewrite children_of_set.
  - by intros [= -> ->]%ret_Ok.
  - by intros [= -> ->]%ret_Ok.
Qed.

Lemma perf_nodes_kept bp tb refid spd_id_val spd_name ch c ch' c' :
  Forall (v2_child_kept bp) (dict_values ch) ->
  V2.perf_nodes bp tb refid spd_id_val spd_name ch c = Ok (ch', c') ->
  Forall (v2_child_kept bp) (dict_values ch').
Proof.
  intros Hch. unfold V2.perf_nodes.
  destruct (dict_get _ (V2.perf_by_refid_spd tb)) as [perf_rows|];
    [destruct (V2.truthy (V2.perf_id_under_spd bp))|].
  - apply for_each_values; [|done].
    intros ch0 x c0 ch0' c0' Hb.
    apply bind_Ok in Hb as (id & c1 & _ & Hb).
    apply ret_Ok in Hb as [= -> ->]. eexists _, _. split; [reflexivity|].
    right; left. apply filled_from_populated.
  - by intros [= -> ->]%ret_Ok.
  - by intros [= -> ->]%ret_Ok.
Qed.

Lemma followup_nodes_kept bp tb refid spd_id_val spd_name ch c ch' c' :
  Forall (v2_child_kept bp) (dict_values ch) ->
  V2.followup_nodes bp tb refid spd_id_val spd_name ch c = Ok (ch', c') ->
  Forall (v2_child_kept bp) (dict_values ch').
Proof.
  intros Hch. unfold V2.followup_nodes.
  destruct (dict_get _ (V2.follow_by_refid_spd tb)) as [follow_rows|];
    [destruct (V2.truthy (V2.followup_id_under_spd bp))|].
  - apply for_each_values; [|done].
    intros ch0 x c0 ch0' c0' Hb.
    apply bind_Ok in Hb as (id & c1 & _ & Hb).
    apply ret_Ok in Hb as [= -> ->]. eexists _, _. split; [reflexivity|].
    right; right. apply filled_from_populated.
  - by intros [= -> ->]%ret_Ok.
  - by intros [= -> ->]%ret_Ok.
Qed.

Lemma spd_step_kept bp tb zp refid ext row c ext' c' :
  V2.spd_step bp tb zp refid ext row c = Ok (ext', c') ->
  exists k node, ext' = dict_set k node ext /\ v2_spd_kept bp node.
Proof.
  unfold V2.spd_step. intros Hrun.
  apply bind_Ok in Hrun as (id & c1 & _ & Hrun).
  apply bind_Ok in Hrun as (ch1 & c2 & Hsafety & Hrun).
  apply bind_Ok in Hrun as (ch2 & c3 & Hperf & Hrun).
  apply bind_Ok in Hrun as (ch3 & c4 & Hfollow & Hrun).
  apply ret_Ok in Hrun as [= -> ->].
  apply safety_nodes_kept in Hsafety; [|apply Forall_nil_2].
  apply perf_nodes_kept in Hperf; [|done].
  apply followup_nodes_kept in Hfollow; [|done].
  eexists _, _. split; [reflexivity|]. split.
  - apply filled_from_children, filled_from_populated.
  - by rewrite children_of_set.
Qed.

Lemma extraction_node_filled bp refid :
  filled_from (V2.extraction_template bp) (JObj (V2.extraction_node_of bp refid)).
Proof.
  intros k Hk. pose proof (not_in_three _ _ _ _ Hk) as (Hkey & Hdata & Hch).
  unfold V2.extraction_node_of. cbn [as_dict].
  destruct (dict_get "data" _) as [[]|];
    rewrite ?(dict_get_set_ne "data") by done;
    by rewrite !dict_get_set_ne by done.
Qed.

Lemma refid_step_kept bp tb zp key df c top c' :
  V2.refid_step bp tb zp key df c = Ok (top, c') -> v2_record_kept bp (JObj top).
Proof.
  unfold V2.refid_step. intros Hrun.
  apply bind_Ok in Hrun as (id & c1 & _ & Hrun).
  destruct (bool_decide _); [|done].
  apply bind_Ok in Hrun as (sorted & c2 & _ & Hrun).
  apply bind_Ok in Hrun as (children & c3 & Hloop & Hrun).
  apply ret_Ok in Hrun as [= -> ->].
  apply (for_each_values (v2_spd_kept bp)) in Hloop;
    [|intros; by eapply spd_step_kept|apply Forall_nil_2].
  split.
  - intros k Hk. cbn [as_dict].
    assert (k <> "refid" /\ k <> "data_sets") as [Hr Hd].
    { split; intros ->; apply Hk; [|apply elem_of_cons; right];
        apply elem_of_cons; by left. }
    by rewrite !dict_get_set_ne by done.
  - cbn [as_dict]. rewrite get_obj_set. unfold dict_values. cbn [map snd].
    apply Forall_singleton. split.
    + apply filled_from_children, extraction_node_filled.
    + by rewrite children_of_set.
Qed.

(** X14. The output of version 2 keeps the structure of the template.
    Every top-level record has the fields of the template's first record,
    with the same values, except [refid] and [data_sets]; its Extraction
    node has the fields of the template's Extraction form except [key],
    [data] and [child_forms]; likewise every SPD node is a copy of the
    template's SPD form, every node under an SPD node is a copy of the
    template's Safety, Performance or Follow-up form, and every node under
    a Safety node is a copy of the template's Harms form.  So form names,
    levels and sub-form flags are those of the template. *)
Theorem template_structure_kept :
  forall (tj : json) (bp : V2.Blueprint) (spd_df : V2.DataFrame)
         (sdf pdf hdf fdf : option V2.DataFrame) (zp : bool) (out : list json) (c' : Z),
    V2.scan_template tj = Ok bp ->
    V2.build_from_files tj spd_df sdf pdf hdf fdf zp = Ok (out, c') ->
    Forall (v2_record_kept bp) out.
Proof.
  intros tj bp spd_df sdf pdf hdf fdf zp out c' Hscan.
  unfold V2.build_from_files. rewrite Hscan. cbn [V2.bind_result].
  destruct (V2.make_tables _ _ _ _ _) as [tb|]; [|done]. cbn [V2.bind_result].
  unfold V2.collect_records.
  apply (for_each_inv (fun _ out _ => Forall (v2_record_kept bp) out)).
  - apply Forall_nil_2.
  - intros seen [key df] acc c1 acc' c2 Hacc _ Hstep.
    apply bind_Ok in Hstep as (top & c3 & Hrec & Hstep).
    apply ret_Ok in Hstep as [= -> ->].
    apply Forall_app. split; [done|]. apply Forall_singleton.
    by eapply refid_step_kept.
Qed.

Lemma template_structure_kept_witness :
  exists out c',
    V2.build_from_files (JArr [sample_template]) (spd_frame [spd_row "12" "1" "63"])
      None None None None false = Ok (out, c')
    /\ Forall (v2_record_kept sample_blueprint) out.
Proof.
  eexists _, _. split; [reflexivity|].
  exact (template_structure_kept (JArr [sample_template]) sample_blueprint
           (spd_frame [spd_row "12" "1" "63"]) None None None None false _ _
           eq_refl eq_refl).
Defined.

(** ** The order of the groups and of the records *)

Lemma filter_filter_implied {A} (P Q : A -> Prop) `{forall x, Decision (P x)}
    `{forall x, Decision (Q x)} (l : list A) :
  (forall x, P x -> Q x) -> filter P (filter Q l) = filter P l.
Proof.
  intros HPQ. induction l as [|x l IH]; [done|].
  rewrite (filter_cons Q), (filter_cons P).
  destruct (decide (Q x)) as [Hq|Hq].
  - rewrite filter_cons. destruct (decide (P x)); by rewrite IH.
  - rewrite decide_False by (intros Hp; by apply Hq, HPQ). exact IH.
Qed.

Lemma filter_not_in_snoc {K} `{EqDecision K} (A l : list K) (k : K) :
  filter (fun x => x ∉ (A ++ [k])%list) l
  = filter (fun x => x ∉ A) (filter (fun x => x <> k) l).
Proof.
  induction l as [|x l IH]; [done|].
  rewrite (filter_cons (fun x => x <> k)), (filter_cons (fun x => x ∉ (A ++ [k])%list)).
  destruct (decide (x <> k)) as [Hne|Heq].
  - rewrite filter_cons.
    destruct (decide (x ∉ A)) as [Hout|Hin].
    + rewrite decide_True; [by rewrite IH|].
      rewrite elem_of_app, list_elem_of_singleton. tauto.
    + rewrite decide_False; [done|].
      rewrite elem_of_app. tauto.
  - rewrite decide_False; [done|].
    apply dec_stable in Heq. subst. rewrite elem_of_app, list_elem_of_singleton. tauto.
Qed.

(** A mapping built by a loop that, at each element, assigns to the key
    of the element: its keys are those it had, then the new keys in order
    of first appearance. *)
Lemma fold_keys_first_seen {A K V : Type} `{EqDecision K} (f : A -> K)
    (step : list (K * V) -> A -> list (K * V)) (xs : list A) (init : list (K * V)) :
  (forall m x,
     dict_keys (step m x)
     = if decide (f x ∈ dict_keys m) then dict_keys m else (dict_keys m ++ [f x])%list) ->
  dict_keys (fold_left step xs init)
  = (dict_keys init
     ++ filter (fun k => k ∉ dict_keys init) (first_seen (map f xs)))%list.
Proof.
  intros Hstep. revert init. induction xs as [|x xs IH]; intros init.
  - simpl. by rewrite app_nil_r.
  - cbn [fold_left map first_seen]. rewrite IH, Hstep, filter_cons.
    destruct (decide (f x ∈ dict_keys init)) as [Hin|Hout].
    + rewrite decide_False by tauto.
      rewrite filter_filter_implied; [done|]. intros y Hy ->. done.
    + rewrite decide_True by done. rewrite <- (assoc_L (++)). simpl.
      by rewrite filter_not_in_snoc.
Qed.

Lemma filter_all_true {A} (P : A -> Prop) `{forall x, Decision (P x)} (l : list A) :
  (forall x, P x) -> filter P l = l.
Proof.
  intros HP. induction l as [|x l IH]; [done|].
  rewrite filter_cons, decide_True by done. by rewrite IH.
Qed.

Lemma group_rows_keys {K R : Type} `{EqDecision K} (key : R -> K) (rows : list R) :
  dict_keys (group_rows key rows) = first_seen (map key rows).
Proof.
  unfold group_rows.
  rewrite (fold_keys_first_seen key); [|intros m x; apply dict_keys_set].
  simpl. apply filter_all_true. intros x. apply not_elem_of_nil.
Qed.

Lemma spd_by_refid_keys rows :
  dict_keys (V1.spd_by_refid rows) = first_seen (refids_of rows).
Proof.
  rewrite spd_by_refid_group_rows, group_rows_keys. f_equal. unfold refids_of.
  induction rows as [|r rows IH]; [done|].
  rewrite map_cons, !filter_cons.
  destruct (decide (Py.strip (row_get "refid" r) <> "")); [rewrite map_cons|];
    by rewrite IH.
Qed.

Lemma Forall2_fmap_eq {A B C} (f : A -> C) (g : B -> C) (l : list A) (k : list B) :
  Forall2 (fun x y => g y = f x) l k -> map g k = map f l.
Proof. induction 1; [done|]. simpl. by f_equal. Qed.

Lemma first_seen_subset {K} `{EqDecision K} (l : list K) y :
  y ∈ first_seen l -> y ∈ l.
Proof.
  revert y. induction l as [|x l IH]; intros y; [done|]. cbn [first_seen].
  intros [->|Hy]%elem_of_cons; apply elem_of_cons; [by left|right].
  apply list_elem_of_filter in Hy as [_ Hy]. by apply IH.
Qed.

Lemma filter_fmap_inj {A B} `{EqDecision A} `{EqDecision B} (f : A -> B) (x : A) k :
  (forall y, y ∈ k -> f y = f x -> y = x) ->
  filter (fun b => b <> f x) (map f k) = map f (filter (fun a => a <> x) k).
Proof.
  induction k as [|y k IH]; intros Hinj; [done|].
  rewrite map_cons, !filter_cons.
  assert (forall y0, y0 ∈ k -> f y0 = f x -> y0 = x) as Hinj'
    by (intros; apply Hinj; [apply elem_of_cons; by right|done]).
  destruct (decide (y <> x)) as [Hne|Heq].
  - rewrite decide_True.
    + rewrite map_cons. by rewrite IH.
    + intros Hf. apply Hne, Hinj; [apply elem_of_cons; by left|done].
  - apply dec_stable in Heq. subst y. rewrite decide_False by tauto. by apply IH.
Qed.

Lemma first_seen_fmap {A B} `{EqDecision A} `{EqDecision B} (f : A -> B) l :
  (forall x y, x ∈ l -> y ∈ l -> f x = f y -> x = y) ->
  first_seen (map f l) = map f (first_seen l).
Proof.
  induction l as [|x l IH]; intros Hinj; [done|].
  cbn [map first_seen]. f_equal. rewrite IH.
  - apply filter_fmap_inj. intros y Hy Hf. apply Hinj; [|apply elem_of_cons; by left|done].
    apply elem_of_cons. right. by apply first_seen_subset.
  - intros a b Ha Hb. apply Hinj; apply elem_of_cons; by right.
Qed.

(** X15. Groups come in order of first appearance.  The keys of a
    [groupby] of version 2 are the distinct key tuples of the rows in the
    order in which they first occur, and the SPD grouping of version 1 has
    the distinct non-empty trimmed [refid]s in that order.  The top-level
    records of a build follow: their [refid] fields are, in order, those of
    the distinct [refid]s of the SPD CSV as they first occur (as integers
    where version 1 converts them, as strings in version 2). *)
Theorem records_in_first_seen_order :
  (forall (df : V2.DataFrame) (keys : list string),
     dict_keys (V2.groupby df keys) = first_seen (map (key_tuple keys) (V2.rows df)))
  /\ (forall rows : list Row,
        dict_keys (V1.spd_by_refid rows) = first_seen (refids_of rows))
  /\ (forall t spd_rows safety_rows perf_rows harms_rows followup_rows c out c',
        V1.build t spd_rows safety_rows perf_rows harms_rows followup_rows c = Ok (out, c') ->
        map refid_of out
        = map (fun k => Some (V1.refid_value k)) (first_seen (refids_of spd_rows)))
  /\ (forall tm rest spd_df sdf pdf hdf fdf zp out c',
        V2.build_from_files (JArr (tm :: rest)) spd_df sdf pdf hdf fdf zp = Ok (out, c') ->
        map refid_of out
        = map (fun k => Some (JStr k))
              (first_seen (map (row_get "refid") (V2.rows spd_df)))).
Proof.
  split_and!.
  - intros df keys. rewrite groupby_keys. apply group_rows_keys.
  - apply spd_by_refid_keys.
  - intros t spd_rows safety_rows perf_rows harms_rows followup_rows c out c' Hrun.
    apply v1_build_records in Hrun.
    rewrite <- spd_by_refid_keys. unfold dict_keys. rewrite map_map.
    apply Forall2_fmap_eq. eapply Forall2_impl; [exact Hrun|].
    intros g rec (ds_id & extraction & -> & _). reflexivity.
  - intros tm rest spd_df sdf pdf hdf fdf zp out c' Hrun.
    apply v2_build_records in Hrun as [Hrecs _].
    assert (map (row_get "refid") (V2.rows spd_df)
            = map (fun t => default "" (head t))
                  (map (key_tuple ["refid"]) (V2.rows spd_df))) as ->.
    { rewrite map_map. by apply map_ext. }
    rewrite first_seen_fmap.
    2:{ intros x y (r & -> & _)%list_elem_of_fmap (r' & -> & _)%list_elem_of_fmap.
        unfold key_tuple. simpl. by intros ->. }
    rewrite <- (group_rows_keys (key_tuple ["refid"])), <- groupby_keys.
    unfold dict_keys. rewrite !map_map.
    apply Forall2_fmap_eq. eapply Forall2_impl; [exact Hrecs|].
    intros g rec (ext_id & extraction & sorted & Hrefid & _). exact Hrefid.
Qed.

(** ** Version 1: the prototypes found in the template *)

(** The loop over the children of the Extraction prototype: each of the
    four prototypes is the last child of its name, if there is one. *)
Lemma classify_children (cf : dict) (t0 : V1.TemplateForms) :
  let found (name : string) (before : option dict) : option dict :=
    match last (filter (fun v => V1.form_name v = name) (dict_values cf)) with
    | Some v => Some (as_dict v)
    | None => before
    end in
  fold_left (fun t kv =>
            let v := kv.2 in
            let nm := V1.form_name v in
            if decide (nm = "Study Parameters and Demographics") then
              V1.mkTemplateForms (V1.extraction_proto t) (Some (as_dict v)) (V1.safety_proto t)
                (V1.perf_discrete_proto t) (V1.harms_proto t) (V1.followup_proto t)
            else if decide (nm = "Safety") then
              V1.mkTemplateForms (V1.extraction_proto t) (V1.spd_proto t) (Some (as_dict v))
                (V1.perf_discrete_proto t) (V1.harms_proto t) (V1.followup_proto t)
            else if decide (nm = "Performance (discrete)") then
              V1.mkTemplateForms (V1.extraction_proto t) (V1.spd_proto t) (V1.safety_proto t)
                (Some (as_dict v)) (V1.harms_proto t) (V1.followup_proto t)
            else if decide (nm = "Follow-up Subform") then
              V1.mkTemplateForms (V1.extraction_proto t) (V1.spd_proto t) (V1.safety_proto t)
                (V1.perf_discrete_proto t) (V1.harms_proto t) (Some (as_dict v))
            else t) cf t0
  = V1.mkTemplateForms (V1.extraction_proto t0)
      (found "Study Parameters and Demographics" (V1.spd_proto t0))
      (found "Safety" (V1.safety_proto t0))
      (found "Performance (discrete)" (V1.perf_discrete_proto t0))
      (V1.harms_proto t0)
      (found "Follow-up Subform" (V1.followup_proto t0)).
Proof.
  cbv zeta. revert t0. induction cf as [|[k v] cf IH]; intros t0.
  - by destruct t0.
  - cbn [fold_left]. rewrite IH. clear IH. cbn [snd dict_values map].
    fold (dict_values cf).
    assert (forall (name : string) (d : option dict),
              match last (filter (fun v0 => V1.form_name v0 = name) (v :: dict_values cf)) with
              | Some v0 => Some (as_dict v0)
              | None => d
              end
              = match last (filter (fun v0 => V1.form_name v0 = name) (dict_values cf)) with
                | Some v0 => Some (as_dict v0)
                | None => if decide (V1.form_name v = name) then Some (as_dict v) else d
                end) as Hstep.
    { intros name d. rewrite filter_cons. destruct (decide (V1.form_name v = name)); [|done].
      rewrite last_cons. by destruct (last (filter _ (dict_values cf))). }
    rewrite !Hstep.
    destruct (decide (V1.form_name v = "Study Parameters and Demographics")) as [Hn|Hn1].
    { rewrite !(decide_False (P := V1.form_name v = "Safety")) by (by rewrite Hn).
      rewrite !(decide_False (P := V1.form_name v = "Performance (discrete)"))
        by (by rewrite Hn).
      rewrite !(decide_False (P := V1.form_name v = "Follow-up Subform")) by (by rewrite Hn).
      reflexivity. }
    destruct (decide (V1.form_name v = "Safety")) as [Hn|Hn2].
    { rewrite !(decide_False (P := V1.form_name v = "Performance (discrete)"))
        by (by rewrite Hn).
      rewrite !(decide_False (P := V1.form_name v = "Follow-up Subform")) by (by rewrite Hn).
      reflexivity. }
    destruct (decide (V1.form_name v = "Performance (discrete)")) as [Hn|Hn3].
    { rewrite !(decide_False (P := V1.form_name v = "Follow-up Subform")) by (by rewrite Hn).
      reflexivity. }
    destruct (decide (V1.form_name v = "Follow-up Subform")) as [Hn|Hn4]; [reflexivity|].
    by destruct t0.
Qed.

(** The loop over the children of the SPD prototype: the first child named
    "Follow-up Subform", unless a prototype was found before. *)
Lemma first_followup (scf : dict) (before : option dict) :
  fold_left (fun fu kv =>
              match fu with
              | None =>
                  if decide (V1.form_name kv.2 = "Follow-up Subform")
                  then Some (as_dict kv.2) else None
              | Some _ => fu
              end) scf before
  = match before with
    | Some p => Some p
    | None =>
        as_dict <$> head (filter (fun v => V1.form_name v = "Follow-up Subform")
                            (dict_values scf))
    end.
Proof.
  revert before. induction scf as [|[k v] scf IH]; intros before.
  - by destruct before.
  - cbn [fold_left]. rewrite IH. cbn [snd dict_values map]. rewrite filter_cons.
    destruct before as [p|]; [done|].
    by destruct (decide (V1.form_name v = "Follow-up Subform")).
Qed.

(** X16. What [TemplateForms] makes of a template.  A template that is
    neither an array nor an object raises [ValueError]; an empty array
    raises [IndexError]; an array stands for its first record; a record
    with no or an empty [data_sets] raises [ValueError].  Otherwise the
    Extraction prototype is the first dataset, whatever its name; the SPD,
    Safety and Performance prototypes are the last children of the
    Extraction prototype with exactly that (trimmed) form name, and are
    absent when there is none; the Follow-up prototype is the last such
    child of the Extraction prototype or else the first one of the SPD
    prototype; the Harms prototype is the first child named "Harms" of the
    Safety prototype.  A missing prototype raises nothing here. *)
Theorem template_forms_outcomes :
  (forall j, (forall l, j <> JArr l) -> (forall m, j <> JObj m) ->
     V1.TemplateForms_init j = Err (ValueError "Unexpected template format"))
  /\ V1.TemplateForms_init (JArr []) = Err (IndexError "list index out of range")
  /\ (forall root rest,
        V1.TemplateForms_init (JArr (JObj root :: rest)) = V1.TemplateForms_init (JObj root))
  /\ (forall root,
        get_obj "data_sets" root = [] ->
        V1.TemplateForms_init (JObj root)
        = Err (ValueError "Template does not contain data_sets"))
  /\ (forall root k ds others,
        get_obj "data_sets" root = (k, ds) :: others ->
        exists t,
          V1.TemplateForms_init (JObj root) = Ok t
          /\ V1.extraction_proto t = as_dict ds
          /\ V1.spd_proto t
             = as_dict <$> last (children_named "Study Parameters and Demographics" (as_dict ds))
          /\ V1.safety_proto t = as_dict <$> last (children_named "Safety" (as_dict ds))
          /\ V1.perf_discrete_proto t
             = as_dict <$> last (children_named "Performance (discrete)" (as_dict ds))
          /\ V1.followup_proto t
             = match last (children_named "Follow-up Subform" (as_dict ds)) with
               | Some v => Some (as_dict v)
               | None =>
                   if V1.truthy_proto (V1.spd_proto t)
                   then as_dict <$> head (children_named "Follow-up Subform"
                                            (default [] (V1.spd_proto t)))
                   else None
               end
          /\ V1.harms_proto t
             = if V1.truthy_proto (V1.safety_proto t)
               then as_dict <$> head (children_named "Harms" (default [] (V1.safety_proto t)))
               else None).
Proof.
  split_and!.
  - intros j Harr Hobj. destruct j; try done.
    + by destruct (Harr l).
    + by destruct (Hobj m).
  - reflexivity.
  - reflexivity.
  - intros root Hds. unfold V1.TemplateForms_init. by rewrite Hds.
  - intros root k ds others Hds. unfold V1.TemplateForms_init. rewrite Hds.
    cbv zeta. rewrite classify_children. cbv zeta.
    cbn [V1.spd_proto V1.safety_proto V1.perf_discrete_proto V1.harms_proto
         V1.followup_proto V1.extraction_proto].
    eexists. split; [reflexivity|].
    cbn [V1.spd_proto V1.safety_proto V1.perf_discrete_proto V1.harms_proto
         V1.followup_proto V1.extraction_proto].
    unfold children_named. split_and!; try reflexivity.
    rewrite first_followup.
    destruct (last (filter (fun v => V1.form_name v = "Follow-up Subform") _));
      by destruct (V1.truthy_proto _).
Qed.

Lemma template_forms_outcomes_witness :
  exists t,
    V1.TemplateForms_init (JArr [sample_template]) = Ok t
    /\ V1.extraction_proto t = as_dict sample_extraction
    /\ V1.spd_proto t = Some (as_dict sample_spd)
    /\ V1.safety_proto t = None.
Proof.
  destruct (proj2 (proj2 (proj2 (proj2 template_forms_outcomes)))
              (as_dict sample_template) "101" sample_extraction [] eq_refl)
    as (t & Hok & Hext & Hspd & Hsafety & _).
  exists t. split_and!; [exact Hok|exact Hext|exact Hspd|exact Hsafety].
Defined.

(** ** Version 1: the entries and the fields of a populated form *)

Lemma question_types_keys form_proto :
  dict_keys (V1.question_types form_proto) = first_seen (questions_of form_proto).
Proof.
  unfold V1.question_types, questions_of.
  rewrite (fold_keys_first_seen (fun q => get_str "question" "" (as_dict q)));
    [|intros m x; apply dict_keys_set].
  simpl. apply filter_all_true. intros x. apply not_elem_of_nil.
Qed.

Lemma entries_for_single row q ty :
  q <> "Associated CERs" ->
  exists e, V1.entries_for row q ty = [e] /\ entry_question e = q /\ entry_type e = ty.
Proof.
  intros Hq. unfold V1.entries_for. destruct (dict_get q row) as [val|].
  - rewrite decide_False by done. destruct (decide _); by eexists.
  - by eexists.
Qed.

(** X17. Version 1 sees a prototype through its question texts.  The
    question-to-type mapping has the distinct question texts in order of
    first appearance, each with the type of the last entry that has this
    text ("Text" when that entry has no type).  So a populated form has one
    entry per distinct question, in that order, with that type: entries of
    the prototype that repeat a question are merged.  (The question
    "Associated CERs", which yields one entry per item, is set aside.) *)
Theorem questions_merged_by_text :
  (forall form_proto : dict,
     dict_keys (V1.question_types form_proto) = first_seen (questions_of form_proto))
  /\ (forall (form_proto : dict) (q : string),
        dict_get q (V1.question_types form_proto)
        = (fun e => get_str "type" "Text" (as_dict e))
            <$> last (filter (fun e => get_str "question" "" (as_dict e) = q)
                             (get_arr "data" form_proto)))
  /\ (forall (form_proto : dict) (row : Row),
        "Associated CERs" ∉ questions_of form_proto ->
        map (fun e => (entry_question e, entry_type e))
            (data_of (V1._populate_form_from_row form_proto row))
        = V1.question_types form_proto).
Proof.
  split_and!.
  - apply question_types_keys.
  - intros form_proto q. unfold V1.question_types.
    rewrite (fold_set_get (fun e => get_str "question" "" (as_dict e))
                          (fun e => get_str "type" "Text" (as_dict e))).
    by destruct (last _).
  - intros form_proto row Hcer. rewrite V1_populated_data.
    assert (Forall (fun q : string * string => q.1 <> "Associated CERs")
                   (V1.question_types form_proto)) as Hall.
    { apply Forall_forall. intros [q ty] Hin Heq. simpl in Heq. subst q.
      apply Hcer. apply first_seen_subset. rewrite <- question_types_keys.
      apply list_elem_of_fmap. by exists ("Associated CERs", ty). }
    induction Hall as [|[q ty] qs Hq _ IH]; [done|].
    cbn [flat_map]. rewrite map_app, IH. cbn [fst snd] in Hq |- *.
    destruct (entries_for_single row q ty Hq) as (e & -> & <- & <-). done.
Qed.

Lemma questions_merged_by_text_witness :
  map (fun e => (entry_question e, entry_type e))
      (data_of (V1._populate_form_from_row sample_repeated [("Age", "63"); ("Sex", "F")]))
  = [("Age", "Radio"); ("Sex", "Radio")].
Proof.
  rewrite (proj2 (proj2 questions_merged_by_text) sample_repeated).
  - reflexivity.
  - apply (bool_decide_unpack _). vm_compute. exact I.
Defined.

Lemma not_in_four (k a b c d : string) :
  k ∉ [a; b; c; d] -> k <> a /\ k <> b /\ k <> c /\ k <> d.
Proof.
  intros Hk. split_and!; intros ->; apply Hk; repeat (apply elem_of_cons; (by left) || right).
Qed.

Lemma dict_get_setdefault {K V : Type} `{EqDecision K} (k : K) (v : V) m :
  dict_get k (dict_setdefault k v m) = Some (default v (dict_get k m)).
Proof.
  unfold dict_setdefault, dict_has. destruct (dict_get k m) eqn:Hg; [done|].
  apply dict_get_set_eq.
Qed.

Lemma dict_get_setdefault_ne {K V : Type} `{EqDecision K} (k k' : K) (v : V) m :
  k <> k' -> dict_get k' (dict_setdefault k v m) = dict_get k' m.
Proof.
  intros Hne. unfold dict_setdefault. destruct (dict_has k m); [done|].
  by apply dict_get_set_ne.
Qed.

(** X18. A form populated by version 1 is the prototype with three fields
    set: [user] is the fixed user name, [data] holds the new entries, and
    [child_forms] is what the prototype had there, or an empty mapping if it
    had none.  Every other field (form name, level, sub-form flag, key) has
    the value of the prototype. *)
Theorem populated_form_keeps_prototype :
  forall (form_proto : dict) (row : Row),
    let form := V1._populate_form_from_row form_proto row in
    dict_get "user" form = Some (JStr "KimKwang")
    /\ dict_get "child_forms" form
       = Some (default (JObj []) (dict_get "child_forms" form_proto))
    /\ (forall k, k ∉ ["user"; "data"; "child_forms"] ->
                  dict_get k form = dict_get k form_proto).
Proof.
  intros form_proto row form. unfold form, V1._populate_form_from_row. split_and!.
  - rewrite dict_get_setdefault_ne by done. rewrite dict_get_set_ne by done.
    apply dict_get_set_eq.
  - rewrite dict_get_setdefault. by rewrite !dict_get_set_ne by done.
  - intros k (Hu & Hd & Hc)%not_in_three.
    rewrite dict_get_setdefault_ne by done. by rewrite !dict_get_set_ne by done.
Qed.

(** A node whose [data] entries are mapped through [F], as the loops over
    [node.get('data', [])] do. *)
Lemma map_data_get (F : json -> json) (node : dict) k :
  k <> "data" ->
  dict_get k (match dict_get "data" node with
              | Some (JArr data) => dict_set "data" (JArr (map F data)) node
              | _ => node
              end)
  = dict_get k node.
Proof.
  intros Hk. destruct (dict_get "data" node) as [[]|]; try done.
  by apply dict_get_set_ne.
Qed.

Lemma map_data_arr (F : json -> json) (node : dict) :
  get_arr "data" (match dict_get "data" node with
                  | Some (JArr data) => dict_set "data" (JArr (map F data)) node
                  | _ => node
                  end)
  = map F (get_arr "data" node).
Proof.
  unfold get_arr. destruct (dict_get "data" node) as [[]|] eqn:Hd; rewrite ?Hd; try done.
  by rewrite dict_get_set_eq.
Qed.

(** What [_make_extraction] returns: the prototype with [key], [user]
    and [child_forms] set, and with each entry of [data] passed through
    the loop body. *)
Lemma make_extraction_Ok t refid ex :
  V1._make_extraction t refid = Ok ex ->
  exists data',
    Forall2 (fun q q' => V1.extraction_entry refid q = Ok q')
            (get_arr "data" (V1.extraction_proto t)) data'
    /\ get_arr "data" ex = data'
    /\ forall k, k <> "data" ->
         dict_get k ex
         = dict_get k (dict_set "child_forms" (JObj [])
                         (dict_set "user" (JStr V1.USER_NAME)
                            (dict_set "key" (JStr refid) (V1.extraction_proto t)))).
Proof.
  unfold V1._make_extraction, get_arr.
  rewrite !dict_get_set_ne by done.
  destruct (dict_get "data" (V1.extraction_proto t)) as [[| | | |data|]|] eqn:Hdata.
  5: { destruct (V1.for_all _ data) as [data'|] eqn:Hall; [|done].
    intros [= <-]. apply for_all_Ok in Hall. exists data'. split_and!; [done| |].
    - by rewrite dict_get_set_ne, dict_get_set_eq.
    - intros k Hk.
      destruct (decide (k = "child_forms")) as [->|Hc];
        [by rewrite !dict_get_set_eq|].
      by rewrite !(dict_get_set_ne "child_forms"), (dict_get_set_ne "data") by done. }
  all: intros [= <-]; exists []; split_and!;
    [apply Forall2_nil_2|by rewrite !dict_get_set_ne, Hdata by done|done].
Qed.

(** X19. The Extraction node of a [refid].  Version 1 copies the
    Extraction prototype; when the prototype has an "Article Identifier"
    entry whose response is there and is not a mapping (a [null], say), it
    raises [TypeError]; otherwise it returns the node: [key] is the
    [refid], [user] the fixed user name and [child_forms] the empty
    mapping, and in [data] only the entries whose question is exactly
    "Article Identifier" change: the [text] of their response becomes the
    [refid], whatever their type.  No other question of the Extraction
    form is filled.  Version 2 never raises here: it does the same with the
    question compared in normal form and the [refid] written by
    [_set_response]. *)
Theorem extraction_node_carries_refid :
  (forall (t : V1.TemplateForms) (refid : string),
     match V1._make_extraction t refid with
     | Ok ex =>
         identifier_writable t
         /\ dict_get "key" ex = Some (JStr refid)
         /\ dict_get "user" ex = Some (JStr "KimKwang")
         /\ dict_get "child_forms" ex = Some (JObj [])
         /\ (forall k, k ∉ ["key"; "user"; "data"; "child_forms"] ->
                       dict_get k ex = dict_get k (V1.extraction_proto t))
         /\ Forall2 (fun q q' =>
                       if is_str "Article Identifier" (dict_get "question" (as_dict q))
                       then response_of "text" q' = Some (JStr refid)
                            /\ (forall f, f <> "text" -> response_of f q' = response_of f q)
                            /\ (forall k, k <> "response" ->
                                          dict_get k (as_dict q') = dict_get k (as_dict q))
                       else q' = q)
                    (data_of (V1.extraction_proto t)) (data_of ex)
     | Err e => e = TypeError /\ ~ identifier_writable t
     end)
  /\ (forall (bp : V2.Blueprint) (refid : string),
        let ex := V2.extraction_node_of bp refid in
        dict_get "key" ex = Some (JStr refid)
        /\ dict_get "child_forms" ex = Some (JObj [])
        /\ Forall2 (fun q q' =>
                      match q with
                      | JObj d =>
                          if decide (V2._normalize (Some (get_str "question" "" d))
                                     = "article identifier")
                          then q' = JObj (V2._set_response d (Some refid))
                          else q' = q
                      | _ => q' = q
                      end)
                   (data_of (V2.extraction_template bp)) (data_of ex)).
Proof.
  split.
  - intros t refid.
    destruct (V1._make_extraction t refid) as [ex|e] eqn:Hex;
      [|by apply make_extraction_Err in Hex].
    apply make_extraction_Ok in Hex as (data' & Hall & Hdata & Hrest).
    unfold identifier_writable, data_of. rewrite Hdata.
    split_and!.
    + eapply Forall2_Forall_l; [exact Hall|]. apply Forall_forall. intros q' _ q Hq.
      pose proof (extraction_entry_cases refid q) as Hc. rewrite Hq in Hc. apply Hc.
    + rewrite Hrest by done. rewrite !dict_get_set_ne by done. apply dict_get_set_eq.
    + rewrite Hrest by done. rewrite dict_get_set_ne by done. apply dict_get_set_eq.
    + rewrite Hrest by done. apply dict_get_set_eq.
    + intros k (Hk & Hu & Hda & Hc)%not_in_four.
      rewrite Hrest by done. by rewrite !dict_get_set_ne by done.
    + eapply Forall2_impl; [exact Hall|]. intros q q' Hq.
      pose proof (extraction_entry_cases refid q) as Hc. rewrite Hq in Hc.
      destruct Hc as [Hw ->].
      destruct q as [| | | | |d]; try done. cbn [as_dict].
      destruct (is_str "Article Identifier" (dict_get "question" d)); [|done].
      split_and!.
      * unfold response_of. cbn [as_dict]. rewrite get_obj_set. apply dict_get_set_eq.
      * intros f Hf. unfold response_of. cbn [as_dict]. rewrite get_obj_set.
        by rewrite dict_get_set_ne.
      * intros k Hk. cbn [as_dict]. by rewrite dict_get_set_ne.
  - intros bp refid ex. unfold ex, V2.extraction_node_of.
    change (V2._normalize (Some "Article Identifier")) with "article identifier".
    set (node := dict_set "child_forms" _ (dict_set "key" _ _)).
    split_and!.
    + rewrite map_data_get by done. unfold node.
      rewrite dict_get_set_ne by done. apply dict_get_set_eq.
    + rewrite map_data_get by done. apply dict_get_set_eq.
    + unfold data_of. rewrite map_data_arr. unfold node.
      rewrite !get_arr_set_ne by done.
      apply Forall2_fmap_r, Forall_Forall2_diag, Forall_forall. intros q _.
      unfold compose. destruct q as [| | | | |d]; try reflexivity.
      destruct (decide _); reflexivity.
Qed.

(** ** Version 1: rows without a prototype *)

Lemma for_each_skip {A B} (xs : list A) (acc : B) c :
  for_each xs acc (fun acc _ => ret acc) c = Ok (acc, c).
Proof. induction xs as [|x xs IH]; [done|]. simpl. unfold bind. simpl. exact IH. Qed.

Lemma v1_perf_forms_absent t pk refid spd_id ch c :
  V1.perf_discrete_proto t = None -> V1.perf_forms t pk refid spd_id ch c = Ok (ch, c).
Proof. intros H. unfold V1.perf_forms. rewrite H. apply for_each_skip. Qed.

Lemma v1_harms_forms_absent t hb safety_id c :
  V1.harms_proto t = None -> V1.harms_forms t hb safety_id c = Ok ([], c).
Proof. intros H. unfold V1.harms_forms. rewrite H. apply for_each_skip. Qed.

Lemma v1_safety_forms_absent t sk hb refid spd_id ch c :
  V1.safety_proto t = None -> V1.safety_forms t sk hb refid spd_id ch c = Ok (ch, c).
Proof. intros H. unfold V1.safety_forms. rewrite H. apply for_each_skip. Qed.

(** The build depends on the Safety, Performance, Follow-up and Harms
    groupings only through the three loops under an SPD form. *)
Lemma v1_records_ext t sk pk fk hb sk' pk' fk' hb' groups out c :
  (forall r s ch c0, V1.perf_forms t pk r s ch c0 = V1.perf_forms t pk' r s ch c0) ->
  (forall r s ch c0,
     V1.safety_forms t sk hb r s ch c0 = V1.safety_forms t sk' hb' r s ch c0) ->
  (forall r s ch c0, V1.followup_forms t fk r s ch c0 = V1.followup_forms t fk' r s ch c0) ->
  for_each groups out (V1.refid_step t sk pk fk hb) c
  = for_each groups out (V1.refid_step t sk' pk' fk' hb') c.
Proof.
  intros Hp Hs Hf. apply for_each_ext. intros acc g c1 _.
  unfold V1.refid_step, bind. cbn [V1._gen_id].
  unfold lift. destruct (V1._make_extraction t g.1) as [ex|]; [|done].
  assert (for_each g.2 [] (V1.spd_step t sk pk fk hb g.1) (c1 + 1)
          = for_each g.2 [] (V1.spd_step t sk' pk' fk' hb' g.1) (c1 + 1)) as ->; [|done].
  apply for_each_ext. intros ch row c2 _. unfold V1.spd_step.
  destruct (String.eqb _ ""); [done|]. destruct (V1.spd_proto t); [|done].
  unfold bind. rewrite Hp. destruct (V1.perf_forms t pk' _ _ _ _) as [[ch1 c3]|]; [|done].
  rewrite Hs. destruct (V1.safety_forms t sk' hb' _ _ _ _) as [[ch2 c4]|]; [|done].
  rewrite Hf. by destruct (V1.followup_forms t fk' _ _ _ _) as [[ch3 c5]|].
Qed.

(** X20. Rows without a prototype are skipped by version 1.  When the
    template has no "Performance (discrete)" form, the build gives the same
    output, and leaves the same counter, as with an empty Performance CSV;
    with no "Safety" form, the same as with empty Safety and Harms CSVs;
    with no "Harms" form under Safety, the same as with an empty Harms CSV.
    Nothing is raised for the missing prototype. *)
Theorem rows_without_prototype_skipped :
  forall (t : V1.TemplateForms)
         (spd_rows safety_rows perf_rows harms_rows : list Row)
         (followup_rows : option (list Row)) (c : Z),
    (V1.perf_discrete_proto t = None ->
     V1.build t spd_rows safety_rows perf_rows harms_rows followup_rows c
     = V1.build t spd_rows safety_rows [] harms_rows followup_rows c)
    /\ (V1.safety_proto t = None ->
        V1.build t spd_rows safety_rows perf_rows harms_rows followup_rows c
        = V1.build t spd_rows [] perf_rows [] followup_rows c)
    /\ (V1.harms_proto t = None ->
        V1.build t spd_rows safety_rows perf_rows harms_rows followup_rows c
        = V1.build t spd_rows safety_rows perf_rows [] followup_rows c).
Proof.
  intros t spd_rows safety_rows perf_rows harms_rows followup_rows c.
  unfold V1.build. split_and!.
  - intros Habs. apply v1_records_ext; try done.
    intros. by rewrite !v1_perf_forms_absent.
  - intros Habs. apply v1_records_ext; try done.
    intros. by rewrite !v1_safety_forms_absent.
  - intros Habs. apply v1_records_ext; try done.
    intros r s ch c0. unfold V1.safety_forms. apply for_each_ext.
    intros ch1 srow c1 _. destruct (V1.safety_proto t); [|done].
    unfold bind.
    destruct (if String.eqb _ "" then V1._gen_id else ret _) as [[label c2]|]; [|done].
    by rewrite !v1_harms_forms_absent.
Qed.

Lemma rows_without_prototype_skipped_witness :
  V1.build sample_forms [spd_row "12" "1" "63"]
    [[("refid", "12"); ("spd_id", "1"); ("safety_id", "5")]] [] [] None 10000
  = V1.build sample_forms [spd_row "12" "1" "63"] [] [] [] None 10000.
Proof.
  exact (proj1 (proj2 (rows_without_prototype_skipped sample_forms [spd_row "12" "1" "63"]
                         [[("refid", "12"); ("spd_id", "1"); ("safety_id", "5")]] [] []
                         None 10000)) eq_refl).
Defined.

(** ** One node per matched row *)

Lemma drawn_beyond a b l n : drawn a b l -> b < n -> Py.str n ∉ l.
Proof.
  intros (ns & -> & _ & Hall) Hn Hin.
  apply list_elem_of_fmap in Hin as (m & Heq & Hm).
  apply str_inj in Heq. subst m.
  rewrite Forall_forall in Hall. specialize (Hall _ Hm). simpl in Hall. lia.
Qed.

Lemma drawn_single a b n : a < n -> n <= b -> drawn a b [Py.str n].
Proof.
  intros Ha Hb. exists [n]. split_and!; [done|apply NoDup_singleton|].
  apply Forall_singleton. lia.
Qed.

(** A loop that attaches one node per element, under an identifier drawn
    during the iteration: the nodes are appended in order, none replaces
    another. *)
Lemma attach_loop_rows {A} (Q : json -> Prop) (body : dict -> A -> M dict)
    xs lo ch c ch' c' :
  (forall ch x c ch' c',
     body ch x c = Ok (ch', c') ->
     exists n node, ch' = dict_set (Py.str n) node ch /\ c < n /\ n <= c' /\ Q node) ->
  lo <= c -> drawn lo c (dict_keys ch) ->
  for_each xs ch body c = Ok (ch', c') ->
  exists new,
    ch' = (ch ++ new)%list /\ length new = length xs /\ Forall Q (dict_values new)
    /\ drawn lo c' (dict_keys ch') /\ c <= c'.
Proof.
  intros Hbody. revert ch c ch'.
  induction xs as [|x xs IH]; intros ch c ch' Hlo Hdr Hrun.
  - apply ret_Ok in Hrun as [= -> ->]. exists []. rewrite app_nil_r.
    split_and!; [done|done|apply Forall_nil_2|done|lia].
  - simpl in Hrun. apply bind_Ok in Hrun as (ch1 & c1 & Hb & Hrun).
    apply Hbody in Hb as (n & node & -> & Hcn & Hnc1 & Hq).
    rewrite dict_set_new in Hrun by (by apply (drawn_beyond lo c)).
    apply IH in Hrun as (new & -> & Hlen & Hall & Hdr' & Hle); [|lia|].
    + exists ((Py.str n, node) :: new). split_and!; [| | |done|lia].
      * by rewrite <- (assoc_L (++)).
      * simpl. by rewrite Hlen.
      * unfold dict_values in *. simpl. by apply Forall_cons.
    + unfold dict_keys. rewrite map_app. simpl.
      apply (drawn_app lo c c1); [lia|lia|done|]. apply drawn_single; lia.
Qed.

Lemma v2_safety_attached bp tb refid spd_id_val spd_name lo ch c ch' c' :
  lo <= c -> drawn lo c (dict_keys ch) ->
  V2.safety_nodes bp tb refid spd_id_val spd_name ch c = Ok (ch', c') ->
  exists new,
    ch' = (ch ++ new)%list
    /\ length new
       = length (if_form (V2.truthy (V2.safety_id_under_spd bp))
                   (rows_for (V2.safety_by_refid_spd tb) [refid; spd_id_val]))
    /\ Forall (filled_from (V2.safety_template bp)) (dict_values new)
    /\ drawn lo c' (dict_keys ch') /\ c <= c'.
Proof.
  intros Hlo Hdr. unfold V2.safety_nodes, rows_for.
  destruct (dict_get _ (V2.safety_by_refid_spd tb)) as [safety_rows|];
    [destruct (V2.truthy (V2.safety_id_under_spd bp));
      [destruct (bool_decide _); [|done]|]|].
  - apply attach_loop_rows; [|done..].
    intros ch0 x c0 ch0' c0' Hb.
    apply bind_Ok in Hb as (id & c1 & [= -> ->]%next_id_Ok & Hb).
    apply bind_Ok in Hb as (harms & c2 & [_ Hle]%v2_harms_nodes & Hb).
    apply ret_Ok in Hb as [= -> ->]. eexists _, _.
    split_and!; [reflexivity|lia|lia|].
    apply filled_from_children, filled_from_populated.
  - intros [= -> ->]%ret_Ok. exists []. rewrite app_nil_r.
    split_and!; [done|done|apply Forall_nil_2|done|lia].
  - intros [= -> ->]%ret_Ok. exists []. rewrite app_nil_r.
    split_and!; [done|by destruct (V2.truthy _)|apply Forall_nil_2|done|lia].
Qed.

Lemma v2_perf_attached bp tb refid spd_id_val spd_name lo ch c ch' c' :
  lo <= c -> drawn lo c (dict_keys ch) ->
  V2.perf_nodes bp tb refid spd_id_val spd_name ch c = Ok (ch', c') ->
  exists new,
    ch' = (ch ++ new)%list
    /\ length new
       = length (if_form (V2.truthy (V2.perf_id_under_spd bp))
                   (rows_for (V2.perf_by_refid_spd tb) [refid; spd_id_val]))
    /\ Forall (filled_from (template_child bp (V2.perf_id_under_spd bp))) (dict_values new)
    /\ drawn lo c' (dict_keys ch') /\ c <= c'.
Proof.
  intros Hlo Hdr. unfold V2.perf_nodes, rows_for.
  destruct (dict_get _ (V2.perf_by_refid_spd tb)) as [perf_rows|];
    [destruct (V2.truthy (V2.perf_id_under_spd bp))|].
  - apply attach_loop_rows; [|done..].
    intros ch0 x c0 ch0' c0' Hb.
    apply bind_Ok in Hb as (id & c1 & [= -> ->]%next_id_Ok & Hb).
    apply ret_Ok in Hb as [= -> ->]. eexists _, _.
    split_and!; [reflexivity|lia|lia|].
    apply filled_from_populated.
  - intros [= -> ->]%ret_Ok. exists []. rewrite app_nil_r.
    split_and!; [done|done|apply Forall_nil_2|done|lia].
  - intros [= -> ->]%ret_Ok. exists []. rewrite app_nil_r.
    split_and!; [done|by destruct (V2.truthy _)|apply Forall_nil_2|done|lia].
Qed.

Lemma v2_followup_attached bp tb refid spd_id_val spd_name lo ch c ch' c' :
  lo <= c -> drawn lo c (dict_keys ch) ->
  V2.followup_nodes bp tb refid spd_id_val spd_name ch c = Ok (ch', c') ->
  exists new,
    ch' = (ch ++ new)%list
    /\ length new
       = length (if_form (V2.truthy (V2.followup_id_under_spd bp))
                   (rows_for (V2.follow_by_refid_spd tb) [refid; spd_id_val]))
    /\ Forall (filled_from (template_child bp (V2.followup_id_under_spd bp)))
              (dict_values new)
    /\ drawn lo c' (dict_keys ch') /\ c <= c'.
Proof.
  intros Hlo Hdr. unfold V2.followup_nodes, rows_for.
  destruct (dict_get _ (V2.follow_by_refid_spd tb)) as [follow_rows|];
    [destruct (V2.truthy (V2.followup_id_under_spd bp))|].
  - apply attach_loop_rows; [|done..].
    intros ch0 x c0 ch0' c0' Hb.
    apply bind_Ok in Hb as (id & c1 & [= -> ->]%next_id_Ok & Hb).
    apply ret_Ok in Hb as [= -> ->]. eexists _, _.
    split_and!; [reflexivity|lia|lia|].
    apply filled_from_populated.
  - intros [= -> ->]%ret_Ok. exists []. rewrite app_nil_r.
    split_and!; [done|done|apply Forall_nil_2|done|lia].
  - intros [= -> ->]%ret_Ok. exists []. rewrite app_nil_r.
    split_and!; [done|by destruct (V2.truthy _)|apply Forall_nil_2|done|lia].
Qed.

(** X21. The children of an SPD node in version 2.  For an SPD row the
    loop stores one SPD node under the next identifier; its [child_forms]
    hold first the Safety nodes, then the Performance nodes, then the
    Follow-up nodes, each kind in the row order of its CSV: one node per
    row of the group of the SPD row's [refid] and [spd_id] when the template
    has the form, none otherwise.  The nodes are stored under pairwise
    distinct identifiers, so none replaces another, and each is a copy of
    the template form of its kind. *)
Theorem spd_children_by_kind :
  forall (bp : V2.Blueprint) (tb : V2.Tables) (zp : bool) (refid : string)
         (ext : dict) (row : Row) (c : Z) (ext' : dict) (c' : Z),
    V2.spd_step bp tb zp refid ext row c = Ok (ext', c') ->
    exists node safety perf follow,
      ext' = dict_set (Py.str (c + 1)) (JObj node) ext
      /\ get_obj "child_forms" node = (safety ++ perf ++ follow)%list
      /\ NoDup (dict_keys (safety ++ perf ++ follow))
      /\ length safety
         = length (if_form (V2.truthy (V2.safety_id_under_spd bp))
                     (rows_for (V2.safety_by_refid_spd tb) [refid; row_get "spd_id" row]))
      /\ length perf
         = length (if_form (V2.truthy (V2.perf_id_under_spd bp))
                     (rows_for (V2.perf_by_refid_spd tb) [refid; row_get "spd_id" row]))
      /\ length follow
         = length (if_form (V2.truthy (V2.followup_id_under_spd bp))
                     (rows_for (V2.follow_by_refid_spd tb) [refid; row_get "spd_id" row]))
      /\ Forall (filled_from (V2.safety_template bp)) (dict_values safety)
      /\ Forall (filled_from (template_child bp (V2.perf_id_under_spd bp)))
                (dict_values perf)
      /\ Forall (filled_from (template_child bp (V2.followup_id_under_spd bp)))
                (dict_values follow).
Proof.
  intros bp tb zp refid ext row c ext' c'. unfold V2.spd_step. intros Hrun.
  apply bind_Ok in Hrun as (id & c1 & [= -> ->]%next_id_Ok & Hrun).
  apply bind_Ok in Hrun as (ch1 & c2 & Hsafety & Hrun).
  apply bind_Ok in Hrun as (ch2 & c3 & Hperf & Hrun).
  apply bind_Ok in Hrun as (ch3 & c4 & Hfollow & Hrun).
  apply ret_Ok in Hrun as [= -> ->].
  apply (v2_safety_attached _ _ _ _ _ (c + 1)) in Hsafety
    as (safety & -> & Hls & Hfs & Hd1 & Hle1); [|lia|apply drawn_nil].
  apply (v2_perf_attached _ _ _ _ _ (c + 1)) in Hperf
    as (perf & -> & Hlp & Hfp & Hd2 & Hle2); [|lia|done].
  apply (v2_followup_attached _ _ _ _ _ (c + 1)) in Hfollow
    as (follow & -> & Hlf & Hff & Hd3 & Hle3); [|lia|done].
  eexists _, safety, perf, follow. split; [reflexivity|].
  rewrite get_obj_set. simpl in Hd3 |- *. rewrite <- (assoc_L (++)) in Hd3 |- *.
  split_and!; try done. by apply drawn_NoDup in Hd3.
Qed.

Lemma spd_children_by_kind_witness :
  exists ext' c' node safety perf follow,
    V2.spd_step sample_nested_blueprint sample_tables false "12" []
      (spd_row "12" "1" "63") 105 = Ok (ext', c')
    /\ ext' = dict_set (Py.str (105 + 1)) (JObj node) []
    /\ get_obj "child_forms" node = (safety ++ perf ++ follow)%list
    /\ length safety = 2%nat /\ length perf = 1%nat /\ length follow = 0%nat.
Proof.
  assert (exists ext' c',
            V2.spd_step sample_nested_blueprint sample_tables false "12" []
              (spd_row "12" "1" "63") 105 = Ok (ext', c')) as (ext' & c' & Hrun)
    by (vm_compute; eexists _, _; reflexivity).
  destruct (spd_children_by_kind sample_nested_blueprint sample_tables false "12" []
              (spd_row "12" "1" "63") 105 ext' c' Hrun)
    as (node & safety & perf & follow & Hext & Hch & _ & Hs & Hp & Hf & _).
  exists ext', c', node, safety, perf, follow.
  split_and!; [exact Hrun|exact Hext|exact Hch|exact Hs|exact Hp|exact Hf].
Defined.

Lemma gen_id_Ok c r : V1._gen_id c = Ok r <-> r = (Py.str (c + 1), c + 1).
Proof. unfold V1._gen_id. split; [by intros [= <-]|by intros ->]. Qed.

Lemma v1_harms_forms_mono t hb safety_id c ch c' :
  V1.harms_forms t hb safety_id c = Ok (ch, c') -> c <= c'.
Proof.
  unfold V1.harms_forms.
  apply (for_each_inv (fun _ _ c1 => c <= c1)); [lia|].
  intros seen x acc c0 acc' c1 Hle _ Hb.
  destruct (V1.harms_proto t); [|apply ret_Ok in Hb as [= -> ->]; lia].
  apply bind_Ok in Hb as (id & c2 & [= -> ->]%gen_id_Ok & Hb).
  apply bind_Ok in Hb as (id' & c3 & [= -> ->]%gen_id_Ok & Hb).
  apply ret_Ok in Hb as [= -> ->]. lia.
Qed.

Lemma v1_perf_attached t pk refid spd_id lo ch c ch' c' :
  lo <= c -> drawn lo c (dict_keys ch) ->
  V1.perf_forms t pk refid spd_id ch c = Ok (ch', c') ->
  exists new,
    ch' = (ch ++ new)%list
    /\ length new
       = length (if_form (found (V1.perf_discrete_proto t))
                   (default [] (dict_get (refid, spd_id) pk)))
    /\ Forall (form_is "Performance (discrete)") (dict_values new)
    /\ drawn lo c' (dict_keys ch') /\ c <= c'.
Proof.
  intros Hlo Hdr. destruct (V1.perf_discrete_proto t) as [proto|] eqn:Hproto.
  - unfold V1.perf_forms. rewrite Hproto. apply attach_loop_rows; [|done..].
    intros ch0 x c0 ch0' c0' Hb.
    apply bind_Ok in Hb as (id & c1 & [= -> ->]%gen_id_Ok & Hb).
    apply bind_Ok in Hb as (id' & c2 & [= -> ->]%gen_id_Ok & Hb).
    apply ret_Ok in Hb as [= -> ->]. eexists _, _.
    split_and!; [reflexivity|lia|lia|].
    unfold form_is. cbn [as_dict]. rewrite dict_get_set_ne by done. apply dict_get_set_eq.
  - rewrite v1_perf_forms_absent by done. intros [= <- <-]. exists [].
    rewrite app_nil_r. split_and!; [done|done|apply Forall_nil_2|done|lia].
Qed.

Lemma v1_safety_attached t sk hb refid spd_id lo ch c ch' c' :
  lo <= c -> drawn lo c (dict_keys ch) ->
  V1.safety_forms t sk hb refid spd_id ch c = Ok (ch', c') ->
  exists new,
    ch' = (ch ++ new)%list
    /\ length new
       = length (if_form (found (V1.safety_proto t))
                   (default [] (dict_get (refid, spd_id) sk)))
    /\ Forall (form_is "Safety") (dict_values new)
    /\ drawn lo c' (dict_keys ch') /\ c <= c'.
Proof.
  intros Hlo Hdr. destruct (V1.safety_proto t) as [proto|] eqn:Hproto.
  - unfold V1.safety_forms. rewrite Hproto. apply attach_loop_rows; [|done..].
    intros ch0 x c0 ch0' c0' Hb.
    apply bind_Ok in Hb as (label & c1 & Hlabel & Hb).
    assert (c0 <= c1) as Hc1.
    { destruct (String.eqb _ "").
      - apply gen_id_Ok in Hlabel as [= -> ->]. lia.
      - apply ret_Ok in Hlabel as [= -> ->]. lia. }
    apply bind_Ok in Hb as (harms & c2 & Hharms%v1_harms_forms_mono & Hb).
    apply bind_Ok in Hb as (id' & c3 & [= -> ->]%gen_id_Ok & Hb).
    apply ret_Ok in Hb as [= -> ->]. eexists _, _.
    split_and!; [reflexivity|lia|lia|].
    unfold form_is. cbn [as_dict]. rewrite !dict_get_set_ne by done. apply dict_get_set_eq.
  - rewrite v1_safety_forms_absent by done. intros [= <- <-]. exists [].
    rewrite app_nil_r. split_and!; [done|done|apply Forall_nil_2|done|lia].
Qed.

Lemma v1_followup_attached t fk refid spd_id lo ch c ch' c' :
  lo <= c -> drawn lo c (dict_keys ch) ->
  V1.followup_forms t fk refid spd_id ch c = Ok (ch', c') ->
  exists new,
    ch' = (ch ++ new)%list
    /\ length new = length (default [] (dict_get (refid, spd_id) fk))
    /\ Forall (form_is "Follow-up Subform") (dict_values new)
    /\ drawn lo c' (dict_keys ch') /\ c <= c'.
Proof.
  intros Hlo Hdr. unfold V1.followup_forms. apply attach_loop_rows; [|done..].
  intros ch0 x c0 ch0' c0' Hb.
  apply bind_Ok in Hb as (fu_form & c1 & Hform & Hb).
  apply bind_Ok in Hb as (id' & c2 & [= -> ->]%gen_id_Ok & Hb).
  apply ret_Ok in Hb as [= -> ->].
  assert (c0 <= c1 /\ form_is "Follow-up Subform" (JObj fu_form)) as [Hc1 Hq].
  { destruct (V1.followup_proto t) as [proto|].
    - apply bind_Ok in Hform as (id & c3 & [= -> ->]%gen_id_Ok & Hform).
      apply ret_Ok in Hform as [= -> ->]. split; [lia|].
      unfold form_is. cbn [as_dict]. rewrite dict_get_set_ne by done.
      rewrite dict_get_setdefault_ne by done. apply dict_get_set_eq.
    - apply bind_Ok in Hform as (id & c3 & [= -> ->]%gen_id_Ok & Hform).
      apply ret_Ok in Hform as [= -> ->]. split; [lia|]. reflexivity. }
  eexists _, _. split_and!; [reflexivity|lia|lia|done].
Qed.

(** X22. The children of an SPD form in version 1.  For an SPD row with an
    [spd_id], the form is stored under [spd_<spd_id>]; its [child_forms]
    hold first the Performance forms, then the Safety forms, then the
    Follow-up forms, each kind in the row order of its CSV: one per row
    whose trimmed [refid] and [spd_id] are those of the SPD row.  Rows of a
    kind whose prototype is missing yield nothing, except Follow-up rows,
    which yield a form in any case.  The forms are stored under pairwise
    distinct generated identifiers, and each carries the form name of its
    kind. *)
Theorem spd_forms_by_kind :
  forall (t : V1.TemplateForms)
         (sk pk fk : list ((string * string) * list Row)) (hb : list (string * list Row))
         (refid : string) (ext : dict) (row : Row) (c : Z) (ext' : dict) (c' : Z),
    V1.spd_step t sk pk fk hb refid ext row c = Ok (ext', c') ->
    Py.strip (row_get "spd_id" row) <> "" ->
    let key := (refid, Py.strip (row_get "spd_id" row)) in
    exists spd_form perf safety follow,
      ext' = dict_set (v1_spd_key row) (JObj spd_form) ext
      /\ get_obj "child_forms" spd_form = (perf ++ safety ++ follow)%list
      /\ NoDup (dict_keys (perf ++ safety ++ follow))
      /\ length perf
         = length (if_form (found (V1.perf_discrete_proto t)) (default [] (dict_get key pk)))
      /\ length safety
         = length (if_form (found (V1.safety_proto t)) (default [] (dict_get key sk)))
      /\ length follow = length (default [] (dict_get key fk))
      /\ Forall (form_is "Performance (discrete)") (dict_values perf)
      /\ Forall (form_is "Safety") (dict_values safety)
      /\ Forall (form_is "Follow-up Subform") (dict_values follow).
Proof.
  intros t sk pk fk hb refid ext row c ext' c' Hrun Hne. cbv zeta.
  unfold V1.spd_step in Hrun.
  destruct (String.eqb_spec (Py.strip (row_get "spd_id" row)) "") as [|_]; [done|].
  destruct (V1.spd_proto t) as [proto|]; [|done].
  apply bind_Ok in Hrun as (ch1 & c1 & Hperf & Hrun).
  apply bind_Ok in Hrun as (ch2 & c2 & Hsafety & Hrun).
  apply bind_Ok in Hrun as (ch3 & c3 & Hfollow & Hrun).
  apply ret_Ok in Hrun as [= -> ->].
  apply (v1_perf_attached _ _ _ _ c) in Hperf
    as (perf & -> & Hlp & Hfp & Hd1 & Hle1); [|lia|apply drawn_nil].
  apply (v1_safety_attached _ _ _ _ _ c) in Hsafety
    as (safety & -> & Hls & Hfs & Hd2 & Hle2); [|lia|done].
  apply (v1_followup_attached _ _ _ _ c) in Hfollow
    as (follow & -> & Hlf & Hff & Hd3 & Hle3); [|lia|done].
  eexists _, perf, safety, follow. split; [reflexivity|].
  rewrite get_obj_set. simpl in Hd3 |- *. rewrite <- (assoc_L (++)) in Hd3 |- *.
  split_and!; try done. by apply drawn_NoDup in Hd3.
Qed.

Lemma spd_forms_by_kind_witness :
  let safety_rows : list Row :=
    [[("refid", "12"); ("spd_id", "1"); ("safety_id", "5")];
     [("refid", "12"); ("spd_id", "1"); ("safety_id", "")]] in
  let followup_rows : list Row := [[("refid", "12"); ("spd_id", "1"); ("Visit", "Week 4")]] in
  exists ext' c' spd_form perf safety follow,
    V1.spd_step sample_flat_forms (V1.by_refid_spd safety_rows) [] (V1.by_refid_spd followup_rows)
      [] "12" [] (spd_row "12" " 1 " "63") 10001 = Ok (ext', c')
    /\ ext' = dict_set (v1_spd_key (spd_row "12" " 1 " "63")) (JObj spd_form) []
    /\ get_obj "child_forms" spd_form = (perf ++ safety ++ follow)%list
    /\ length perf = 0%nat /\ length safety = 2%nat /\ length follow = 1%nat.
Proof.
  intros safety_rows followup_rows.
  assert (exists ext' c',
            V1.spd_step sample_flat_forms (V1.by_refid_spd safety_rows) []
              (V1.by_refid_spd followup_rows) [] "12" [] (spd_row "12" " 1 " "63") 10001
            = Ok (ext', c')) as (ext' & c' & Hrun)
    by (vm_compute; eexists _, _; reflexivity).
  destruct (spd_forms_by_kind sample_flat_forms (V1.by_refid_spd safety_rows) []
              (V1.by_refid_spd followup_rows) [] "12" [] (spd_row "12" " 1 " "63") 10001
              ext' c' Hrun)
    as (spd_form & perf & safety & follow & Hext & Hch & _ & Hp & Hs & Hf & _).
  { by vm_compute. }
  exists ext', c', spd_form, perf, safety, follow.
  split_and!; [exact Hrun|exact Hext|exact Hch|exact Hp|exact Hs|exact Hf].
Defined.

(** ** Which Harms rows go under a Safety node *)






(** ** Rows without an [spd_id], rows without a [refid] *)

(** The grouping of the SPD rows does not see the rows without a
    [refid]. *)
Lemma spd_by_refid_without_empty spd_rows :
  V1.spd_by_refid (filter (fun r => Py.strip (row_get "refid" r) <> "") spd_rows)
  = V1.spd_by_refid spd_rows.
Proof.
  rewrite !spd_by_refid_group_rows. f_equal. by apply filter_filter_implied.
Qed.

(** C10 (amended). In version 1, an SPD row whose [spd_id] is empty after
    trimming is skipped by the SPD loop: no SPD node, no identifier drawn, no
    error.  The build as a whole raises only [TypeError], when the
    Extraction prototype has an "Article Identifier" entry whose response is
    there and is not a mapping and some row has a [refid], or [ValueError],
    when the template has no SPD prototype and some row has both a [refid]
    and an [spd_id].  When the build returns and the row's [refid] is not
    empty after trimming, the output has the top-level record of that
    [refid], with one Extraction node whose children come only from the rows
    of that [refid] that have an [spd_id] (none, if there is no such row).
    Rows whose [refid] is empty after trimming are dropped before anything
    else: the build is the same as without them, and no record of the output
    has an empty [refid]. *)
Theorem empty_spd_id_row_dropped :
  forall t spd_rows safety_rows perf_rows harms_rows followup_rows row,
    row ∈ spd_rows ->
    Py.strip (row_get "spd_id" row) = "" ->
    (forall sk pk fk hb refid children c,
       V1.spd_step t sk pk fk hb refid children row c = Ok (children, c))
    /\ (forall c e,
          V1.build t spd_rows safety_rows perf_rows harms_rows followup_rows c = Err e ->
          (e = TypeError /\ ~ identifier_writable t /\
           exists r, r ∈ spd_rows /\ Py.strip (row_get "refid" r) <> "")
          \/ ((exists msg, e = ValueError msg) /\ V1.spd_proto t = None /\
              exists r, r ∈ spd_rows /\ Py.strip (row_get "refid" r) <> ""
                        /\ Py.strip (row_get "spd_id" r) <> ""))
    /\ (Py.strip (row_get "refid" row) <> "" ->
        forall c out c',
          V1.build t spd_rows safety_rows perf_rows harms_rows followup_rows c = Ok (out, c') ->
          exists ds_id extraction,
            JObj [("refid", V1.refid_value (Py.strip (row_get "refid" row)));
                  ("tags", JArr []); ("attachments", JArr []); ("biblio_string", JStr "");
                  ("data_sets", JObj [(ds_id, JObj extraction)])] ∈ out
            /\ forall k, k ∈ child_ids (JObj extraction) ->
                 exists r, r ∈ spd_rows
                   /\ Py.strip (row_get "refid" r) = Py.strip (row_get "refid" row)
                   /\ Py.strip (row_get "spd_id" r) <> ""
                   /\ k = v1_spd_key r)
    /\ (forall c,
          V1.build t spd_rows safety_rows perf_rows harms_rows followup_rows c
          = V1.build t (filter (fun r => Py.strip (row_get "refid" r) <> "") spd_rows)
              safety_rows perf_rows harms_rows followup_rows c)
    /\ (forall c out c',
          V1.build t spd_rows safety_rows perf_rows harms_rows followup_rows c = Ok (out, c') ->
          Forall (fun rec => refid_of rec <> Some (JStr "")) out).
Proof.
  intros t spd_rows safety_rows perf_rows harms_rows followup_rows row Hrow Hempty.
  split_and!.
  - intros. by apply v1_spd_step_skip.
  - intros c e. apply v1_build_Err.
  - intros Hrefid c out c' Hrun.
    apply v1_build_records in Hrun.
    destruct (spd_by_refid_row spd_rows row Hrow Hrefid) as (g & Hg & _).
    apply list_elem_of_lookup in Hg as [i Hi].
    destruct (Forall2_lookup_l _ _ _ _ _ Hrun Hi) as (rec & Hrec & Hrecord).
    destruct Hrecord as (ds_id & extraction & -> & _ & Hkeys & _).
    exists ds_id, extraction. split.
    + apply list_elem_of_lookup. by exists i.
    + intros k Hk. apply Hkeys in Hk as (r & Hr & Hne & ->).
      apply list_elem_of_lookup_2 in Hi.
      apply spd_by_refid_group in Hi as [_ Hg]. simpl in Hr. rewrite Hg in Hr.
      apply list_elem_of_filter in Hr as [Hk Hr].
      apply list_elem_of_filter in Hr as [_ Hr].
      exists r. done.
  - intros c. unfold V1.build. by rewrite spd_by_refid_without_empty.
  - intros c out c' Hrun. apply v1_build_records in Hrun.
    eapply Forall2_Forall_r; [exact Hrun|].
    apply Forall_forall. intros [k g] Hg rec (ds_id & extraction & -> & _).
    apply spd_by_refid_group in Hg as [Hk _].
    unfold refid_of, V1.refid_value. simpl.
    destruct (Py.isdigit k); [done|]. by intros [= ->].
Qed.

Lemma empty_spd_id_row_dropped_witness :
  let rows := [spd_row "12" "" "63"; spd_row "12" "3" "58"] in
  exists out c',
    V1.build sample_forms rows [] [] [] None V1.initial_next_id = Ok (out, c')
    /\ exists ds_id extraction,
         JObj [("refid", V1.refid_value (Py.strip (row_get "refid" (spd_row "12" "" "63"))));
               ("tags", JArr []); ("attachments", JArr []); ("biblio_string", JStr "");
               ("data_sets", JObj [(ds_id, JObj extraction)])] ∈ out
         /\ forall k, k ∈ child_ids (JObj extraction) ->
              exists r, r ∈ rows
                /\ Py.strip (row_get "refid" r) = Py.strip (row_get "refid" (spd_row "12" "" "63"))
                /\ Py.strip (row_get "spd_id" r) <> ""
                /\ k = v1_spd_key r.
Proof.
  intros rows.
  destruct (V1.build sample_forms rows [] [] [] None V1.initial_next_id)
    as [[out c']|e] eqn:Hrun.
  - exists out, c'. split; [reflexivity|].
    assert (spd_row "12" "" "63" ∈ rows) as Hrow by (apply elem_of_cons; by left).
    assert (Py.strip (row_get "spd_id" (spd_row "12" "" "63")) = "") as Hempty
      by reflexivity.
    assert (Py.strip (row_get "refid" (spd_row "12" "" "63")) <> "") as Hrefid
      by (vm_compute; discriminate).
    exact (proj1 (proj2 (proj2 (empty_spd_id_row_dropped sample_forms rows [] [] [] None
                                  (spd_row "12" "" "63") Hrow Hempty)))
             Hrefid _ _ _ Hrun).
  - vm_compute in Hrun. discriminate.
Defined.

(** C10, as stated, fails for a row whose [refid] is empty as well: the row
    is dropped when the rows are grouped, and no top-level record is made for
    it.  It also fails for a row with a [refid] when the response of the
    "Article Identifier" entry of the Extraction prototype is [null]: the
    build raises [TypeError]. *)
Lemma row_without_refid_yields_no_record :
  let row : Row := spd_row "" "" "63" in
  Py.strip (row_get "spd_id" row) = ""
  /\ V1.build sample_forms [row] [] [] [] None V1.initial_next_id
     = Ok ([], V1.initial_next_id)
  /\ Py.strip (row_get "spd_id" (spd_row "12" "" "63")) = ""
  /\ V1.build sample_null_forms [spd_row "12" "" "63"] [] [] [] None V1.initial_next_id
     = Err TypeError.
Proof. intros row. split_and!; reflexivity. Qed.

(** ** Missing linkage columns *)







(** ** Version 2: every identifier of a run *)

Lemma pretty_N_go_digits x s :
  forallb Py.isdigit_char (Py.chars s) = true ->
  forallb Py.isdigit_char (Py.chars (pretty_N_go x s)) = true.
Proof.
  revert s. induction (N.lt_wf_0 x) as [x _ IH]; intros s Hs.
  assert (x = 0 \/ 0 < x)%N as [->|Hpos] by lia; [by rewrite pretty_N_go_0|].
  rewrite pretty_N_go_step by done.
  apply IH; [by apply N.div_lt|]. simpl. by rewrite pretty_N_char_digit.
Qed.

(** The decimal string of a natural number is an unsigned-integer string. *)
Lemma isdigit_str n : 0 <= n -> Py.isdigit (Py.str n) = true.
Proof.
  intros Hn. destruct n as [|p|p]; [reflexivity| |lia].
  unfold Py.isdigit.
  destruct (str_head (Z.pos p)) as (c & Hc & _).
  assert (forallb Py.isdigit_char (Py.chars (Py.str (Z.pos p))) = true) as Hall.
  { unfold Py.str. change (pretty (Z.pos p)) with (pretty (N.pos p)).
    unfold pretty, pretty_N. rewrite decide_False by done.
    by apply pretty_N_go_digits. }
  by destruct (Py.chars (Py.str (Z.pos p))).
Qed.

Lemma start_from_nonneg tm : 0 <= V2.start_from tm.
Proof.
  destruct (start_from_spec tm) as [Hnone Hsome].
  destruct (V2._collect_all_numeric_keys tm []) as [|x xs] eqn:Hfound.
  - rewrite Hnone by done. lia.
  - destruct Hsome as [Hin _]; [done|].
    rewrite <- Hfound, collect_numeric_keys in Hin. simpl in Hin.
    apply list_elem_of_fmap in Hin as (k & -> & Hk).
    apply list_elem_of_filter in Hk as [Hd _]. by apply int_of_digits_nonneg.
Qed.

(** An identifier above the seed is no key of the template. *)
Lemma str_not_template_key tm n : V2.start_from tm < n -> Py.str n ∉ json_keys tm.
Proof.
  intros Hn Hin. pose proof (start_from_nonneg tm) as H0.
  apply (template_key_not_generated tm (Py.str n) (n - V2.start_from tm) Hin).
  - apply isdigit_str. lia.
  - lia.
  - f_equal. lia.
Qed.

Lemma ids_from_nil c : ids_from c c = [].
Proof. unfold ids_from. by rewrite seqZ_nil by lia. Qed.

Lemma ids_from_cons c c' : c < c' -> ids_from c c' = Py.str (c + 1) :: ids_from (c + 1) c'.
Proof.
  intros Hlt. unfold ids_from. rewrite seqZ_cons by lia. simpl.
  do 3 f_equal; lia.
Qed.

Lemma ids_from_app a b c :
  a <= b -> b <= c -> (ids_from a b ++ ids_from b c)%list = ids_from a c.
Proof.
  intros Hab Hbc. unfold ids_from. rewrite <- map_app.
  replace (c - a) with ((b - a) + (c - b)) by lia.
  rewrite seqZ_app by lia. do 3 f_equal; lia.
Qed.

Lemma elem_of_ids_from a b k :
  k ∈ ids_from a b <-> exists n, k = Py.str n /\ a < n <= b.
Proof.
  unfold ids_from. rewrite list_elem_of_fmap. split.
  - intros (n & -> & Hn%elem_of_seqZ). exists n. split; [done|lia].
  - intros (n & -> & Hn). exists n. split; [done|]. apply elem_of_seqZ. lia.
Qed.

Lemma ids_from_generated c c' :
  c <= c' -> ids_from c c' = generated (Z.to_nat (c' - c)) (V2.mkIdFactory c).
Proof.
  intros Hle. rewrite generated_spec. unfold ids_from, seqZ. simpl.
  rewrite <- (seq_shift _ 0), !map_map.
  apply map_ext. intros i. f_equal. lia.
Qed.

Lemma ids_from_drawn a b : a <= b -> drawn a b (ids_from a b).
Proof.
  intros Hab. exists (seqZ (a + 1) (b - a)). split_and!; [done|apply NoDup_seqZ|].
  apply Forall_forall. intros n Hn%elem_of_seqZ. lia.
Qed.

Lemma json_keys_cons k v (m : dict) :
  json_keys (JObj ((k, v) :: m)) = (k :: json_keys v ++ json_keys (JObj m))%list.
Proof. reflexivity. Qed.

(** The keys of a value stored in a mapping are keys of the mapping. *)
Lemma json_keys_get (m : dict) k v x :
  dict_get k m = Some v -> x ∈ json_keys v -> x ∈ json_keys (JObj m).
Proof.
  induction m as [|[k' v'] m IH]; [done|]. rewrite json_keys_cons. simpl.
  destruct (decide (k = k')) as [->|Hne].
  - intros [= ->] Hx. apply elem_of_cons. right. apply elem_of_app. by left.
  - intros Hget Hx. apply elem_of_cons. right. apply elem_of_app. right. by apply IH.
Qed.

Lemma json_keys_key (m : dict) k : k ∈ dict_keys m -> k ∈ json_keys (JObj m).
Proof.
  induction m as [|[k' v'] m IH]; [done|]. rewrite json_keys_cons.
  unfold dict_keys. simpl. intros [->|Hk]%elem_of_cons.
  - apply elem_of_cons. by left.
  - apply elem_of_cons. right. apply elem_of_app. right. by apply IH.
Qed.

Lemma within_get_obj tm k node : within tm node -> within tm (get_obj k node).
Proof.
  intros Hw x Hx. apply Hw. unfold get_obj in Hx.
  destruct (dict_get k node) as [[| | | | |m]|] eqn:Hget;
    try (by apply elem_of_nil in Hx).
  by apply (json_keys_get node k (JObj m)).
Qed.

Lemma within_child tm id dflt (m : dict) :
  within tm m -> as_dict dflt = [] ->
  within tm (as_dict (default dflt (dict_get id m))).
Proof.
  intros Hw Hd x Hx. apply Hw.
  destruct (dict_get id m) as [v|] eqn:Hget; simpl in Hx.
  - destruct v as [| | | | |n]; try (by apply elem_of_nil in Hx).
    by apply (json_keys_get m id (JObj n)).
  - rewrite Hd in Hx. by apply elem_of_nil in Hx.
Qed.

Lemma within_as_dict tm : within tm (as_dict tm).
Proof. intros x Hx. destruct tm; try (by apply elem_of_nil in Hx). done. Qed.

(** The forms that the scan finds under the SPD form are parts of the
    template. *)
Lemma scan_template_within tm rest bp :
  V2.scan_template (JArr (tm :: rest)) = Ok bp -> within tm (V2.spd_children bp).
Proof.
  unfold V2.scan_template.
  destruct (get_obj "data_sets" (as_dict tm)) as [|kv ds] eqn:Hds; [done|].
  destruct (V2._find_form_id_by_name (kv :: ds) _) as [ext_id|]; [|done].
  destruct (V2._find_form_id_by_name _ ["study"; "demographics"]) as [spd_id|];
    [|done].
  intros [= <-].
  change (within tm
            (get_obj "child_forms"
               (as_dict (default JNull
                  (dict_get spd_id
                     (get_obj "child_forms"
                        (as_dict (default JNull (dict_get ext_id (kv :: ds)))))))))).
  rewrite <- Hds.
  apply within_get_obj, within_child; [|done].
  apply within_get_obj, within_child; [|done].
  apply within_get_obj, within_as_dict.
Qed.

Section run_ids.
Variable tm : json.
Variable bp : V2.Blueprint.
Variable tb : V2.Tables.
Variable zp : bool.
Hypothesis Hwithin : within tm (V2.spd_children bp).

Lemma filter_new_ids a b :
  V2.start_from tm <= a ->
  filter (fun k => k ∉ json_keys tm) (ids_from a b) = ids_from a b.
Proof.
  intros Ha. apply filter_all. intros k (n & -> & Hn)%elem_of_ids_from.
  apply str_not_template_key. lia.
Qed.

(** A loop that attaches one node per element under the identifier drawn
    at the start of the iteration, the identifiers below the node being
    those drawn during the rest of the iteration. *)
Lemma attach_counted {A} (d : nat) (body : dict -> A -> M dict) xs lo ch c ch' c' :
  (forall ch x c ch' c',
     lo <= c -> body ch x c = Ok (ch', c') ->
     exists node,
       ch' = dict_set (Py.str (c + 1)) node ch /\ c + 1 <= c'
       /\ filter (fun k => k ∉ json_keys tm) (tree_ids d node) = ids_from (c + 1) c') ->
  V2.start_from tm <= lo -> lo <= c -> counted tm d lo c ch ->
  for_each xs ch body c = Ok (ch', c') ->
  counted tm d lo c' ch' /\ c <= c'.
Proof.
  intros Hbody Hlo. revert ch c.
  induction xs as [|x xs IH]; intros ch c Hc Hch Hrun.
  - apply ret_Ok in Hrun as [= -> ->]. split; [done|lia].
  - simpl in Hrun. apply bind_Ok in Hrun as (ch1 & c1 & Hb & Hrun).
    apply Hbody in Hb as (node & -> & Hc1 & Hnode); [|done].
    apply IH in Hrun as [Hch' Hle]; [split; [done|lia]|lia|].
    assert (Py.str (c + 1) ∉ dict_keys ch) as Hfresh.
    { intros Hin. apply list_elem_of_fmap in Hin as ([k v] & Hk & Hkv). simpl in Hk.
      assert (Py.str (c + 1) ∈ ids_from lo c) as Hold.
      { rewrite <- Hch. apply list_elem_of_filter. split.
        - apply str_not_template_key. lia.
        - apply list_elem_of_In, in_flat_map. exists (k, v).
          split; [by apply list_elem_of_In|]. left. by rewrite Hk. }
      apply elem_of_ids_from in Hold as (n & Hn%str_inj & ?). lia. }
    unfold counted in *. rewrite dict_set_new by done.
    rewrite flat_map_app, filter_app, Hch. simpl. rewrite app_nil_r.
    rewrite filter_cons, decide_True by (apply str_not_template_key; lia).
    rewrite Hnode, <- (ids_from_cons c c1) by lia.
    apply ids_from_app; lia.
Qed.

Lemma counted_nil d c : counted tm d c c [].
Proof. unfold counted. simpl. by rewrite ids_from_nil. Qed.

Lemma harms_counted refid spd_id_val safety_id_val spd_name c ch c' :
  V2.start_from tm <= c ->
  V2.harms_nodes bp tb refid spd_id_val safety_id_val spd_name c = Ok (ch, c') ->
  counted tm 0 c c' ch /\ c <= c'.
Proof.
  intros Hc. unfold V2.harms_nodes.
  destruct (dict_get _ (V2.harms_by_refid_spd_safety tb)) as [harms_rows|];
    [destruct (V2.truthy (V2.harms_id_under_safety bp))|].
  - apply attach_counted; [|done|lia|apply counted_nil].
    intros ch0 x c0 ch0' c0' Hc0 Hb.
    apply bind_Ok in Hb as (id & c1 & [= -> ->]%next_id_Ok & Hb).
    apply ret_Ok in Hb as [= -> ->]. eexists. split_and!; [reflexivity|lia|].
    by rewrite ids_from_nil.
  - intros [= -> ->]%ret_Ok. split; [apply counted_nil|lia].
  - intros [= -> ->]%ret_Ok. split; [apply counted_nil|lia].
Qed.

Lemma tree_ids_children d (node ch : dict) :
  tree_ids (S d) (JObj (dict_set "child_forms" (JObj ch) node))
  = flat_map (fun kv => kv.1 :: tree_ids d kv.2) ch.
Proof. simpl. by rewrite get_obj_set. Qed.

Lemma safety_counted refid spd_id_val spd_name lo ch c ch' c' :
  V2.start_from tm <= lo -> lo <= c -> counted tm 1 lo c ch ->
  V2.safety_nodes bp tb refid spd_id_val spd_name ch c = Ok (ch', c') ->
  counted tm 1 lo c' ch' /\ c <= c'.
Proof.
  intros Hlo Hc Hch. unfold V2.safety_nodes.
  destruct (dict_get _ (V2.safety_by_refid_spd tb)) as [safety_rows|];
    [destruct (V2.truthy (V2.safety_id_under_spd bp));
      [destruct (bool_decide _); [|done]|]|].
  - apply attach_counted; [|done..].
    intros ch0 x c0 ch0' c0' Hc0 Hb.
    apply bind_Ok in Hb as (id & c1 & [= -> ->]%next_id_Ok & Hb).
    apply bind_Ok in Hb as (harms & c2 & Hharms & Hb).
    apply harms_counted in Hharms as [Hh Hle]; [|lia].
    apply ret_Ok in Hb as [= -> ->]. eexists. split_and!; [reflexivity|lia|].
    rewrite tree_ids_children. exact Hh.
  - intros [= -> ->]%ret_Ok. split; [done|lia].
  - intros [= -> ->]%ret_Ok. split; [done|lia].
Qed.

(** A copy of a form found under the SPD form holds, below it, only keys
    of the template. *)
Lemma template_copy_counted id key row idx c :
  let node :=
    V2._populate_form_data_from_row
      (dict_set "key" key
         (as_dict (default (JObj []) (dict_get id (V2.spd_children bp))))) row idx None in
  filter (fun k => k ∉ json_keys tm) (tree_ids 1 (JObj node)) = ids_from c c.
Proof.
  intros node. rewrite ids_from_nil. apply filter_none. intros k Hk Hnew. apply Hnew.
  simpl in Hk. apply list_elem_of_In, in_flat_map in Hk as ([k' v] & Hkv & Hk).
  simpl in Hk. destruct Hk as [<-|[]].
  assert (within tm (get_obj "child_forms" node)) as Hw.
  { unfold node, get_obj. rewrite populate_keeps_field, dict_get_set_ne by done.
    apply (within_get_obj tm "child_forms"). by apply within_child. }
  apply Hw, json_keys_key. apply list_elem_of_fmap. exists (k', v).
  split; [done|by apply list_elem_of_In].
Qed.

Lemma perf_counted refid spd_id_val spd_name lo ch c ch' c' :
  V2.start_from tm <= lo -> lo <= c -> counted tm 1 lo c ch ->
  V2.perf_nodes bp tb refid spd_id_val spd_name ch c = Ok (ch', c') ->
  counted tm 1 lo c' ch' /\ c <= c'.
Proof.
  intros Hlo Hc Hch. unfold V2.perf_nodes.
  destruct (dict_get _ (V2.perf_by_refid_spd tb)) as [perf_rows|];
    [destruct (V2.truthy (V2.perf_id_under_spd bp))|].
  - apply attach_counted; [|done..].
    intros ch0 x c0 ch0' c0' Hc0 Hb.
    apply bind_Ok in Hb as (id & c1 & [= -> ->]%next_id_Ok & Hb).
    apply ret_Ok in Hb as [= -> ->]. eexists. split_and!; [reflexivity|lia|].
    apply template_copy_counted.
  - intros [= -> ->]%ret_Ok. split; [done|lia].
  - intros [= -> ->]%ret_Ok. split; [done|lia].
Qed.

Lemma followup_counted refid spd_id_val spd_name lo ch c ch' c' :
  V2.start_from tm <= lo -> lo <= c -> counted tm 1 lo c ch ->
  V2.followup_nodes bp tb refid spd_id_val spd_name ch c = Ok (ch', c') ->
  counted tm 1 lo c' ch' /\ c <= c'.
Proof.
  intros Hlo Hc Hch. unfold V2.followup_nodes.
  destruct (dict_get _ (V2.follow_by_refid_spd tb)) as [follow_rows|];
    [destruct (V2.truthy (V2.followup_id_under_spd bp))|].
  - apply attach_counted; [|done..].
    intros ch0 x c0 ch0' c0' Hc0 Hb.
    apply bind_Ok in Hb as (id & c1 & [= -> ->]%next_id_Ok & Hb).
    apply ret_Ok in Hb as [= -> ->]. eexists. split_and!; [reflexivity|lia|].
    apply template_copy_counted.
  - intros [= -> ->]%ret_Ok. split; [done|lia].
  - intros [= -> ->]%ret_Ok. split; [done|lia].
Qed.

Lemma spd_step_counted refid ext row c ext' c' :
  V2.start_from tm <= c ->
  V2.spd_step bp tb zp refid ext row c = Ok (ext', c') ->
  exists node,
    ext' = dict_set (Py.str (c + 1)) node ext /\ c + 1 <= c'
    /\ filter (fun k => k ∉ json_keys tm) (tree_ids 2 node) = ids_from (c + 1) c'.
Proof.
  intros Hc. unfold V2.spd_step. intros Hrun.
  apply bind_Ok in Hrun as (id & c1 & [= -> ->]%next_id_Ok & Hrun).
  apply bind_Ok in Hrun as (ch1 & c2 & Hsafety & Hrun).
  apply bind_Ok in Hrun as (ch2 & c3 & Hperf & Hrun).
  apply bind_Ok in Hrun as (ch3 & c4 & Hfollow & Hrun).
  apply ret_Ok in Hrun as [= -> ->].
  apply (safety_counted _ _ _ (c + 1)) in Hsafety as [H1 Hle1];
    [|lia|lia|apply counted_nil].
  apply (perf_counted _ _ _ (c + 1)) in Hperf as [H2 Hle2]; [|lia|lia|done].
  apply (followup_counted _ _ _ (c + 1)) in Hfollow as [H3 Hle3]; [|lia|lia|done].
  eexists. split_and!; [reflexivity|lia|].
  rewrite tree_ids_children. exact H3.
Qed.

Lemma refid_step_counted refid_key df c top c' :
  V2.start_from tm <= c ->
  V2.refid_step bp tb zp refid_key df c = Ok (top, c') ->
  filter (fun k => k ∉ json_keys tm) (record_ids (JObj top)) = ids_from c c' /\ c <= c'.
Proof.
  intros Hc. unfold V2.refid_step. intros Hrun.
  apply bind_Ok in Hrun as (id & c1 & [= -> ->]%next_id_Ok & Hrun).
  destruct (bool_decide _); [|done].
  apply bind_Ok in Hrun as (sorted & c2 & Hsort & Hrun).
  apply lift_Ok in Hsort as [_ ->].
  apply bind_Ok in Hrun as (children & c3 & Hloop & Hrun).
  apply ret_Ok in Hrun as [= -> ->].
  apply (attach_counted 2 _ _ (c + 1)) in Hloop as [Hch Hle];
    [|intros ch0 x c0 ch0' c0' Hc0; apply spd_step_counted; lia|lia|lia|apply counted_nil].
  split; [|lia].
  unfold record_ids. simpl as_dict. rewrite get_obj_set. cbn [flat_map fst snd].
  rewrite app_nil_r, tree_ids_children.
  rewrite filter_cons, decide_True by (apply str_not_template_key; lia).
  unfold counted in Hch. rewrite Hch. symmetry. apply ids_from_cons. lia.
Qed.

Lemma collect_records_counted c out c' :
  V2.start_from tm <= c ->
  V2.collect_records bp tb zp c = Ok (out, c') ->
  filter (fun k => k ∉ json_keys tm) (flat_map record_ids out) = ids_from c c' /\ c <= c'.
Proof.
  intros Hc. unfold V2.collect_records.
  apply (for_each_inv (fun _ out c1 =>
    filter (fun k => k ∉ json_keys tm) (flat_map record_ids out) = ids_from c c1
    /\ c <= c1)).
  - split; [by rewrite ids_from_nil|lia].
  - intros seen [key df] acc c1 acc' c2 [Hacc Hle] _ Hstep.
    apply bind_Ok in Hstep as (top & c3 & Hrec & Hstep).
    apply ret_Ok in Hstep as [= -> ->].
    apply refid_step_counted in Hrec as [Htop Hle']; [|lia].
    split; [|lia].
    rewrite flat_map_snoc, filter_app, Hacc, Htop. apply ids_from_app; lia.
Qed.
End run_ids.

(** The identifiers of the output of a build of version 2 that are not
    keys of the template are, in the order of the output, exactly the
    identifiers that the factory handed out during the run. *)
Lemma v2_build_new_ids tm rest spd_df sdf pdf hdf fdf zp out c' :
  V2.build_from_files (JArr (tm :: rest)) spd_df sdf pdf hdf fdf zp = Ok (out, c') ->
  V2.start_from tm <= c'
  /\ new_ids tm out = ids_from (V2.start_from tm) c'.
Proof.
  unfold V2.build_from_files, V2.bind_result.
  destruct (V2.scan_template _) as [bp|] eqn:Hscan; [|done].
  destruct (V2.make_tables _ _ _ _ _) as [tb|] eqn:Htb; [|done].
  intros Hrun.
  pose proof (scan_template_within _ _ _ Hscan) as Hw.
  apply scan_template_master in Hscan as (rest' & [= -> ->]).
  apply (collect_records_counted (JObj (V2.template_master bp))) in Hrun as [Hids Hle];
    [|done|done].
  split; [exact Hle|exact Hids].
Qed.

(** ** Version 1: every identifier of a run *)

Lemma drawn_iff a b l :
  drawn a b l <->
  NoDup l /\ Forall (fun k => exists n, k = Py.str n /\ a < n <= b) l.
Proof.
  split.
  - intros Hd. split; [by apply drawn_NoDup in Hd|].
    destruct Hd as (ns & -> & _ & Hall). apply Forall_fmap.
    eapply Forall_impl; [exact Hall|]. intros n Hn. simpl. eauto.
  - intros [Hnd Hall]. induction l as [|k l IH]; [apply drawn_nil|].
    apply NoDup_cons in Hnd as [Hk Hnd].
    apply Forall_cons in Hall as [(n & -> & Hn) Hall].
    destruct (IH Hnd Hall) as (ns & -> & Hns & Hall').
    exists (n :: ns). split_and!; [done| |by apply Forall_cons].
    apply NoDup_cons. split; [|done]. intros Hin. apply Hk.
    apply list_elem_of_fmap. by exists n.
Qed.

Lemma flat_map_dict_set_elem {B} (f : string * json -> list B) k v (m : dict) x :
  x ∈ flat_map f (dict_set k v m) -> x ∈ flat_map f m \/ x ∈ f (k, v).
Proof.
  induction m as [|[k' v'] m IH]; simpl.
  - rewrite app_nil_r. auto.
  - destruct (decide (k = k')) as [->|Hne]; simpl; rewrite !elem_of_app.
    + intros [?|?]; auto.
    + intros [?|Hx]; [auto|]. apply IH in Hx as [?|?]; auto.
Qed.

(** Storing a form under a key, new or not, keeps the identifiers drawn:
    what was below a replaced form goes, what is below the new one
    comes. *)
Lemma drawn_dict_set (f : string * json -> list string) a b c k v (m : dict) :
  a <= b -> b <= c ->
  drawn a b (flat_map f m) -> drawn b c (f (k, v)) ->
  drawn a c (flat_map f (dict_set k v m)).
Proof.
  intros Hab Hbc [Hnd Hall]%drawn_iff [Hndv Hallv]%drawn_iff.
  apply drawn_iff. rewrite Forall_forall in Hallv. split.
  - induction m as [|[k' v'] m IH]; simpl in *; [by rewrite app_nil_r|].
    apply NoDup_app in Hnd as (Hn1 & Hdisj & Hn2).
    apply Forall_app in Hall as [Ha1 Ha2].
    destruct (decide (k = k')) as [->|Hne]; simpl.
    + apply NoDup_app. split_and!; [done| |done]. intros x Hx Hx'.
      rewrite Forall_forall in Ha2.
      destruct (Hallv x Hx) as (n & -> & Hn).
      destruct (Ha2 _ Hx') as (n' & Heq%str_inj & Hn'). lia.
    + apply NoDup_app. split_and!; [done| |by apply IH]. intros x Hx Hx'.
      apply flat_map_dict_set_elem in Hx' as [Hx'|Hx']; [by apply (Hdisj x)|].
      rewrite Forall_forall in Ha1.
      destruct (Hallv x Hx') as (n & -> & Hn).
      destruct (Ha1 _ Hx) as (n' & Heq%str_inj & Hn'). lia.
  - apply Forall_forall. intros x Hx.
    apply flat_map_dict_set_elem in Hx as [Hx|Hx].
    + rewrite Forall_forall in Hall. destruct (Hall x Hx) as (n & -> & Hn).
      exists n. split; [done|lia].
    + destruct (Hallv x Hx) as (n & -> & Hn). exists n. split; [done|lia].
Qed.

(** A loop whose iterations either leave the mapping as it is or store a
    form under an identifier drawn during the iteration. *)
Lemma v1_attach_drawn {A} (ids : string * json -> list string)
    (body : dict -> A -> M dict) xs lo ch c ch' c' :
  (forall ch x c ch' c',
     body ch x c = Ok (ch', c') ->
     (ch' = ch /\ c' = c)
     \/ exists n node, ch' = dict_set (Py.str n) node ch /\ c <= c'
                       /\ drawn c c' (ids (Py.str n, node))) ->
  lo <= c -> drawn lo c (flat_map ids ch) ->
  for_each xs ch body c = Ok (ch', c') ->
  drawn lo c' (flat_map ids ch') /\ c <= c'.
Proof.
  intros Hbody. revert ch c.
  induction xs as [|x xs IH]; intros ch c Hlo Hdr Hrun.
  - apply ret_Ok in Hrun as [= -> ->]. split; [done|lia].
  - simpl in Hrun. apply bind_Ok in Hrun as (ch1 & c1 & Hb & Hrun).
    apply Hbody in Hb as [[-> ->]|(n & node & -> & Hc1 & Hnode)].
    + by apply IH in Hrun.
    + apply IH in Hrun as [Hdr' Hle]; [split; [done|lia]|lia|].
      by apply (drawn_dict_set ids lo c c1).
Qed.

Lemma has_form_of name name' (node : dict) :
  dict_get "form" node = Some (JStr name) ->
  has_form name' (JObj node) = String.eqb name name'.
Proof. intros Hf. unfold has_form. simpl. by rewrite Hf. Qed.

Lemma drawn_pair c : drawn c (c + 2) [Py.str (c + 2); Py.str (c + 1)].
Proof.
  exists [c + 2; c + 1]. split_and!; [done| |].
  - apply NoDup_cons. split; [|apply NoDup_singleton].
    intros Hin%list_elem_of_singleton. lia.
  - apply Forall_cons. split; [lia|]. apply Forall_singleton. lia.
Qed.

Lemma label_of_perf id (node : dict) :
  dict_get "key" node = Some (JStr ("perf_" +:+ id)) ->
  label_of "perf_" (JObj node) = [id].
Proof. intros Hk. unfold label_of. cbn [as_dict]. rewrite Hk. reflexivity. Qed.

Lemma label_of_harms id (node : dict) :
  dict_get "key" node = Some (JStr ("harms_" +:+ id)) ->
  label_of "harms_" (JObj node) = [id].
Proof. intros Hk. unfold label_of. cbn [as_dict]. rewrite Hk. reflexivity. Qed.

Section v1_run_ids.
Variable t : V1.TemplateForms.
Variable sk pk fk : list ((string * string) * list Row).
Variable hb : list (string * list Row).

Lemma v1_perf_drawn refid spd_id lo ch c ch' c' :
  lo <= c -> drawn lo c (flat_map v1_child_ids ch) ->
  V1.perf_forms t pk refid spd_id ch c = Ok (ch', c') ->
  drawn lo c' (flat_map v1_child_ids ch') /\ c <= c'.
Proof.
  unfold V1.perf_forms. apply v1_attach_drawn.
  intros ch0 x c0 ch0' c0' Hb.
  destruct (V1.perf_discrete_proto t) as [proto|];
    [|apply ret_Ok in Hb as [= -> ->]; by left].
  apply bind_Ok in Hb as (id & c1 & [= -> ->]%gen_id_Ok & Hb).
  apply bind_Ok in Hb as (id' & c2 & [= -> ->]%gen_id_Ok & Hb).
  apply ret_Ok in Hb as [= -> ->]. right. eexists _, _.
  split_and!; [reflexivity|lia|].
  unfold v1_child_ids. cbn [fst snd].
  rewrite (has_form_of "Performance (discrete)")
    by (rewrite dict_get_set_ne by done; apply dict_get_set_eq).
  change (String.eqb "Performance (discrete)" "Performance (discrete)") with true.
  cbv iota.
  rewrite (label_of_perf (Py.str (c0 + 1)))
    by (rewrite !dict_get_set_ne by done; apply dict_get_set_eq).
  replace (c0 + 1 + 1) with (c0 + 2) by lia. apply drawn_pair.
Qed.

Lemma v1_harms_drawn safety_id c ch c' :
  V1.harms_forms t hb safety_id c = Ok (ch, c') ->
  drawn c c' (flat_map v1_harms_ids ch) /\ c <= c'.
Proof.
  unfold V1.harms_forms. apply v1_attach_drawn; [|lia|apply drawn_nil].
  intros ch0 x c0 ch0' c0' Hb.
  destruct (V1.harms_proto t) as [proto|];
    [|apply ret_Ok in Hb as [= -> ->]; by left].
  apply bind_Ok in Hb as (id & c1 & [= -> ->]%gen_id_Ok & Hb).
  apply bind_Ok in Hb as (id' & c2 & [= -> ->]%gen_id_Ok & Hb).
  apply ret_Ok in Hb as [= -> ->]. right. eexists _, _.
  split_and!; [reflexivity|lia|].
  unfold v1_harms_ids. cbn [fst snd].
  rewrite (label_of_harms (Py.str (c0 + 1)))
    by (rewrite !dict_get_set_ne by done; apply dict_get_set_eq).
  replace (c0 + 1 + 1) with (c0 + 2) by lia. apply drawn_pair.
Qed.

Lemma v1_safety_drawn refid spd_id lo ch c ch' c' :
  lo <= c -> drawn lo c (flat_map v1_child_ids ch) ->
  V1.safety_forms t sk hb refid spd_id ch c = Ok (ch', c') ->
  drawn lo c' (flat_map v1_child_ids ch') /\ c <= c'.
Proof.
  unfold V1.safety_forms. apply v1_attach_drawn.
  intros ch0 x c0 ch0' c0' Hb.
  destruct (V1.safety_proto t) as [proto|];
    [|apply ret_Ok in Hb as [= -> ->]; by left].
  apply bind_Ok in Hb as (label & c1 & Hlabel & Hb).
  assert (c0 <= c1) as Hc1.
  { destruct (String.eqb _ "").
    - apply gen_id_Ok in Hlabel as [= -> ->]. lia.
    - apply ret_Ok in Hlabel as [= -> ->]. lia. }
  apply bind_Ok in Hb as (harms & c2 & [Hharms Hc2]%v1_harms_drawn & Hb).
  apply bind_Ok in Hb as (id' & c3 & [= -> ->]%gen_id_Ok & Hb).
  apply ret_Ok in Hb as [= -> ->]. right. eexists _, _.
  split_and!; [reflexivity|lia|].
  unfold v1_child_ids. cbn [fst snd].
  rewrite !(has_form_of "Safety")
    by (rewrite !dict_get_set_ne by done; apply dict_get_set_eq).
  change (String.eqb "Safety" "Performance (discrete)") with false.
  change (String.eqb "Safety" "Safety") with true.
  cbv iota. cbn [as_dict]. rewrite get_obj_set.
  apply (drawn_perm c0 (c2 + 1) (flat_map v1_harms_ids harms ++ [Py.str (c2 + 1)])).
  { symmetry. apply Permutation_cons_append. }
  apply (drawn_app c0 c2 (c2 + 1)); [lia|lia| |apply drawn_one].
  by apply (drawn_weaken c1 c2).
Qed.

Lemma v1_followup_drawn refid spd_id lo ch c ch' c' :
  lo <= c -> drawn lo c (flat_map v1_child_ids ch) ->
  V1.followup_forms t fk refid spd_id ch c = Ok (ch', c') ->
  drawn lo c' (flat_map v1_child_ids ch') /\ c <= c'.
Proof.
  unfold V1.followup_forms. apply v1_attach_drawn.
  intros ch0 x c0 ch0' c0' Hb.
  apply bind_Ok in Hb as (fu_form & c1 & Hform & Hb).
  apply bind_Ok in Hb as (id' & c2 & [= -> ->]%gen_id_Ok & Hb).
  apply ret_Ok in Hb as [= -> ->].
  assert (c0 <= c1 /\ dict_get "form" fu_form = Some (JStr "Follow-up Subform"))
    as [Hc1 Hq].
  { destruct (V1.followup_proto t) as [proto|].
    - apply bind_Ok in Hform as (id & c3 & [= -> ->]%gen_id_Ok & Hform).
      apply ret_Ok in Hform as [= -> ->]. split; [lia|].
      rewrite dict_get_set_ne by done.
      rewrite dict_get_setdefault_ne by done. apply dict_get_set_eq.
    - apply bind_Ok in Hform as (id & c3 & [= -> ->]%gen_id_Ok & Hform).
      apply ret_Ok in Hform as [= -> ->]. split; [lia|]. reflexivity. }
  right. eexists _, _. split_and!; [reflexivity|lia|].
  unfold v1_child_ids. cbn [fst snd].
  rewrite !(has_form_of "Follow-up Subform") by done.
  change (String.eqb "Follow-up Subform" "Performance (discrete)") with false.
  change (String.eqb "Follow-up Subform" "Safety") with false.
  cbv iota.
  apply (drawn_weaken c1 (c1 + 1)); [lia|lia|apply drawn_one].
Qed.

Lemma v1_spd_step_drawn refid lo ext row c ext' c' :
  lo <= c -> drawn lo c (flat_map v1_spd_ids ext) ->
  V1.spd_step t sk pk fk hb refid ext row c = Ok (ext', c') ->
  drawn lo c' (flat_map v1_spd_ids ext') /\ c <= c'.
Proof.
  intros Hlo Hdr. unfold V1.spd_step.
  destruct (String.eqb _ ""); [intros [= -> ->]%ret_Ok; split; [done|lia]|].
  destruct (V1.spd_proto t) as [proto|]; [|done].
  intros Hrun.
  apply bind_Ok in Hrun as (ch1 & c1 & Hperf & Hrun).
  apply bind_Ok in Hrun as (ch2 & c2 & Hsafety & Hrun).
  apply bind_Ok in Hrun as (ch3 & c3 & Hfollow & Hrun).
  apply ret_Ok in Hrun as [= -> ->].
  apply (v1_perf_drawn _ _ c) in Hperf as [Hd1 Hle1]; [|lia|apply drawn_nil].
  apply (v1_safety_drawn _ _ c) in Hsafety as [Hd2 Hle2]; [|lia|done].
  apply (v1_followup_drawn _ _ c) in Hfollow as [Hd3 Hle3]; [|lia|done].
  split; [|lia].
  apply (drawn_dict_set v1_spd_ids lo c c3); [lia|lia|done|].
  unfold v1_spd_ids. cbn [snd as_dict]. by rewrite get_obj_set.
Qed.

Lemma v1_refid_step_drawn lo out g c out' c' :
  lo <= c -> drawn lo c (flat_map v1_ids out) ->
  V1.refid_step t sk pk fk hb out g c = Ok (out', c') ->
  drawn lo c' (flat_map v1_ids out') /\ c <= c'.
Proof.
  intros Hlo Hdr. unfold V1.refid_step. intros Hrun.
  apply bind_Ok in Hrun as (ds_id & c1 & [= -> ->]%gen_id_Ok & Hrun).
  apply bind_Ok in Hrun as (extraction & c1' & [_ ->]%lift_Ok & Hrun).
  apply bind_Ok in Hrun as (children & c2 & Hloop & Hrun).
  apply ret_Ok in Hrun as [= -> ->].
  apply (for_each_inv (fun _ ch c0 =>
           drawn (c + 1) c0 (flat_map v1_spd_ids ch) /\ c + 1 <= c0)) in Hloop.
  - destruct Hloop as [Hch Hle]. split; [|lia].
    rewrite flat_map_snoc. apply (drawn_app lo c c2); [lia|lia|done|].
    unfold v1_ids. cbn [as_dict].
    change (get_obj "data_sets" _)
      with [(Py.str (c + 1), JObj (dict_set "child_forms" (JObj children) extraction))].
    cbn [flat_map fst snd as_dict]. rewrite get_obj_set, app_nil_r.
    apply (drawn_app c (c + 1) c2 [Py.str (c + 1)]); [lia|lia|apply drawn_one|done].
  - split; [apply drawn_nil|lia].
  - intros seen row acc c0 acc' c0' [Hacc Hle] _ Hstep.
    apply (v1_spd_step_drawn _ (c + 1)) in Hstep as [Hd Hle']; [|lia|done].
    split; [done|lia].
Qed.
End v1_run_ids.

(** The identifiers of the output of a build of version 1 were drawn
    during the run, each once. *)
Lemma v1_build_drawn t spd_rows safety_rows perf_rows harms_rows followup_rows c out c' :
  V1.build t spd_rows safety_rows perf_rows harms_rows followup_rows c = Ok (out, c') ->
  drawn c c' (flat_map v1_ids out) /\ c <= c'.
Proof.
  unfold V1.build.
  apply (for_each_inv (fun _ out c0 => drawn c c0 (flat_map v1_ids out) /\ c <= c0)).
  - split; [apply drawn_nil|lia].
  - intros seen g acc c0 acc' c0' [Hacc Hle] _ Hstep.
    apply (v1_refid_step_drawn _ _ _ _ _ c) in Hstep as [Hd Hle']; [|lia|done].
    split; [done|lia].
Qed.

Lemma drawn_gen_ids c c' l k :
  drawn c c' l -> k ∈ l -> k ∈ gen_ids (Z.to_nat (c' - c)) c.
Proof.
  intros (ns & -> & _ & Hall) (n & -> & Hn)%list_elem_of_fmap.
  rewrite Forall_forall in Hall. specialize (Hall n Hn). simpl in Hall.
  rewrite gen_ids_spec. apply list_elem_of_fmap. exists (Z.to_nat (n - c)).
  split; [f_equal; lia|]. apply elem_of_seq. lia.
Qed.

(** ** The identifiers of a run are distinct and new *)

Lemma tree_ids_child d node k : k ∈ child_ids node -> k ∈ tree_ids (S d) node.
Proof.
  unfold child_ids. intros ([k' v] & -> & Hkv)%list_elem_of_fmap. simpl.
  apply list_elem_of_In, in_flat_map. exists (k', v).
  split; [by apply list_elem_of_In|by left].
Qed.

Lemma tree_ids_below d node child x :
  child ∈ children_of node -> x ∈ tree_ids d child -> x ∈ tree_ids (S d) node.
Proof.
  unfold children_of. intros ([k v] & -> & Hkv)%list_elem_of_fmap Hx. simpl.
  apply list_elem_of_In, in_flat_map. exists (k, v).
  split; [by apply list_elem_of_In|]. right. by apply list_elem_of_In.
Qed.

(** The identifiers of the Extraction, SPD, Safety, Performance and
    Follow-up nodes are among the identifiers of the record. *)
Lemma v2_ids_record_ids rec k : k ∈ v2_ids rec -> k ∈ record_ids rec.
Proof.
  unfold v2_ids, record_ids.
  set (ds := get_obj "data_sets" (as_dict rec)).
  intros [Hk|Hk]%elem_of_app; apply list_elem_of_In, in_flat_map.
  - apply list_elem_of_fmap in Hk as ([k' v] & -> & Hkv).
    exists (k', v). split; [by apply list_elem_of_In|by left].
  - apply list_elem_of_In, in_flat_map in Hk as (ext & Hext & Hk).
    apply list_elem_of_In, list_elem_of_fmap in Hext as ([k' v] & -> & Hkv).
    exists (k', v). split; [by apply list_elem_of_In|]. right.
    apply list_elem_of_In. apply list_elem_of_In in Hk. cbn [fst snd] in Hk |- *.
    unfold ids_below in Hk. apply elem_of_app in Hk as [Hk|Hk].
    + by apply tree_ids_child.
    + apply list_elem_of_In, in_flat_map in Hk as (spd & Hspd & Hk).
      apply list_elem_of_In in Hspd, Hk.
      apply (tree_ids_below 2 v spd); [done|]. by apply tree_ids_child.
Qed.

(** What a build of version 2 stores new: exactly the identifiers handed
    out during the run, each once, the identifiers of all nodes among
    them. *)
Lemma v2_build_ids tm rest spd_df sdf pdf hdf fdf zp out c' :
  V2.build_from_files (JArr (tm :: rest)) spd_df sdf pdf hdf fdf zp = Ok (out, c') ->
  V2.start_from tm <= c'
  /\ new_ids tm out
     = generated (Z.to_nat (c' - V2.start_from tm)) (V2.new_id_factory tm)
  /\ NoDup (new_ids tm out)
  /\ (forall k, k ∈ flat_map v2_ids out -> k ∈ new_ids tm out).
Proof.
  intros Hrun. pose proof Hrun as [Hle Hnew]%v2_build_new_ids.
  apply v2_build_records in Hrun as [_ Hdr].
  split_and!.
  - exact Hle.
  - rewrite Hnew. by apply ids_from_generated.
  - rewrite Hnew. by apply (drawn_NoDup (V2.start_from tm) c'), ids_from_drawn.
  - intros k Hk. unfold new_ids. apply list_elem_of_filter. split.
    + destruct Hdr as (ns & Heq & _ & Hall). rewrite Heq in Hk.
      apply list_elem_of_fmap in Hk as (n & -> & Hn).
      rewrite Forall_forall in Hall. specialize (Hall n Hn). simpl in Hall.
      apply str_not_template_key. lia.
    + apply list_elem_of_In, in_flat_map in Hk as (rec & Hrec & Hk).
      apply list_elem_of_In, in_flat_map. exists rec. split; [done|].
      by apply list_elem_of_In, v2_ids_record_ids, list_elem_of_In.
Qed.

(** No identifier of a factory seeded on the template is a key of the
    template. *)
Lemma generated_not_template_key tm n k :
  k ∈ json_keys tm -> k ∉ generated n (V2.new_id_factory tm).
Proof.
  intros Hk. rewrite generated_spec. intros Hin.
  apply list_elem_of_fmap in Hin as (i & -> & Hi). apply elem_of_seq in Hi.
  revert Hk. apply str_not_template_key. simpl. lia.
Qed.

(** C1 (amended). Every identifier of a build run is drawn by a call of
    [IdFactory.next] (version 2) or [JSONBuilder._gen_id] (version 1); the
    identifiers of [n] successive calls are pairwise distinct.  In version 2
    the counter is seeded at the maximum of the unsigned-integer keys found
    anywhere in the template (so that the first identifier is that maximum
    plus one), or at 10000 when there is none (first identifier 10001); the
    scan finds every such key at any depth; no identifier equals a key of
    the template.  In the output of a build of version 2, the identifiers
    under which the Extraction, SPD, Safety, Performance, Follow-up and
    Harms nodes are stored are, in the order of the output, exactly the
    identifiers handed out during the run, each used once; the only other
    keys down to the Harms level are keys of the template, kept by the
    copies of the Performance and Follow-up forms.  In version 1 the counter
    is seeded at 10000 whatever the template holds; in the output of a
    build, the identifiers under which the Extraction, Performance, Safety,
    Follow-up and Harms forms are stored and those in the keys [perf_<id>]
    and [harms_<id>] are pairwise distinct and are among the identifiers
    drawn during the run. *)
Theorem identifiers_distinct_and_fresh (tm : json) (n : nat) :
  let f := V2.new_id_factory tm in
  let found := V2._collect_all_numeric_keys tm [] in
  (found = [] -> V2.counter f = 10000)
  /\ (found <> [] -> V2.counter f ∈ found /\ forall x, x ∈ found -> x <= V2.counter f)
  /\ (forall k, k ∈ json_keys tm -> Py.isdigit k = true -> Py.int_of_digits k ∈ found)
  /\ generated n f = map (fun i => Py.str (V2.counter f + Z.of_nat i)) (seq 1 n)
  /\ NoDup (generated n f)
  /\ (forall k, k ∈ json_keys tm -> k ∉ generated n f)
  /\ (forall rest spd_df sdf pdf hdf fdf zp out c',
        V2.build_from_files (JArr (tm :: rest)) spd_df sdf pdf hdf fdf zp = Ok (out, c') ->
        V2.counter f <= c'
        /\ new_ids tm out = generated (Z.to_nat (c' - V2.counter f)) f
        /\ NoDup (new_ids tm out)
        /\ (forall k, k ∈ flat_map v2_ids out -> k ∈ new_ids tm out)
        /\ NoDup (flat_map v2_ids out)
        /\ forall k, k ∈ json_keys tm -> k ∉ flat_map v2_ids out)
  /\ gen_ids n V1.initial_next_id
     = map (fun i => Py.str (10000 + Z.of_nat i)) (seq 1 n)
  /\ NoDup (gen_ids n V1.initial_next_id)
  /\ (forall t spd_rows safety_rows perf_rows harms_rows followup_rows c out c',
        V1.build t spd_rows safety_rows perf_rows harms_rows followup_rows c = Ok (out, c') ->
        c <= c'
        /\ NoDup (flat_map v1_ids out)
        /\ forall k, k ∈ flat_map v1_ids out -> k ∈ gen_ids (Z.to_nat (c' - c)) c)
  /\ (forall template_obj spd_rows safety_rows perf_rows harms_rows followup_csv out c',
        V1.on_build template_obj spd_rows safety_rows perf_rows harms_rows followup_csv
        = Ok (out, c') ->
        10000 <= c'
        /\ NoDup (flat_map v1_ids out)
        /\ forall k, k ∈ flat_map v1_ids out ->
                     k ∈ gen_ids (Z.to_nat (c' - 10000)) V1.initial_next_id).
Proof.
  intros f found. destruct (start_from_spec tm) as [Hnone Hmax].
  assert (forall t spd_rows safety_rows perf_rows harms_rows followup_rows c out c',
            V1.build t spd_rows safety_rows perf_rows harms_rows followup_rows c
            = Ok (out, c') ->
            c <= c'
            /\ NoDup (flat_map v1_ids out)
            /\ forall k, k ∈ flat_map v1_ids out -> k ∈ gen_ids (Z.to_nat (c' - c)) c)
    as Hv1.
  { intros t spd_rows safety_rows perf_rows harms_rows followup_rows c out c' Hrun.
    apply v1_build_drawn in Hrun as [Hdr Hle]. split_and!; [done| |].
    - by apply drawn_NoDup in Hdr.
    - intros k. by apply drawn_gen_ids. }
  split_and!.
  - exact Hnone.
  - exact Hmax.
  - intros k. apply numeric_key_found.
  - apply generated_spec.
  - rewrite generated_spec. apply str_offsets_NoDup.
  - intros k. apply generated_not_template_key.
  - intros rest spd_df sdf pdf hdf fdf zp out c' Hrun.
    pose proof Hrun as (Hle & Hnew & Hnd & Hsub)%v2_build_ids.
    apply v2_build_records in Hrun as [_ Hdr].
    split_and!; [done..| |].
    + by apply drawn_NoDup in Hdr.
    + intros k Hk Hin. apply Hsub in Hin.
      by apply list_elem_of_filter in Hin as [Hnot _].
  - apply gen_ids_spec.
  - rewrite gen_ids_spec. apply str_offsets_NoDup.
  - exact Hv1.
  - intros template_obj spd_rows safety_rows perf_rows harms_rows followup_csv out c'.
    unfold V1.on_build.
    destruct (V1.TemplateForms_init template_obj) as [t|]; [|done].
    destruct (V1.require _ spd_rows _); [|done].
    destruct (V1.require _ safety_rows _); [|done].
    destruct (V1.require _ perf_rows _); [|done].
    destruct (V1.require _ harms_rows _); [|done].
    apply Hv1.
Qed.

Lemma identifiers_distinct_and_fresh_witness :
  let tm := JObj [("data_sets",
              JObj [("5", JObj [("child_forms", JObj [("12", JNull); ("x", JNull)])])])] in
  (V2._collect_all_numeric_keys tm [] = [5; 12]
   /\ V2.counter (V2.new_id_factory tm) ∈ [5; 12]
   /\ generated 3 (V2.new_id_factory tm) = ["13"; "14"; "15"]
   /\ ("12" ∉ generated 3 (V2.new_id_factory tm)))
  /\ (exists out,
        V2.build_from_files (JArr [sample_nested_template]) (spd_frame [spd_row "12" "1" "63"])
          (Some safety_frame) (Some perf_frame) (Some harms_frame) None false
        = Ok (out, 112)
        /\ new_ids sample_nested_template out
           = generated 7 (V2.new_id_factory sample_nested_template)
        /\ generated 7 (V2.new_id_factory sample_nested_template)
           = ["106"; "107"; "108"; "109"; "110"; "111"; "112"])
  /\ (exists out,
        V1.build sample_flat_forms [spd_row "12" "1" "63"]
          (V2.rows safety_frame) (V2.rows perf_frame) (V2.rows harms_frame) None
          V1.initial_next_id = Ok (out, 10009)
        /\ NoDup (flat_map v1_ids out)).
Proof.
  intros tm. split; [|split].
  - destruct (identifiers_distinct_and_fresh tm 3) as (_ & Hmax & _ & Hgen & _ & Hfresh & _).
    assert (V2._collect_all_numeric_keys tm [] = [5; 12]) as Hfound by reflexivity.
    split_and!.
    + exact Hfound.
    + rewrite <- Hfound. apply Hmax. by rewrite Hfound.
    + rewrite Hgen. reflexivity.
    + apply Hfresh. apply (bool_decide_unpack _). vm_compute. exact I.
  - assert (exists out,
              V2.build_from_files (JArr [sample_nested_template])
                (spd_frame [spd_row "12" "1" "63"])
                (Some safety_frame) (Some perf_frame) (Some harms_frame) None false
              = Ok (out, 112)) as [out Hrun]
      by (vm_compute; eexists; reflexivity).
    exists out. split; [exact Hrun|].
    destruct (identifiers_distinct_and_fresh sample_nested_template 7)
      as (_ & _ & _ & Hgen & _ & _ & Hbuild & _).
    destruct (Hbuild _ _ _ _ _ _ _ _ _ Hrun) as (_ & Hnew & _).
    split; [exact Hnew|]. rewrite Hgen. reflexivity.
  - assert (exists out,
              V1.build sample_flat_forms [spd_row "12" "1" "63"]
                (V2.rows safety_frame) (V2.rows perf_frame) (V2.rows harms_frame) None
                V1.initial_next_id = Ok (out, 10009)) as [out Hrun]
      by (vm_compute; eexists; reflexivity).
    exists out. split; [exact Hrun|].
    destruct (identifiers_distinct_and_fresh JNull 0)
      as (_ & _ & _ & _ & _ & _ & _ & _ & _ & Hv1 & _).
    exact (proj1 (proj2 (Hv1 _ _ _ _ _ _ _ _ _ Hrun))).
Defined.

(** C1, as stated, fails.  With the single numeric key 5 the counter of
    version 2 starts at 5, not at 6, and the first identifier is "6"; with no
    numeric key it starts at 10000 and the first identifier is "10001": the
    seed is the maximum itself.  Version 1, which never looks at the
    template, hands out "10001" although the template has that key. *)
Lemma seed_is_maximum_not_successor :
  let tm := JObj [("data_sets", JObj [("5", JObj [])])] in
  let tm0 := JObj [("data_sets", JObj [("a", JObj [])])] in
  let tm1 := JObj [("data_sets", JObj [("10001", JObj [])])] in
  V2._collect_all_numeric_keys tm [] = [5]
  /\ V2.counter (V2.new_id_factory tm) = 5
  /\ V2.counter (V2.new_id_factory tm) <> 5 + 1
  /\ generated 1 (V2.new_id_factory tm) = ["6"]
  /\ V2._collect_all_numeric_keys tm0 [] = []
  /\ V2.counter (V2.new_id_factory tm0) = 10000
  /\ generated 1 (V2.new_id_factory tm0) = ["10001"]
  /\ "10001" ∈ json_keys tm1
  /\ Py.isdigit "10001" = true
  /\ "10001" ∈ gen_ids 1 V1.initial_next_id.
Proof.
  intros tm tm0 tm1. split_and!; try reflexivity; try done.
  - apply (bool_decide_unpack _). vm_compute. exact I.
  - apply (bool_decide_unpack _). vm_compute. exact I.
Qed.

(** ** One SPD node per [spd_id] *)

(** C4 (amended). Version 1: for every unique non-empty [spd_id] within a
    [refid] the Extraction node has exactly one SPD child; its [key] field is
    [spd_<spd_id>], and it is stored in [child_forms] under that same string
    [spd_<spd_id>], which is not a generated identifier.  Version 2, when no
    [spd_id] occurs twice within a [refid]: the SPD rows of the [refid], once
    sorted, have pairwise distinct [spd_id]s and the Extraction node has
    exactly one SPD child per row, in that order; its [key] field is [spd_<n>] when the [spd_id]
    reads as the integer [n] ([spd_<nn>] with two digits when zero-padding is
    on) and [spd_<spd_id>] otherwise; it is stored under a freshly generated
    identifier: the identifiers under which the nodes of a run are stored
    (Extraction, SPD, Safety, Performance, Follow-up and Harms) are the
    identifiers handed out during the run, each used once, and none is a
    key of the template. *)
Theorem spd_node_per_spd_id :
  (forall t spd_rows safety_rows perf_rows harms_rows followup_rows c out c',
     V1.build t spd_rows safety_rows perf_rows harms_rows followup_rows c = Ok (out, c') ->
     Forall2 v1_record (V1.spd_by_refid spd_rows) out)
  /\ (forall r n, v1_spd_key r <> Py.str n)
  /\ (forall tm rest spd_df sdf pdf hdf fdf zp out c',
        V2.build_from_files (JArr (tm :: rest)) spd_df sdf pdf hdf fdf zp = Ok (out, c') ->
        distinct_spd_ids spd_df ->
        Forall2 (v2_record zp) (V2.groupby spd_df ["refid"]) out
        /\ Forall (fun g => forall sorted,
                     V2.sort_values (V2.rows g.2) = Ok sorted ->
                     NoDup (map (row_get "spd_id") sorted))
                  (V2.groupby spd_df ["refid"])
        /\ NoDup (flat_map v2_ids out)
        /\ (forall k, k ∈ json_keys tm -> k ∉ flat_map v2_ids out)
        /\ new_ids tm out
           = generated (Z.to_nat (c' - V2.start_from tm)) (V2.new_id_factory tm)
        /\ NoDup (new_ids tm out)
        /\ (forall k, k ∈ flat_map v2_ids out -> k ∈ new_ids tm out))
  /\ (forall rs sorted, V2.sort_values rs = Ok sorted -> sorted ≡ₚ rs)
  /\ V2.spd_name_of false "7" = "spd_7"
  /\ V2.spd_name_of false " 07" = "spd_7"
  /\ V2.spd_name_of true "7" = "spd_07"
  /\ V2.spd_name_of false "7b" = "spd_7b".
Proof.
  split_and!; try reflexivity.
  - intros t spd_rows safety_rows perf_rows harms_rows followup_rows c out c'.
    apply v1_build_records.
  - apply v1_spd_key_not_generated.
  - intros tm rest spd_df sdf pdf hdf fdf zp out c' Hrun Hdistinct.
    pose proof Hrun as (Hle & Hnew & Hnd & Hsub)%v2_build_ids.
    apply v2_build_records in Hrun as [Hrecs Hdr]. split_and!.
    + exact Hrecs.
    + eapply Forall_impl; [exact Hdistinct|].
      intros g Hg sorted Hsorted. simpl in Hg.
      apply sort_values_perm in Hsorted. by rewrite Hsorted.
    + by apply drawn_NoDup in Hdr.
    + intros k Hk Hin. apply Hsub in Hin.
      by apply list_elem_of_filter in Hin as [Hnot _].
    + exact Hnew.
    + exact Hnd.
    + exact Hsub.
  - apply sort_values_perm.
Qed.

Lemma spd_node_per_spd_id_witness :
  let rows := [spd_row "12" "2" "63"; spd_row "12" "10" "58"] in
  (exists out c',
     V1.build sample_forms rows [] [] [] None V1.initial_next_id = Ok (out, c')
     /\ Forall2 v1_record (V1.spd_by_refid rows) out)
  /\ (exists out c',
        V2.build_from_files (JArr [sample_template]) (spd_frame rows)
          None None None None false = Ok (out, c')
        /\ distinct_spd_ids (spd_frame rows)
        /\ Forall2 (v2_record false) (V2.groupby (spd_frame rows) ["refid"]) out
        /\ NoDup (new_ids sample_template out)).
Proof.
  intros rows. destruct spd_node_per_spd_id as (H1 & _ & H2 & _). split.
  - assert (exists out c',
              V1.build sample_forms rows [] [] [] None V1.initial_next_id = Ok (out, c'))
      as (out & c' & Hrun) by (vm_compute; eexists _, _; reflexivity).
    exists out, c'. split; [exact Hrun|]. exact (H1 _ _ _ _ _ _ _ _ _ Hrun).
  - assert (exists out c',
              V2.build_from_files (JArr [sample_template]) (spd_frame rows)
                None None None None false = Ok (out, c'))
      as (out & c' & Hrun) by (vm_compute; eexists _, _; reflexivity).
    assert (distinct_spd_ids (spd_frame rows)) as Hdistinct.
    { apply Forall_cons_2; [|apply Forall_nil_2].
      apply (bool_decide_unpack _). vm_compute. exact I. }
    exists out, c'.
    destruct (H2 _ _ _ _ _ _ _ _ _ _ Hrun Hdistinct) as (Hrecs & _ & _ & _ & _ & Hnd & _).
    split_and!; [exact Hrun|exact Hdistinct|exact Hrecs|exact Hnd].
Defined.

(** C4, as stated, fails.  Version 1 draws one identifier in this run,
    "10001", for the Extraction node, and stores the SPD node under "spd_1".
    Version 2 gives the SPD node of the [spd_id] "07" the key "spd_7". *)
Lemma spd_node_not_as_claimed :
  (exists extraction,
     V1.build sample_forms [spd_row "12" "1" "63"] [] [] [] None V1.initial_next_id
     = Ok ([JObj [("refid", JInt 12); ("tags", JArr []); ("attachments", JArr []);
                  ("biblio_string", JStr "");
                  ("data_sets", JObj [("10001", JObj extraction)])]], 10001)
     /\ child_ids (JObj extraction) = ["spd_1"]
     /\ gen_ids 1 V1.initial_next_id = ["10001"])
  /\ (exists out c',
        V2.build_from_files (JArr [sample_template]) (spd_frame [spd_row "12" "07" "63"])
          None None None None false = Ok (out, c')
        /\ map (fun rec =>
                  map (fun kv => dict_get "key" (as_dict kv.2))
                      (flat_map (fun ext => get_obj "child_forms" (as_dict ext))
                                (dict_values (get_obj "data_sets" (as_dict rec)))))
               out
           = [[Some (JStr "spd_7")]]).
Proof.
  split.
  - eexists. split_and!; [vm_compute; reflexivity|reflexivity|reflexivity].
  - do 2 eexists. split; [vm_compute; reflexivity|reflexivity].
Qed.
